(** * Faytuks tweet engine: pattern detection, knowledge lookups and the
      file-backed draft queue

    A shallow embedding of the parts of [faytuks_engine.py] that carry the
    logic of the program: [auto_detect_pattern] with its trigger table,
    [TweetEnricher], [KnowledgeBase.get_anniversary_for_date],
    [DraftManager], [FaytuksDaemon] and [CorpusManager].

    Conventions of the embedding.
    - A Python [str] is a [string] of 8-bit characters; [str_lower] is
      [str.lower] on ASCII letters and leaves every other character alone.
    - A value produced by [json.load] is a [json] term; a Python [dict] is an
      association list in insertion order (Python dicts and [json.dump]
      keep that order).
    - A draft file holds the JSON document that [json.dump] wrote into it,
      so a draft directory is a finite map from file names to [json]
      documents; the generation-history file holds its text, written by
      [json_dump] and read by [json_load], which [json_load_dump] relates.
    - A Python exception is the [Raised] outcome of a call. *)

From Stdlib Require Import String Ascii List ZArith QArith Lia Sorted Permutation.
From Stdlib Require Import DecimalString DecimalPos DecimalN.
From Stdlib Require DecimalFacts.
From stdpp Require Import base gmap strings list.
Import ListNotations.
Open Scope string_scope.
Open Scope list_scope.
Set Warnings "-register-all".
#[local] Arguments append !s1 s2 : simpl nomatch.

(** ** Python strings *)

Definition ascii_lower (c : ascii) : ascii :=
  let n := nat_of_ascii c in
  if (65 <=? n)%nat && (n <=? 90)%nat then ascii_of_nat (n + 32) else c.

(** [s.lower()] on ASCII text: the letters [A] to [Z] are lowered and every
    other character is kept.  [str.lower] lowers the cased letters of the
    other scripts as well; these are kept as they are here. *)
Fixpoint str_lower (s : string) : string :=
  match s with
  | EmptyString => EmptyString
  | String c s' => String (ascii_lower c) (str_lower s')
  end.

(** [s.startswith(p)] *)
Fixpoint str_startswith (p s : string) : bool :=
  match p with
  | EmptyString => true
  | String c p' =>
      match s with
      | EmptyString => false
      | String d s' => if Ascii.eqb c d then str_startswith p' s' else false
      end
  end.

(** [needle in hay] *)
Fixpoint str_in (needle hay : string) : bool :=
  if str_startswith needle hay then true
  else match hay with
       | EmptyString => false
       | String _ hay' => str_in needle hay'
       end.

(** [s.endswith(suffix)], by position, as [str.endswith] compares the last
    [len(suffix)] characters *)
Fixpoint str_endswith (suffix s : string) : bool :=
  if String.eqb suffix s then true
  else match s with
       | EmptyString => false
       | String _ s' => str_endswith suffix s'
       end.

(** ** JSON documents and Python dicts *)

Inductive json : Type :=
| JNull
| JBool (b : bool)
| JInt (n : Z)
| JFloat (repr : string)      (* a float, named by its [repr] *)
| JStr (s : string)
| JArr (items : list json)
| JObj (fields : list (string * json)).

(** [d.get(k)] / [k in d] *)
Fixpoint py_get (k : string) (d : list (string * json)) : option json :=
  match d with
  | [] => None
  | (k', v) :: d' => if String.eqb k k' then Some v else py_get k d'
  end.

(** [d[k] = v]: an existing key keeps its place, a new key goes last *)
Fixpoint py_set (k : string) (v : json) (d : list (string * json)) : list (string * json) :=
  match d with
  | [] => [(k, v)]
  | (k', v') :: d' =>
      if String.eqb k k' then (k, v) :: d' else (k', v') :: py_set k v d'
  end.

(** [d.get(k, default)] *)
Definition py_get_default (k : string) (default : json) (d : list (string * json)) : json :=
  match py_get k d with Some v => v | None => default end.

Inductive exn : Type :=
| AttributeError | TypeError | KeyError | ValueError.

Inductive outcome (A : Type) : Type :=
| Returned (a : A)
| Raised (e : exn).
Arguments Returned {A} a.
Arguments Raised {A} e.

(** ** [sorted(xs, key=..., reverse=True)]

    Python's sort is stable, also under [reverse=True]: elements with equal
    keys keep their original relative order.  [le] is [<=] on the keys. *)

Section SortedDesc.
Context {A K : Type} (le : K -> K -> bool) (key : A -> K).

Fixpoint insert_desc (x : A) (l : list A) : list A :=
  match l with
  | [] => [x]
  | y :: l' =>
      if le (key y) (key x) then x :: y :: l'
      else y :: insert_desc x l'
  end.

Fixpoint sorted_desc (l : list A) : list A :=
  match l with
  | [] => []
  | x :: l' => insert_desc x (sorted_desc l')
  end.
End SortedDesc.

(** ** PatternMatcher: [PATTERN_TRIGGERS] and [auto_detect_pattern] *)

Definition PATTERN_TRIGGERS : list (string * list string) :=
  [ ("fire_parallel", ["fire"; "burn"; "arson"; "flames"; "Cinema Rex"; "Rasht"; "bazaar"; "trapped"]);
    ("counter_revolution", ["revolution"; "1979"; "hijacked"; "Khomeini"; "stole"; "1978"; "grandchildren"]);
    ("western_betrayal", ["West"; "US"; "Europe"; "silent"; "Guadeloupe"; "Carter"; "abandoned"; "betrayal"]);
    ("iraq_contrast", ["Iraq"; "invasion"; "regime change"; "troops"; "Afghanistan"; "Vietnam"; "quagmire"]);
    ("ethnic_unity", ["Kurd"; "Azeri"; "Baluch"; "Arab"; "fragment"; "unity"; "ethnic"; "Yugoslavia"]);
    ("massacre_escalation", ["killed"; "massacre"; "death toll"; "1988"; "executed"; "bodies"; "hospital"]);
    ("great_power_game", ["China"; "Russia"; "Turkmenchay"; "Silk Road"; "partner"; "deal"]);
    ("constitutional_memory", ["1906"; "constitution"; "Mossadegh"; "democratic"; "parliament"; "Majles"]);
    ("geography_fortress", ["geography"; "mountains"; "invasion"; "fortress"; "Zagros"; "terrain"]);
    ("diaspora_return", ["diaspora"; "return"; "exile"; "abroad"; "4 million"; "educated"]) ].

(** One entry of the result: [(pattern_name, score, matched_keywords)]. *)
Definition detection : Type := string * Q * list string.

Definition det_pattern (d : detection) : string := fst (fst d).
Definition det_score (d : detection) : Q := snd (fst d).
Definition det_matched (d : detection) : list string := snd d.

(** [[t for t in triggers if t.lower() in text_lower]] *)
Definition matched_keywords (triggers : list string) (text_lower : string) : list string :=
  List.filter (fun t => str_in (str_lower t) text_lower) triggers.

(** [len(matched) / len(triggers)].  The source divides two small integers
    in floating point; the quotients of the table (denominators up to 8)
    are far apart, and correctly rounded division keeps both their order
    and their equalities, so the exact rational stands for the float. *)
Definition score_of (matched triggers : list string) : Q :=
  Z.of_nat (length matched) # Pos.of_nat (length triggers).

(** The [for pattern, triggers in PATTERN_TRIGGERS.items()] loop. *)
Fixpoint scan_triggers (table : list (string * list string)) (text_lower : string)
  : list detection :=
  match table with
  | [] => []
  | (pattern, triggers) :: rest =>
      match matched_keywords triggers text_lower with
      | [] => scan_triggers rest text_lower
      | matched => (pattern, score_of matched triggers, matched)
                     :: scan_triggers rest text_lower
      end
  end.

Definition auto_detect_pattern (text : string) : list detection :=
  let text_lower := str_lower text in
  let results := scan_triggers PATTERN_TRIGGERS text_lower in
  (* results.sort(key=lambda x: x[1], reverse=True) *)
  sorted_desc Qle_bool det_score results.

(** Position of a pattern in the table (its length when absent). *)
Fixpoint pos_in (keys : list string) (p : string) : nat :=
  match keys with
  | [] => 0
  | k :: ks => if String.eqb k p then 0 else S (pos_in ks p)
  end.

Definition table_pos (p : string) : nat := pos_in (map fst PATTERN_TRIGGERS) p.

(** ** Exceptions as outcomes *)

Definition obind {A B : Type} (m : outcome A) (k : A -> outcome B) : outcome B :=
  match m with
  | Returned a => k a
  | Raised e => Raised e
  end.

Notation "'do' x <- m ; k" := (obind m (fun x => k))
  (at level 10, x name, m at level 100, k at level 200).

(** [x.get] on a JSON value: only a dict has the method. *)
Definition as_dict (v : json) : outcome (list (string * json)) :=
  match v with
  | JObj d => Returned d
  | _ => Raised AttributeError
  end.

(** [x.lower()], [x.replace], [x.startswith]: only a str has the method. *)
Definition as_str (v : json) : outcome string :=
  match v with
  | JStr s => Returned s
  | _ => Raised AttributeError
  end.

(** What a [for x in v] loop iterates over: the items of a list, the keys
    of a dict, the characters of a str; anything else is not iterable. *)
Fixpoint str_chars (s : string) : list json :=
  match s with
  | EmptyString => []
  | String c s' => JStr (String c EmptyString) :: str_chars s'
  end.

Definition py_iter (v : json) : outcome (list json) :=
  match v with
  | JArr items => Returned items
  | JObj d => Returned (map (fun kv => JStr (fst kv)) d)
  | JStr s => Returned (str_chars s)
  | _ => Raised TypeError
  end.

(** Truth value of a JSON value ([if v], [not v], [v or default]). *)
Definition py_truthy (v : json) : bool :=
  match v with
  | JNull => false
  | JBool b => b
  | JInt n => negb (n =? 0)%Z
  | JFloat r => negb (String.eqb r "0.0" || String.eqb r "-0.0")
  | JStr s => negb (String.eqb s "")
  | JArr items => match items with [] => false | _ => true end
  | JObj d => match d with [] => false | _ => true end
  end.

(** A loop body run on every element in order; the first exception ends
    the loop. *)
Fixpoint for_each {A B : Type} (body : A -> outcome B) (l : list A) : outcome (list B) :=
  match l with
  | [] => Returned []
  | x :: l' =>
      do y <- body x;
      do ys <- for_each body l';
      Returned (y :: ys)
  end.

(** ** Clock readings and their formats *)

(** A reading of [datetime.now()].  The fields of a [datetime] lie in their
    calendar ranges (year 1000..9999 for a present-day clock), so each one
    prints at its fixed width. *)
Record datetime : Type := {
  dt_year : N; dt_month : N; dt_day : N;
  dt_hour : N; dt_minute : N; dt_second : N;
  dt_microsecond : N
}.

Definition digit (n : N) : ascii := ascii_of_N (48 + n mod 10).

Definition pad2 (n : N) : string :=
  String (digit (n / 10)) (String (digit n) EmptyString).

Definition pad4 (n : N) : string := pad2 (n / 100) +:+ pad2 n.

Definition pad6 (n : N) : string := pad2 (n / 10000) +:+ pad4 n.

(** [t.strftime("%Y%m%d_%H%M%S")] *)
Definition strftime_id (t : datetime) : string :=
  pad4 (dt_year t) +:+ pad2 (dt_month t) +:+ pad2 (dt_day t) +:+ "_"
  +:+ pad2 (dt_hour t) +:+ pad2 (dt_minute t) +:+ pad2 (dt_second t).

(** [t.isoformat()]: the microseconds are left out when they are zero. *)
Definition isoformat (t : datetime) : string :=
  pad4 (dt_year t) +:+ "-" +:+ pad2 (dt_month t) +:+ "-" +:+ pad2 (dt_day t) +:+ "T"
  +:+ pad2 (dt_hour t) +:+ ":" +:+ pad2 (dt_minute t) +:+ ":" +:+ pad2 (dt_second t)
  +:+ (if (dt_microsecond t =? 0)%N then "" else "." +:+ pad6 (dt_microsecond t)).

(** [f"{n:02d}"] for an arbitrary int: at least two characters, the sign
    counted in the width. *)
Definition dec (n : N) : string := NilZero.string_of_uint (N.to_uint n).

Definition format_02d (n : Z) : string :=
  if (n <? 0)%Z then "-" +:+ dec (Z.to_N (- n))
  else if (n <? 10)%Z then "0" +:+ dec (Z.to_N n)
  else dec (Z.to_N n).

(** ** KnowledgeBase *)

(** [self.data] of a [KnowledgeBase]: the loaded documents by registry key. *)
Definition kb_data : Type := list (string * json).

(** [d.get(k, {})] followed by a method call on the result *)
Definition get_or_empty_dict (k : string) (d : list (string * json)) : json :=
  py_get_default k (JObj []) d.

(** [get_facts()] with no category: [self.data.get("facts", {}).get("facts", [])] *)
Definition get_facts (data : kb_data) : outcome json :=
  do doc <- as_dict (get_or_empty_dict "facts" data);
  Returned (py_get_default "facts" (JArr []) doc).

Definition month_names : list string :=
  [""; "january"; "february"; "march"; "april"; "may"; "june";
   "july"; "august"; "september"; "october"; "november"; "december"].

(** [self.data.get("calendar", {}).get("anniversary_calendar", {})] *)
Definition kb_calendar (data : kb_data) : outcome json :=
  do doc <- as_dict (get_or_empty_dict "calendar" data);
  Returned (get_or_empty_dict "anniversary_calendar" doc).

(** The test of the loop body:
    [event_date == date_str or event_date.startswith(date_str)] *)
Definition event_on (date_str : string) (event : json) : outcome bool :=
  do ev <- as_dict event;
  let event_date := py_get_default "date" (JStr "") ev in
  match event_date with
  | JStr s => Returned (String.eqb s date_str || str_startswith date_str s)
  | _ => Raised AttributeError
  end.

Fixpoint select_events (date_str : string) (events : list json) : outcome (list json) :=
  match events with
  | [] => Returned []
  | event :: rest =>
      do hit <- event_on date_str event;
      do results <- select_events date_str rest;
      Returned (if hit then event :: results else results)
  end.

Definition get_anniversary_for_date (data : kb_data) (month day : Z) : outcome (list json) :=
  do calendar <- kb_calendar data;
  let month_key :=
    if (1 <=? month)%Z && (month <=? 12)%Z then nth (Z.to_nat month) month_names "" else "" in
  do cal <- as_dict calendar;
  let month_events := py_get_default month_key (JArr []) cal in
  let date_str := format_02d month +:+ "-" +:+ format_02d day in
  do events <- py_iter month_events;
  select_events date_str events.

(** ** TweetEnricher *)

(** [matches[0][0] if matches else None] *)
Definition detect_pattern (text : string) : option string :=
  match auto_detect_pattern text with
  | [] => None
  | best :: _ => Some (det_pattern best)
  end.

(** The [pattern_facts] table of [get_historical_context]. *)
Definition pattern_facts : list (string * list string) :=
  [ ("fire_parallel", ["Cinema Rex"; "Rasht"; "arson"]);
    ("massacre_escalation", ["1988"; "2019"; "Bloody November"; "death toll"]);
    ("counter_revolution", ["1979"; "Khomeini"; "hijacked"]);
    ("western_betrayal", ["Guadeloupe"; "Carter"; "1979"]);
    ("constitutional_memory", ["1906"; "Mossadegh"; "constitutional"]);
    ("ethnic_unity", ["Khuzestan"; "Azerbaijan"; "unity"]);
    ("great_power_game", ["Turkmenchay"; "China"; "Russia"]);
    ("iraq_contrast", ["Iraq"; "2003"; "Afghanistan"]);
    ("diaspora_return", ["diaspora"; "exile"; "4 million"]) ].

Definition era_mapping : list (string * string) :=
  [ ("fire_parallel", "1978_revolution");
    ("counter_revolution", "islamic_republic_1979");
    ("constitutional_memory", "constitutional_1906");
    ("massacre_escalation", "uprisings_2019_2022") ].

Fixpoint assoc {V : Type} (k : string) (table : list (string * V)) : option V :=
  match table with
  | [] => None
  | (k', v) :: rest => if String.eqb k k' then Some v else assoc k rest
  end.

(** [table.get(pattern)] / [pattern in table] for a table with str keys and
    a key that may be any JSON value: a list or a dict cannot be hashed, and
    a value that is not a str equals no key. *)
Definition lookup_pattern {V : Type} (pattern : json) (table : list (string * V))
  : outcome (option V) :=
  match pattern with
  | JStr p => Returned (assoc p table)
  | JArr _ | JObj _ => Raised TypeError
  | _ => Returned None
  end.

(** The test of the loop body:
    [text = fact.get("fact", "").lower()];
    [any(kw.lower() in text for kw in keywords)] *)
Definition fact_relevant (keywords : list string) (fact : json) : outcome bool :=
  do f <- as_dict fact;
  do raw <- as_str (py_get_default "fact" (JStr "") f);
  let text := str_lower raw in
  Returned (existsb (fun kw => str_in (str_lower kw) text) keywords).

Fixpoint select_facts (keywords : list string) (facts : list json) : outcome (list json) :=
  match facts with
  | [] => Returned []
  | fact :: rest =>
      do hit <- fact_relevant keywords fact;
      do relevant <- select_facts keywords rest;
      Returned (if hit then fact :: relevant else relevant)
  end.

Definition get_historical_context (data : kb_data) (pattern : json)
  : outcome (list (string * json)) :=
  do facts <- get_facts data;
  let history := get_or_empty_dict "history" data in
  do found <- lookup_pattern pattern pattern_facts;
  let keywords := match found with Some kws => kws | None => [] end in
  do fact_list <- py_iter facts;
  do relevant_facts <- select_facts keywords fact_list;
  do hist <- as_dict history;
  let eras := get_or_empty_dict "eras" hist in
  do era_key <- lookup_pattern pattern era_mapping;
  do relevant_era <-
    match era_key with
    | Some key => do e <- as_dict eras; Returned (py_get_default key JNull e)
    | None => Returned JNull
    end;
  Returned [ ("facts", JArr (firstn 3 relevant_facts));
             ("era", relevant_era);
             ("pattern", pattern) ].

(** [len(v)] *)
Definition py_len (v : json) : outcome Z :=
  match v with
  | JArr items => Returned (Z.of_nat (length items))
  | JObj d => Returned (Z.of_nat (length d))
  | JStr s => Returned (Z.of_nat (String.length s))
  | _ => Raised TypeError
  end.

(** [enrich_draft(draft)] with the default [claude_client=None]; the branch
    for a client only adds the generated text and its prompt to the result. *)
Definition enrich_draft (data : kb_data) (draft : json) : outcome json :=
  do d <- as_dict draft;
  do text <- as_str (py_get_default "english" (JStr "") d);
  let fallback := py_get_default "pattern" (JStr "massacre_escalation") d in
  let pattern :=
    match detect_pattern text with
    | Some p => if String.eqb p "" then fallback else JStr p
    | None => fallback
    end in
  do context <- get_historical_context data pattern;
  do facts_count <- py_len (py_get_default "facts" (JArr []) context);
  let era := py_get_default "era" JNull context in
  do era_name <-
    (if py_truthy era
     then do e <- as_dict (py_get_default "era" (JObj []) context);
          Returned (py_get_default "name" JNull e)
     else Returned JNull);
  Returned (JObj (py_set "historical_context"
                    (JObj [ ("facts_count", JInt facts_count); ("era", era_name) ])
                    (py_set "detected_pattern" pattern d))).

(** ** DraftManager: three directories of draft files *)

Record store : Type := {
  pending : gmap string json;
  approved : gmap string json;
  posted : gmap string json
}.

Definition empty_store : store :=
  {| pending := ∅; approved := ∅; posted := ∅ |}.

Definition draft_file (draft_id : string) : string :=
  "draft_" +:+ draft_id +:+ ".json".

(** The part of [name] before a final [suffix], if it ends with it. *)
Fixpoint strip_suffix (suffix name : string) : option string :=
  if String.eqb suffix name then Some EmptyString
  else match name with
       | EmptyString => None
       | String c name' => option_map (String c) (strip_suffix suffix name')
       end.

(** Selection of [name] by the glob pattern [*{draft_id}*.json] when
    [draft_id] has no glob metacharacter: the name ends in [.json] and
    [draft_id] occurs before that ending. *)
Definition contains_json (draft_id name : string) : bool :=
  match strip_suffix ".json" name with
  | Some stem => str_in draft_id stem
  | None => false
  end.

Definition glob_special (c : ascii) : bool :=
  Ascii.eqb c "*" || Ascii.eqb c "?" || Ascii.eqb c "[" || Ascii.eqb c "/".

Fixpoint no_special (s : string) : bool :=
  match s with
  | EmptyString => true
  | String c s' => negb (glob_special c) && no_special s'
  end.

(** A non-empty identifier without [*], [?], [[] and [/]. *)
Definition plain_id (s : string) : bool :=
  match s with
  | EmptyString => false
  | String _ _ => no_special s
  end.

(** What [pathlib] and the file system decide for the program.
    - [glob_invalid draft_id]: [glob] refuses the pattern
      [*{draft_id}*.json] with a [ValueError].  Up to Python 3.12 it does
      so when [**] is part of a path component without being the whole of
      it, as in [**.json], the pattern of the empty identifier.  The
      pattern of a non-empty identifier without [*], [?], [[] and [/] is
      never refused.
    - [glob_id draft_id name]: the pattern, when it is accepted, selects
      the file [name]; for a non-empty identifier without [*], [?], [[] and
      [/] this is a substring test on the name before [.json].
    - [scandir d]: the order in which the entries of a directory are
      produced; any order is possible, every entry comes once. *)
Class DirListing : Type := {
  glob_invalid : string -> bool;
  glob_id : string -> string -> bool;
  scandir : gmap string json -> list (string * json);
  glob_invalid_plain : forall draft_id,
    plain_id draft_id = true -> glob_invalid draft_id = false;
  glob_id_plain : forall draft_id name,
    plain_id draft_id = true -> glob_id draft_id name = contains_json draft_id name;
  scandir_perm : forall d, scandir d ≡ₚ map_to_list d
}.

Definition str_list (l : list string) : json := JArr (map JStr l).

(** [x or []] for an optional list argument *)
Definition or_empty (o : option (list string)) : list string :=
  match o with
  | Some l => l
  | None => []
  end.

(** [tweet_id] of [mark_posted]: a str or [None] *)
Definition opt_str (o : option string) : json :=
  match o with
  | Some s => JStr s
  | None => JNull
  end.

(** The sort key of [list_pending]: [d.get("created_at", "")] *)
Definition created_at_key (d : json) : json :=
  match d with
  | JObj f => py_get_default "created_at" (JStr "") f
  | _ => JStr ""
  end.

Definition is_dict (v : json) : bool :=
  match v with JObj _ => true | _ => false end.

Definition is_str (v : json) : bool :=
  match v with JStr _ => true | _ => false end.

Definition str_of (v : json) : string :=
  match v with JStr s => s | _ => "" end.

(** The [draft] dict of [save_draft]. *)
Definition new_draft (draft_id created_at english persian pattern : string)
    (media hashtags sources : option (list string)) : json :=
  JObj [ ("id", JStr draft_id);
         ("created_at", JStr created_at);
         ("status", JStr "pending");
         ("pattern", JStr pattern);
         ("english", JStr english);
         ("persian", JStr persian);
         ("media", str_list (or_empty media));
         ("hashtags", str_list (or_empty hashtags));
         ("sources", str_list (or_empty sources));
         ("posted_at", JNull);
         ("tweet_id", JNull) ].

Section DraftManager.
Context {L : DirListing}.

(** First file that [dir.glob(f"*{draft_id}*.json")] produces, for a
    pattern that is accepted. *)
Definition glob_first (draft_id : string) (d : gmap string json) : option (string * json) :=
  head (List.filter (fun e => glob_id draft_id (fst e)) (scandir d)).

(** Files that [dir.glob("*.json")] produces. *)
Definition glob_json (d : gmap string json) : list (string * json) :=
  List.filter (fun e => str_endswith ".json" (fst e)) (scandir d).

(** [save_draft]: [now_id] and [now_created] are the two readings of
    [datetime.now()], the first for the identifier, the second for
    [created_at].  The result is the file name of the returned path. *)
Definition save_draft (now_id now_created : datetime)
    (english persian pattern : string)
    (media hashtags sources : option (list string)) (st : store) : string * store :=
  let draft_id := strftime_id now_id in
  let draft := new_draft draft_id (isoformat now_created) english persian pattern
                 media hashtags sources in
  let name := draft_file draft_id in
  (name, {| pending := <[name := draft]> (pending st);
            approved := approved st;
            posted := posted st |}).

(** [list_pending].  Every record has to be a dict for [d.get]; the keys
    are compared as strings.  With two or more records of which one has a
    key that is no str the sort is reported as a [TypeError], which is what
    comparing a str with another type gives; orders among keys that are
    all numbers are not modelled. *)
Definition list_pending (st : store) : outcome (list json) :=
  let drafts := map snd (glob_json (pending st)) in
  if negb (forallb is_dict drafts) then Raised AttributeError
  else if forallb (fun d => is_str (created_at_key d)) drafts
       then Returned (sorted_desc String.leb (fun d => str_of (created_at_key d)) drafts)
  else if (length drafts <? 2)%nat then Returned drafts
  else Raised TypeError.

(** [approve_draft]: the [for] loop raises the [ValueError] of a refused
    pattern before anything is moved; [f.rename(dest)] replaces a file of
    that name in [approved] (POSIX). *)
Definition approve_draft (draft_id : string) (st : store) : outcome bool * store :=
  if glob_invalid draft_id then (Raised ValueError, st)
  else
    match glob_first draft_id (pending st) with
    | Some (name, doc) =>
        (Returned true, {| pending := delete name (pending st);
                           approved := <[name := doc]> (approved st);
                           posted := posted st |})
    | None => (Returned false, st)
    end.

(** [mark_posted]: a refused pattern raises its [ValueError] when the loop
    starts; the three assignments need the loaded document to be a dict.
    Either exception comes before any file is written. *)
Definition mark_posted (draft_id : string) (tweet_id : option string) (now : datetime)
    (st : store) : outcome bool * store :=
  if glob_invalid draft_id then (Raised ValueError, st)
  else
    match glob_first draft_id (approved st) with
    | Some (name, doc) =>
        match doc with
        | JObj draft =>
            let draft := py_set "status" (JStr "posted") draft in
            let draft := py_set "posted_at" (JStr (isoformat now)) draft in
            let draft := py_set "tweet_id" (opt_str tweet_id) draft in
            (Returned true,
             {| pending := pending st;
                approved := delete name (approved st);
                posted := <[name := JObj draft]> (posted st) |})
        | _ => (Raised TypeError, st)
        end
    | None => (Returned false, st)
    end.

(** One folder of the [--reject] / [queue reject] handlers, for a pattern
    that is accepted: the first file matching the identifier is unlinked
    (the [break] leaves the inner loop only). *)
Definition reject_in (draft_id : string) (d : gmap string json) : gmap string json :=
  match glob_first draft_id d with
  | Some (name, _) => delete name d
  | None => d
  end.

(** The handlers: [pending] and then [approved]; a refused pattern raises
    its [ValueError] at the first folder, before any file is unlinked. *)
Definition reject (draft_id : string) (st : store) : outcome unit * store :=
  if glob_invalid draft_id then (Raised ValueError, st)
  else
    (Returned tt,
     {| pending := reject_in draft_id (pending st);
        approved := reject_in draft_id (approved st);
        posted := posted st |}).

(** *** Sequences of lifecycle operations *)

Inductive op : Type :=
| Create (now_id now_created : datetime) (english persian pattern : string)
         (media hashtags sources : option (list string))
| Approve (draft_id : string)
| MarkPosted (draft_id : string) (tweet_id : option string) (now : datetime)
| Reject (draft_id : string).

Definition step (st : store) (o : op) : store :=
  match o with
  | Create t1 t2 en fa pat media tags srcs =>
      snd (save_draft t1 t2 en fa pat media tags srcs st)
  | Approve i => snd (approve_draft i st)
  | MarkPosted i tw now => snd (mark_posted i tw now st)
  | Reject i => snd (reject i st)
  end.

Definition run (st : store) (ops : list op) : store := fold_left step ops st.

(** Every [Create] of the sequence comes at a clock second whose file name
    is, at that moment, neither in [approved] nor in [posted]. *)
Fixpoint fresh_creates (st : store) (ops : list op) : bool :=
  match ops with
  | [] => true
  | o :: rest =>
      match o with
      | Create t1 _ _ _ _ _ _ _ =>
          let name := draft_file (strftime_id t1) in
          match approved st !! name, posted st !! name with
          | None, None => fresh_creates (step st o) rest
          | _, _ => false
          end
      | _ => fresh_creates (step st o) rest
      end
  end.

(** Records on disk that carry the identifier [i]. *)
Definition has_id (i : string) (doc : json) : bool :=
  match doc with
  | JObj f => match py_get "id" f with
              | Some (JStr j) => String.eqb i j
              | _ => false
              end
  | _ => false
  end.

Definition count_in (i : string) (d : gmap string json) : nat :=
  length (List.filter (fun e => has_id i (snd e)) (map_to_list d)).

Definition records_with_id (st : store) (i : string) : nat :=
  count_in i (pending st) + count_in i (approved st) + count_in i (posted st).
End DraftManager.

(** ** FaytuksDaemon: one ingestion cycle *)

(** [datetime.fromisoformat(s)] as an instant, in microseconds since the
    epoch, when [s] parses to a datetime with a UTC offset.  [None] stands
    for the two failures that the bare [except] of the loop swallows: the
    string does not parse, or it parses to a naive datetime, which
    [ts > cutoff] cannot compare with the aware cutoff. *)
Class IsoParser : Type := {
  fromisoformat : string -> option Z
}.

(** [s.replace('Z', '+00:00')] *)
Fixpoint replace_Z (s : string) : string :=
  match s with
  | EmptyString => EmptyString
  | String c s' =>
      if Ascii.eqb c "Z" then "+00:00" +:+ replace_Z s' else String c (replace_Z s')
  end.

(** [bucket_files.get(bucket, [])]: the path of each file with its handle,
    [file_path.stem.replace('-tweets', '')]. *)
Definition bucket_files (bucket : string) : list (string * string) :=
  if String.eqb bucket "breaking" then
    [ ("buckets/breaking/middleeast_24-tweets.json", "middleeast_24") ]
  else if String.eqb bucket "commentary" then
    [ ("buckets/commentary/__injaneb96-tweets.json", "__injaneb96");
      ("buckets/commentary/realneo101-tweets.json", "realneo101") ]
  else if String.eqb bucket "geopolitics" then
    [ ("buckets/geopolitics/jasonmbrodsky-tweets.json", "jasonmbrodsky");
      ("buckets/geopolitics/ariaramesh-tweets.json", "ariaramesh") ]
  else [].

(** [Path(path).stem]: the name without its last suffix. *)
Fixpoint has_dot (s : string) : bool :=
  match s with
  | EmptyString => false
  | String c s' => Ascii.eqb c "." || has_dot s'
  end.

Fixpoint stem_tail (s : string) : string :=
  match s with
  | EmptyString => EmptyString
  | String c s' =>
      if Ascii.eqb c "." && negb (has_dot s') && negb (String.eqb s' "")
      then EmptyString
      else String c (stem_tail s')
  end.

Definition path_stem (name : string) : string :=
  match name with
  | EmptyString => EmptyString
  | String c s' => String c (stem_tail s')
  end.

(** [x or default] for the detected pattern *)
Definition pattern_or (pattern : option string) (default : string) : string :=
  match pattern with
  | Some p => if String.eqb p "" then default else p
  | None => default
  end.

(** [f"@{tweet.get('handle', 'unknown')}"]; [scrape_recent_tweets] has set
    the handle to a str. *)
Definition at_handle (t : list (string * json)) : string :=
  "@" +:+ str_of (py_get_default "handle" (JStr "unknown") t).

Section FaytuksDaemon.
Context {L : DirListing} {P : IsoParser}.

(** The body of [for t in tweets]: [Some] of the tweet with its bucket
    and handle when it is kept, [None] when it is skipped, by the test or
    by the bare [except]. *)
Definition keep_tweet (bucket handle : string) (cutoff : Z) (t : json) : option json :=
  match t with
  | JObj f =>
      match py_get_default "date" (JStr "") f with
      | JStr date =>
          match fromisoformat (replace_Z date) with
          | Some ts =>
              if (cutoff <? ts)%Z && negb (py_truthy (py_get_default "isRetweet" (JBool false) f))
              then Some (JObj (py_set "handle" (JStr handle) (py_set "bucket" (JStr bucket) f)))
              else None
          | None => None
          end
      | _ => None
      end
  | _ => None
  end.

(** One bucket file: [data.get] needs a dict, so a document that is a
    bare list is skipped like any other failure. *)
Definition scrape_file (bucket handle : string) (cutoff : Z) (data : json) : list json :=
  match data with
  | JObj d =>
      match py_iter (py_get_default "tweets" (JArr []) d) with
      | Returned tweets => omap (keep_tweet bucket handle cutoff) tweets
      | Raised _ => []
      end
  | _ => []
  end.

(** [scrape_recent_tweets]: [files] maps the path of every bucket file
    that exists and parses to its document; [now] is the clock in
    microseconds and [max_age] is [timedelta(hours=max_age_hours)] in
    microseconds. *)
Definition scrape_recent_tweets (files : gmap string json) (now : Z)
    (bucket : string) (max_age : Z) : list json :=
  let cutoff := (now - max_age)%Z in
  let recent :=
    flat_map (fun pf =>
                match files !! (fst pf) with
                | Some data => scrape_file bucket (snd pf) cutoff data
                | None => []
                end) (bucket_files bucket) in
  sorted_desc String.leb
    (fun x => match x with
              | JObj f => str_of (py_get_default "date" (JStr "") f)
              | _ => ""
              end) recent.

(** The body of the loop over [breaking[:5]]; [claude] is the translation
    through the client ([None] when the call fails), absent without a
    client; [clk] holds the two clock readings of [save_draft]. *)
Definition process_breaking (claude : option (string -> option string))
    (clk : datetime * datetime) (tweet : json) (st : store) : outcome string * store :=
  match tweet with
  | JObj t =>
      match py_get_default "text" (JStr "") t with
      | JStr english_text =>
          let pattern := detect_pattern english_text in
          let persian_text :=
            match claude with
            | Some translate =>
                match translate english_text with Some fa => fa | None => "" end
            | None => ""
            end in
          let '(path, st1) :=
            save_draft (fst clk) (snd clk) english_text persian_text
              (pattern_or pattern "breaking") None None
              (Some [at_handle t; "breaking"]) st in
          let draft_id := path_stem path in
          if String.eqb draft_id "" then (Returned path, st1)
          else
            match approve_draft draft_id st1 with
            | (Returned _, st2) => (Returned path, st2)
            | (Raised e, st2) => (Raised e, st2)
            end
      | _ => (Raised AttributeError, st)
      end
  | _ => (Raised AttributeError, st)
  end.

(** The body of the loop over [(commentary + geopolitics)[:10]]. *)
Definition process_other (clk : datetime * datetime) (tweet : json) (st : store)
  : outcome string * store :=
  match tweet with
  | JObj t =>
      match py_get_default "text" (JStr "") t with
      | JStr english_text =>
          let pattern := detect_pattern english_text in
          let '(path, st1) :=
            save_draft (fst clk) (snd clk) english_text ""
              (pattern_or pattern "general") None None
              (Some [at_handle t; str_of (py_get_default "bucket" (JStr "") t)]) st in
          (Returned path, st1)
      | _ => (Raised AttributeError, st)
      end
  | _ => (Raised AttributeError, st)
  end.

(** A loop of the cycle; [clock k] holds the readings for the [k]-th draft
    of the cycle.  An exception leaves the loop with the store as it is. *)
Fixpoint process_all (body : datetime * datetime -> json -> store -> outcome string * store)
    (clock : nat -> datetime * datetime) (k : nat) (tweets : list json) (st : store)
  : outcome (list string) * store :=
  match tweets with
  | [] => (Returned [], st)
  | tweet :: rest =>
      match body (clock k) tweet st with
      | (Returned path, st1) =>
          match process_all body clock (S k) rest st1 with
          | (Returned paths, st2) => (Returned (path :: paths), st2)
          | (Raised e, st2) => (Raised e, st2)
          end
      | (Raised e, st1) => (Raised e, st1)
      end
  end.

Definition breaking_max_age : Z := 612000000.      (* timedelta(hours=0.17) *)
Definition other_max_age : Z := 86400000000.       (* timedelta(hours=24) *)

(** [generate_drafts_from_buckets]: [now_b], [now_c], [now_g] are the clock
    of the three [scrape_recent_tweets] calls. *)
Definition generate_drafts_from_buckets (files : gmap string json)
    (now_b now_c now_g : Z) (clock : nat -> datetime * datetime)
    (claude : option (string -> option string)) (st : store)
  : outcome (list string) * store :=
  let breaking := scrape_recent_tweets files now_b "breaking" breaking_max_age in
  let commentary := scrape_recent_tweets files now_c "commentary" other_max_age in
  let geopolitics := scrape_recent_tweets files now_g "geopolitics" other_max_age in
  match process_all (process_breaking claude) clock 0 (firstn 5 breaking) st with
  | (Returned created, st1) =>
      match process_all process_other clock (length created)
              (firstn 10 (commentary ++ geopolitics)) st1 with
      | (Returned created', st2) => (Returned (created ++ created'), st2)
      | (Raised e, st2) => (Raised e, st2)
      end
  | (Raised e, st1) => (Raised e, st1)
  end.
End FaytuksDaemon.

(** ** The [json] codec: [json.dump(obj, f, indent=2, ensure_ascii=False)]
       and [json.load(f)] *)

Abbreviation LF := ("010"%char).
Abbreviation DQ := ("034"%char).

Definition hex_digit (n : N) : ascii :=
  if (n <? 10)%N then ascii_of_N (48 + n) else ascii_of_N (87 + n).

Definition is_control (c : ascii) : bool := (N_of_ascii c <? 32)%N.

(** The text of one character inside a string literal, followed by [k]:
    quote, backslash and control characters are escaped, every other
    character is written as it is ([ensure_ascii=False]). *)
Definition emit_char (c : ascii) (k : string) : string :=
  if Ascii.eqb c DQ then String "\" (String DQ k)
  else if Ascii.eqb c "\" then String "\" (String "\" k)
  else if Ascii.eqb c "008" then String "\" (String "b" k)
  else if Ascii.eqb c "009" then String "\" (String "t" k)
  else if Ascii.eqb c "010" then String "\" (String "n" k)
  else if Ascii.eqb c "012" then String "\" (String "f" k)
  else if Ascii.eqb c "013" then String "\" (String "r" k)
  else if is_control c then
    String "\" (String "u" (String "0" (String "0"
      (String (hex_digit (N_of_ascii c / 16))
         (String (hex_digit (N_of_ascii c mod 16)) k)))))
  else String c k.

Fixpoint emit_chars (s : string) (k : string) : string :=
  match s with
  | EmptyString => k
  | String c s' => emit_char c (emit_chars s' k)
  end.

Definition emit_str (s : string) (k : string) : string :=
  String DQ (emit_chars s (String DQ k)).

(** [int.__repr__] *)
Definition emit_int (n : Z) : string :=
  if (n <? 0)%Z then String "-" (dec (Z.to_N (- n))) else dec (Z.to_N n).

Fixpoint indent (n : nat) (k : string) : string :=
  match n with
  | O => k
  | S n' => String " " (String " " (indent n' k))
  end.

Definition newline_indent (level : nat) (k : string) : string :=
  String LF (indent level k).

(** The elements after the first one of a list or a dict: each comes
    after a comma and a line break. *)
Section EmitRest.
Context {A : Type} (emit_one : A -> string -> string) (level : nat).

Fixpoint emit_rest (l : list A) (k : string) : string :=
  match l with
  | [] => k
  | y :: l' => String "," (newline_indent level (emit_one y (emit_rest l' k)))
  end.
End EmitRest.

(** The text of [j] at nesting depth [level], followed by [k]. *)
Fixpoint emit (level : nat) (j : json) (k : string) {struct j} : string :=
  match j with
  | JNull => "null" +:+ k
  | JBool true => "true" +:+ k
  | JBool false => "false" +:+ k
  | JInt n => emit_int n +:+ k
  | JFloat r => r +:+ k
  | JStr s => emit_str s k
  | JArr [] => "[]" +:+ k
  | JArr (x :: xs) =>
      String "[" (newline_indent (S level) (emit (S level) x
        (emit_rest (emit (S level)) (S level) xs
           (newline_indent level (String "]" k)))))
  | JObj [] => "{}" +:+ k
  | JObj (kv :: fs) =>
      String "{" (newline_indent (S level)
        (emit_str (fst kv) (": " +:+ emit (S level) (snd kv)
           (emit_rest (fun kv' k' => emit_str (fst kv') (": " +:+ emit (S level) (snd kv') k'))
              (S level) fs (newline_indent level (String "}" k))))))
  end.

(** The text that [json.dump] writes. *)
Definition json_dump (j : json) : string := emit 0 j "".



Definition is_digit (c : ascii) : bool :=
  Ascii.eqb c "0" || Ascii.eqb c "1" || Ascii.eqb c "2" || Ascii.eqb c "3"
  || Ascii.eqb c "4" || Ascii.eqb c "5" || Ascii.eqb c "6" || Ascii.eqb c "7"
  || Ascii.eqb c "8" || Ascii.eqb c "9".

Definition num_char (c : ascii) : bool :=
  is_digit c || Ascii.eqb c "-" || Ascii.eqb c "+" || Ascii.eqb c "."
  || Ascii.eqb c "e" || Ascii.eqb c "E".



(** The digits at the head of [s], and the rest. *)
Fixpoint take_digits (s : string) : string * string :=
  match s with
  | EmptyString => (EmptyString, EmptyString)
  | String c s' =>
      if is_digit c
      then let (t, r) := take_digits s' in (String c t, r)
      else (EmptyString, s)
  end.

(** The digits of an integer part: [0] alone, or digits that do not start
    with [0]. *)
Definition int_digits (d : string) : bool :=
  match d with
  | EmptyString => false
  | String c d' => if Ascii.eqb c "0" then String.eqb d' "" else true
  end.

(** A fraction at the head of [s], a point and digits: whether there is
    one, and the rest; [None] when no digit follows the point. *)
Definition take_frac (s : string) : option (bool * string) :=
  match s with
  | EmptyString => Some (false, s)
  | String c s' =>
      if Ascii.eqb c "." then
        let (ds, r) := take_digits s' in
        if String.eqb ds "" then None else Some (true, r)
      else Some (false, s)
  end.

Definition skip_sign (s : string) : string :=
  match s with
  | EmptyString => s
  | String c s' => if Ascii.eqb c "+" || Ascii.eqb c "-" then s' else s
  end.

(** An exponent at the head of [s]: [e] or [E], a sign or none, and
    digits; [None] when no digit follows. *)
Definition take_exp (s : string) : option (bool * string) :=
  match s with
  | EmptyString => Some (false, s)
  | String c s' =>
      if Ascii.eqb c "e" || Ascii.eqb c "E" then
        let (ds, r) := take_digits (skip_sign s') in
        if String.eqb ds "" then None else Some (true, r)
      else Some (false, s)
  end.

Inductive number_kind : Type := IsInt | IsFloat.

(** The number pattern of the scanner on a whole token: a minus or none,
    an integer part, a fraction or none, an exponent or none.  A token
    with a fraction or an exponent is a float, another one an int; a token
    that the pattern does not cover to its end is no number. *)
Definition scan_number (t : string) : option number_kind :=
  let body := match t with
              | EmptyString => t
              | String c t' => if Ascii.eqb c "-" then t' else t
              end in
  let (ip, r1) := take_digits body in
  if int_digits ip then
    match take_frac r1 with
    | Some (f, r2) =>
        match take_exp r2 with
        | Some (e, r3) =>
            if String.eqb r3 "" then Some (if f || e then IsFloat else IsInt) else None
        | None => None
        end
    | None => None
    end
  else None.

(** A float as [json.dump] writes it and [json.load] reads it: a token
    with a fraction or an exponent.  ([NaN] and [Infinity] are left out.) *)
Definition float_literal (r : string) : bool :=
  match scan_number r with
  | Some IsFloat => true
  | _ => false
  end.














Fixpoint nodup_keys (keys : list string) : bool :=
  match keys with
  | [] => true
  | k :: ks => negb (existsb (String.eqb k) ks) && nodup_keys ks
  end.

(** A value that [json.load] can produce: the keys of a dict are distinct
    and a float is a float literal. *)
Fixpoint json_value (j : json) : bool :=
  match j with
  | JFloat r => float_literal r
  | JArr items => forallb json_value items
  | JObj fields =>
      nodup_keys (map fst fields) && forallb (fun kv => json_value (snd kv)) fields
  | _ => true
  end.





Definition no_num_start (k : string) : bool :=
  match k with
  | EmptyString => true
  | String c _ => negb (num_char c)
  end.

(** Induction over a document and the documents nested in it. *)
Section JsonInduction.
Variable Q : json -> Prop.
Hypothesis HNull : Q JNull.
Hypothesis HBool : forall b, Q (JBool b).
Hypothesis HInt : forall n, Q (JInt n).
Hypothesis HFloat : forall r, Q (JFloat r).
Hypothesis HStr : forall s, Q (JStr s).
Hypothesis HArr : forall items, List.Forall Q items -> Q (JArr items).
Hypothesis HObj : forall fields, List.Forall (fun kv => Q (snd kv)) fields -> Q (JObj fields).

End JsonInduction.



(** ** CorpusManager: the shared generation history *)

Record corpus_manager : Type := {
  history_file : option string;   (* the text of the file, if it exists *)
  history : json                  (* [self.history] *)
}.



(** [save_history]: [self.history["metadata"]["lastUpdated"] = ...] needs
    [self.history] to be a dict with a [metadata] key that holds a dict;
    nothing is written when the assignment raises. *)
Definition save_history (now : datetime) (cm : corpus_manager) : outcome unit * corpus_manager :=
  match history cm with
  | JObj h =>
      match py_get "metadata" h with
      | Some (JObj meta) =>
          let meta := py_set "lastUpdated" (JStr (isoformat now)) meta in
          let h := py_set "metadata" (JObj meta) h in
          (Returned tt, {| history_file := Some (json_dump (JObj h)); history := JObj h |})
      | Some _ => (Raised TypeError, cm)
      | None => (Raised KeyError, cm)
      end
  | _ => (Raised TypeError, cm)
  end.

(** ** Emotions and hooks of a pattern *)

Definition PATTERN_EMOTIONS : list (string * list string) :=
  [ ("fire_parallel", ["OUTRAGE"; "IRONY"]);
    ("counter_revolution", ["OUTRAGE"; "HOPE"]);
    ("western_betrayal", ["CONTEMPT"; "OUTRAGE"]);
    ("iraq_contrast", ["IRONY"; "PRIDE"]);
    ("ethnic_unity", ["PRIDE"; "HOPE"]);
    ("massacre_escalation", ["GRIEF"; "OUTRAGE"]);
    ("constitutional_memory", ["PRIDE"; "HOPE"]);
    ("great_power_game", ["PRIDE"; "IRONY"]);
    ("geography_fortress", ["PRIDE"; "CONTEMPT"]);
    ("diaspora_return", ["HOPE"; "PRIDE"]) ].

Record hook_config : Type := {
  hook_template : string;
  hook_example : string;
  best_for : list string
}.

Definition HOOK_TEMPLATES : list (string * hook_config) :=
  [ ("shocking_stat",
     {| hook_template := "[NUMBER] [SHOCKING FACT]. [CONTRAST/IRONY].";
        hook_example := "12,000 dead in 20 days. Media coverage: none.";
        best_for := ["massacre_escalation"; "western_betrayal"] |});
    ("historical_reveal",
     {| hook_template := "In [YEAR], [UNEXPECTED FACT]. [CONNECTION TO NOW].";
        hook_example := "In 1978, Islamists burned 400 alive. They blamed the Shah.";
        best_for := ["fire_parallel"; "counter_revolution"; "constitutional_memory"] |});
    ("question_hook",
     {| hook_template := "[QUESTION THAT CHALLENGES ASSUMPTION]?";
        hook_example := "Why is Saudi Arabia silent while Iran burns?";
        best_for := ["western_betrayal"; "great_power_game"] |});
    ("contrast",
     {| hook_template := "[THING 1] vs [THING 2]. [IMPLICATION].";
        hook_example := "1 USD = 70 rials in 1979. Today: 700,000.";
        best_for := ["counter_revolution"; "massacre_escalation"] |});
    ("pattern_break",
     {| hook_template := "'[COMMON BELIEF].' [REFUTATION/EVIDENCE].";
        hook_example := "'Iran will fragment.' No. 2,500 years says otherwise.";
        best_for := ["ethnic_unity"; "geography_fortress"; "iraq_contrast"] |});
    ("time_anchor",
     {| hook_template := "[X] years ago, [EVENT]. Now, [ECHO/COMPLETION].";
        hook_example := "47 years ago a Crown Prince left Iran. Now they chant his name.";
        best_for := ["diaspora_return"; "counter_revolution"; "fire_parallel"] |}) ].

(** [s in l] for a str and a list of str *)
Definition str_mem (s : string) (l : list string) : bool :=
  existsb (String.eqb s) l.

(** The loop of [get_best_hook]: the first hook, in the order of the table,
    whose [best_for] has the pattern. *)
Fixpoint first_hook (pattern : string) (table : list (string * hook_config)) : option string :=
  match table with
  | [] => None
  | (hook_type, config) :: rest =>
      if str_mem pattern (best_for config) then Some hook_type
      else first_hook pattern rest
  end.

Definition get_best_hook (pattern : string) : string :=
  match first_hook pattern HOOK_TEMPLATES with
  | Some hook_type => hook_type
  | None => "historical_reveal"
  end.

(** [PATTERN_EMOTIONS.get(pattern, ["OUTRAGE"])] *)
Definition get_emotions (pattern : string) : list string :=
  match assoc pattern PATTERN_EMOTIONS with
  | Some emotions => emotions
  | None => ["OUTRAGE"]
  end.

(** ** MediaMatcher *)

Definition PATTERN_MEDIA_DIRS : list (string * list string) :=
  [ ("fire_parallel", ["events/cinema-rex-1978"; "current/rasht-2026"]);
    ("counter_revolution", ["historical/1979-revolution"]);
    ("western_betrayal", ["events/guadeloupe-1979"]);
    ("ethnic_unity", ["maps/ethnic-distribution"; "historical/1980-1988"]);
    ("iraq_contrast", ["historical/1906-1953"; "figures/mossadegh"]);
    ("great_power_game", ["events/turkmenchay-1828"; "maps/turkmenchay-loss"]);
    ("constitutional_memory", ["historical/1906-1953"; "events/constitutional-1906"]);
    ("massacre_escalation", ["current/rasht-2026"; "historical/2022-mahsa"]) ].

Definition PATTERN_SEARCH_TERMS : list (string * list string) :=
  [ ("fire_parallel", ["Cinema Rex 1978 Abadan"; "Rasht bazaar fire 2026"]);
    ("western_betrayal", ["Guadeloupe Conference 1979 Carter"]);
    ("great_power_game", ["Treaty of Turkmenchay 1828 map"]);
    ("constitutional_memory", ["Iran Constitutional Revolution 1906 Majlis"]) ].

Definition image_exts : list string := [".jpg"; ".jpeg"; ".png"; ".gif"; ".webp"].

(** One element of [result["available"]]. *)
Record media_entry : Type := {
  me_path : string;
  me_filename : string;
  me_directory : string
}.

(** [result["acquire_suggestion"]] *)
Record acquire_suggestion : Type := {
  acq_command : string;
  acq_search_terms : list string
}.

(** The dict that [find_media_for_pattern] returns. *)
Record media_result : Type := {
  mr_pattern : string;
  mr_available : list media_entry;
  mr_recommended : option media_entry;
  mr_acquire_suggestion : option acquire_suggestion
}.

(** The media directory: every path below [media_dir] that exists, with
    the names that a scan of it produces, in the order of the scan (none
    for a plain file). *)
Definition media_tree : Type := gmap string (list string).

(** [dir_path.glob(f"*{ext}")]: the names that end with the extension. *)
Definition glob_ext (names : list string) (ext : string) : list string :=
  List.filter (str_endswith ext) names.

Definition media_entry_of (subdir name : string) : media_entry :=
  {| me_path := subdir +:+ "/" +:+ name; me_filename := name; me_directory := subdir |}.

(** The body of [for subdir in dirs]. *)
Definition dir_images (media : media_tree) (subdir : string) : list media_entry :=
  match media !! subdir with
  | Some names =>
      flat_map (fun ext => map (media_entry_of subdir) (glob_ext names ext)) image_exts
  | None => []
  end.

Definition or_nil (o : option (list string)) : list string :=
  match o with Some l => l | None => [] end.

Definition find_media_for_pattern (media : media_tree) (pattern : string) : media_result :=
  let dirs := or_nil (assoc pattern PATTERN_MEDIA_DIRS) in
  let available := flat_map (dir_images media) dirs in
  match available with
  | first :: _ =>
      {| mr_pattern := pattern; mr_available := available;
         mr_recommended := Some first; mr_acquire_suggestion := None |}
  | [] =>
      let search_terms := or_nil (assoc pattern PATTERN_SEARCH_TERMS) in
      {| mr_pattern := pattern; mr_available := [];
         mr_recommended := None;
         mr_acquire_suggestion :=
           match search_terms with
           | term :: _ =>
               Some {| acq_command :=
                         "./media_scripts.sh google " +:+ String DQ (term +:+ String DQ (" ./media/"
                           +:+ match dirs with d :: _ => d | [] => "_temp" end));
                       acq_search_terms := search_terms |}
           | [] => None
           end |}
  end.

(** The dict that [get_media_recommendation] returns. *)
Record media_recommendation : Type := {
  has_media : bool;
  primary_media : option string;
  all_available : list string;
  needs_acquisition : bool;
  acquisition_command : option string
}.

Definition get_media_recommendation (media : media_tree) (pattern : string)
  : media_recommendation :=
  let media_result := find_media_for_pattern media pattern in
  {| has_media := (0 <? length (mr_available media_result))%nat;
     primary_media := option_map me_path (mr_recommended media_result);
     all_available := map me_path (mr_available media_result);
     needs_acquisition :=
       match mr_acquire_suggestion media_result with Some _ => true | None => false end;
     acquisition_command := option_map acq_command (mr_acquire_suggestion media_result) |}.

(** ** KnowledgeBase: phrases, corpus samples, sources and search *)

(** [v == s] for a JSON value and a str *)
Definition eq_str (v : json) (s : string) : bool :=
  match v with
  | JStr t => String.eqb t s
  | _ => false
  end.

(** [a + b] where the sum is iterated afterwards: two lists and two strs
    concatenate.  Numbers add to a number, which cannot be iterated, and
    every other pair cannot be added: a [TypeError] in both cases, one
    step apart. *)
Definition py_concat (a b : json) : outcome json :=
  match a, b with
  | JArr x, JArr y => Returned (JArr (x ++ y))
  | JStr x, JStr y => Returned (JStr (x +:+ y))
  | _, _ => Raised TypeError
  end.

(** [self.data.get("quotes", {}).get("persian_phrases", {})], a dict for
    the [.get] that follows *)
Definition persian_phrases (data : kb_data) : outcome (list (string * json)) :=
  do quotes <- as_dict (get_or_empty_dict "quotes" data);
  as_dict (get_or_empty_dict "persian_phrases" quotes).

Definition get_persian_slogans (data : kb_data) : outcome json :=
  do phrases <- persian_phrases data;
  Returned (py_get_default "protest_slogans" (JArr []) phrases).

Definition get_persian_terms (data : kb_data) : outcome json :=
  do phrases <- persian_phrases data;
  Returned (py_get_default "historical_terms" (JArr []) phrases).

(** The loop of [get_persian_phrase]; [key] is [transliteration.lower()]. *)
Fixpoint first_phrase (key : string) (phrases : list json) : outcome (option json) :=
  match phrases with
  | [] => Returned None
  | phrase :: rest =>
      do p <- as_dict phrase;
      do t <- as_str (py_get_default "transliteration" (JStr "") p);
      if String.eqb (str_lower t) key then Returned (Some phrase)
      else first_phrase key rest
  end.

Definition get_persian_phrase (data : kb_data) (transliteration : string)
  : outcome (option json) :=
  do slogans <- get_persian_slogans data;
  do terms <- get_persian_terms data;
  do two <- py_concat slogans terms;
  do phrases <- persian_phrases data;
  do all_phrases <- py_concat two (py_get_default "cultural_phrases" (JArr []) phrases);
  do items <- py_iter all_phrases;
  first_phrase (str_lower transliteration) items.

(** [self.data.get("corpus_samples", {}).get("sample_tweets_generated", {})] *)
Definition corpus_samples_doc (data : kb_data) : outcome json :=
  do doc <- as_dict (get_or_empty_dict "corpus_samples" data);
  Returned (get_or_empty_dict "sample_tweets_generated" doc).

(** The body of the loop over [samples.items()]: what [all_tweets.extend]
    adds for one category. *)
Definition category_tweets (cat_data : json) : outcome (list json) :=
  match cat_data with
  | JObj d =>
      match py_get "tweets" d with
      | Some tweets => py_iter tweets
      | None => Returned []
      end
  | _ => Returned []
  end.

Fixpoint all_category_tweets (samples : list (string * json)) : outcome (list json) :=
  match samples with
  | [] => Returned []
  | (_, cat_data) :: rest =>
      do tweets <- category_tweets cat_data;
      do more <- all_category_tweets rest;
      Returned (tweets ++ more)
  end.

Definition category_key (category : string) : string :=
  if str_startswith "category_" category then category else "category_" +:+ category.

(** [get_corpus_samples(category)]; [None] and the empty str are the
    categories that [if category] does not take. *)
Definition get_corpus_samples (data : kb_data) (category : option string) : outcome json :=
  do samples <- corpus_samples_doc data;
  match category with
  | Some (String c rest) =>
      do s <- as_dict samples;
      do cat <- as_dict (get_or_empty_dict (category_key (String c rest)) s);
      Returned (py_get_default "tweets" (JArr []) cat)
  | _ =>
      do s <- as_dict samples;
      do all_tweets <- all_category_tweets s;
      Returned (JArr all_tweets)
  end.

(** [[t for t in samples if t.get("pattern") == pattern]] *)
Fixpoint with_pattern (pattern : string) (samples : list json) : outcome (list json) :=
  match samples with
  | [] => Returned []
  | t :: rest =>
      do d <- as_dict t;
      do more <- with_pattern pattern rest;
      Returned (if match py_get "pattern" d with
                   | Some v => eq_str v pattern
                   | None => false
                   end
                then t :: more else more)
  end.

Definition get_corpus_by_pattern (data : kb_data) (pattern : string) : outcome (list json) :=
  do samples <- get_corpus_samples data None;
  do items <- py_iter samples;
  with_pattern pattern items.

(** [self.data.get("sources", {}).get("source_credibility", {}).get("sources", {})] *)
Definition kb_sources (data : kb_data) : outcome json :=
  do doc <- as_dict (get_or_empty_dict "sources" data);
  do credibility <- as_dict (get_or_empty_dict "source_credibility" doc);
  Returned (get_or_empty_dict "sources" credibility).

(** The test of [get_source_tier]; the name is looked at only when the
    identifier does not match. *)
Definition source_matches (source_lower source_id : string) (source_data : json)
  : outcome bool :=
  if str_in source_lower (str_lower source_id) then Returned true
  else
    do d <- as_dict source_data;
    do name <- as_str (py_get_default "name" (JStr "") d);
    Returned (str_in source_lower (str_lower name)).

(** [{**source_data, "category": category, "id": source_id}] *)
Definition tier_record (category source_id : string) (source_data : json) : outcome json :=
  match source_data with
  | JObj d => Returned (JObj (py_set "id" (JStr source_id)
                                (py_set "category" (JStr category) d)))
  | _ => Raised TypeError
  end.

(** The inner loop, over [category_sources.items()]. *)
Fixpoint find_source (source_lower category : string) (entries : list (string * json))
  : outcome (option json) :=
  match entries with
  | [] => Returned None
  | (source_id, source_data) :: rest =>
      do hit <- source_matches source_lower source_id source_data;
      if hit then do r <- tier_record category source_id source_data; Returned (Some r)
      else find_source source_lower category rest
  end.

(** The outer loop, over [sources.items()]. *)
Fixpoint find_in_categories (source_lower : string) (categories : list (string * json))
  : outcome (option json) :=
  match categories with
  | [] => Returned None
  | (category, category_sources) :: rest =>
      do entries <- as_dict category_sources;
      do found <- find_source source_lower category entries;
      match found with
      | Some r => Returned (Some r)
      | None => find_in_categories source_lower rest
      end
  end.

Definition get_source_tier (data : kb_data) (source_name : string) : outcome (option json) :=
  do sources <- kb_sources data;
  do categories <- as_dict sources;
  find_in_categories (str_lower source_name) categories.

(** [self.data.get(key, {}).get(key, [])], the list of the narratives and
    of the actors *)
Definition kb_list (key : string) (data : kb_data) : outcome json :=
  do doc <- as_dict (get_or_empty_dict key data);
  Returned (py_get_default key (JArr []) doc).

(** [query_lower in x.get(field, "").lower()] *)
Definition field_has (query_lower field : string) (x : list (string * json)) : outcome bool :=
  do s <- as_str (py_get_default field (JStr "") x);
  Returned (str_in query_lower (str_lower s)).

(** [a or b] on two such tests: the second one runs only when the first
    one fails. *)
Definition field_has_or (query_lower field1 field2 : string) (x : list (string * json))
  : outcome bool :=
  do a <- field_has query_lower field1 x;
  if a then Returned true else field_has query_lower field2 x.

Definition search_result (type : string) (data : json) : json :=
  JObj [ ("type", JStr type); ("data", data) ].

(** One loop of [search]. *)
Fixpoint search_in (type : string) (test : list (string * json) -> outcome bool)
    (items : list json) : outcome (list json) :=
  match items with
  | [] => Returned []
  | x :: rest =>
      do d <- as_dict x;
      do hit <- test d;
      do more <- search_in type test rest;
      Returned (if hit then search_result type x :: more else more)
  end.

Definition search (data : kb_data) (query : string) : outcome (list json) :=
  let query_lower := str_lower query in
  do facts <- get_facts data;
  do fact_list <- py_iter facts;
  do found_facts <- search_in "fact" (field_has query_lower "statement") fact_list;
  do narratives <- kb_list "narratives" data;
  do narrative_list <- py_iter narratives;
  do found_narratives <-
    search_in "narrative" (field_has_or query_lower "title" "description") narrative_list;
  do actors <- kb_list "actors" data;
  do actor_list <- py_iter actors;
  do found_actors <- search_in "actor" (field_has_or query_lower "name" "role") actor_list;
  Returned (found_facts ++ found_narratives ++ found_actors).

(** ** AnniversaryGenerator *)

Definition anniversary_months : list (string * string) :=
  [ ("01", "january"); ("02", "february"); ("03", "march"); ("04", "april");
    ("05", "may"); ("06", "june"); ("07", "july"); ("08", "august");
    ("09", "september"); ("10", "october"); ("11", "november"); ("12", "december") ].

(** [event.get("date") == date_str] *)
Definition dated (date_str : string) (ev : list (string * json)) : bool :=
  match py_get "date" ev with
  | Some v => eq_str v date_str
  | None => false
  end.

(** The loop of [get_anniversary]. *)
Fixpoint first_on_date (date_str : string) (events : list json) : outcome (option json) :=
  match events with
  | [] => Returned None
  | event :: rest =>
      do ev <- as_dict event;
      if dated date_str ev then Returned (Some event) else first_on_date date_str rest
  end.

(** [get_anniversary(date_str)]; [calendar_doc] is [self.calendar], the
    document of the calendar file or the empty dict.  [month_key not in
    calendar] is a key test on a dict, a membership test on a list and a
    substring test on a str; [calendar[month_key]] needs a dict. *)
Definition get_anniversary (calendar_doc : json) (date_str : string) : outcome (option json) :=
  do doc <- as_dict calendar_doc;
  let calendar := get_or_empty_dict "anniversary_calendar" doc in
  let month := String.substring 0 2 date_str in
  match assoc month anniversary_months with
  | None => Returned None
  | Some month_key =>
      match calendar with
      | JObj cal =>
          match py_get month_key cal with
          | None => Returned None
          | Some month_events =>
              do events <- py_iter month_events;
              first_on_date date_str events
          end
      | JArr items =>
          if existsb (fun v => eq_str v month_key) items then Raised TypeError
          else Returned None
      | JStr s => if str_in month_key s then Raised TypeError else Returned None
      | _ => Raised TypeError
      end
  end.

(** ** VictimMemorialGenerator *)

(** [self.victims_db.get("victims_database", {}).get("victims", [])] *)
Definition victims_list (victims_db : json) : outcome json :=
  do db <- as_dict victims_db;
  do doc <- as_dict (get_or_empty_dict "victims_database" db);
  Returned (py_get_default "victims" (JArr []) doc).

(** [[v for v in victims if v.get("verified", False)]] *)
Fixpoint verified_victims (victims : list json) : outcome (list json) :=
  match victims with
  | [] => Returned []
  | v :: rest =>
      do d <- as_dict v;
      do more <- verified_victims rest;
      Returned (if py_truthy (py_get_default "verified" (JBool false) d)
                then v :: more else more)
  end.

Definition get_victims (victims_db : json) (verified_only : bool) : outcome json :=
  do victims <- victims_list victims_db;
  if verified_only then
    do items <- py_iter victims;
    do verified <- verified_victims items;
    Returned (JArr verified)
  else Returned victims.

(** The loop of [get_victim_by_name]; [name_lower] is [name.lower()]. *)
Fixpoint first_named (name_lower : string) (victims : list json) : outcome (option json) :=
  match victims with
  | [] => Returned None
  | victim :: rest =>
      do d <- as_dict victim;
      do hit <- field_has name_lower "name" d;
      if hit then Returned (Some victim) else first_named name_lower rest
  end.

Definition get_victim_by_name (victims_db : json) (name : string) : outcome (option json) :=
  do victims <- get_victims victims_db false;
  do items <- py_iter victims;
  first_named (str_lower name) items.

(** ** CorpusManager: drafts and published tweets of the history *)

(** [l[start:]]: a negative start counts from the end, and both ends are
    clipped to the list. *)
Definition slice_from {A : Type} (start : Z) (l : list A) : list A :=
  let len := Z.of_nat (length l) in
  let first := if (start <? 0)%Z then Z.max (len + start) 0 else Z.min start len in
  skipn (Z.to_nat first) l.

(** The [entry] dict of [add_draft]. *)
Definition draft_entry (now_id now_generated : datetime) (theme narrative_id : string)
    (fact_ids : list string) : json :=
  JObj [ ("id", JStr ("draft_" +:+ strftime_id now_id));
         ("theme", JStr theme);
         ("narrativeId", JStr narrative_id);
         ("generatedAt", JStr (isoformat now_generated));
         ("factIds", str_list fact_ids) ].

(** The [entry] dict of [add_published]. *)
Definition published_entry (now_id now_published : datetime) (tweet pattern : string)
    (performance : json) (tags : list string) (why_it_worked : string) : json :=
  JObj [ ("id", JStr ("pub_" +:+ strftime_id now_id));
         ("tweet", JStr tweet);
         ("publishedAt", JStr (isoformat now_published));
         ("pattern", JStr pattern);
         ("performance", performance);
         ("tags", str_list tags);
         ("why_it_worked", JStr why_it_worked) ].

(** [h.setdefault(key, []).append(entry)]: only a list has [append], and
    a value of another type stays as it is. *)
Definition append_entry (key : string) (entry : json) (h : list (string * json))
  : outcome (list (string * json)) :=
  match py_get key h with
  | None => Returned (py_set key (JArr [entry]) h)
  | Some (JArr l) => Returned (py_set key (JArr (l ++ [entry])) h)
  | Some _ => Raised AttributeError
  end.

(** [if len(h["recentDrafts"]) > 50: h["recentDrafts"] = h["recentDrafts"][-50:]],
    after the append *)
Definition cap_recent (h : list (string * json)) : list (string * json) :=
  match py_get "recentDrafts" h with
  | Some (JArr l) =>
      if (50 <? length l)%nat then py_set "recentDrafts" (JArr (slice_from (-50) l)) h
      else h
  | _ => h
  end.

(** [add_draft]: the three readings of the clock are the one of the
    identifier, the one of [generatedAt] and the one of [save_history].
    The entry is in [self.history] before [save_history] runs. *)
Definition add_draft (now_id now_generated now_saved : datetime)
    (theme narrative_id : string) (fact_ids : list string) (cm : corpus_manager)
  : outcome json * corpus_manager :=
  let entry := draft_entry now_id now_generated theme narrative_id fact_ids in
  match history cm with
  | JObj h =>
      match append_entry "recentDrafts" entry h with
      | Returned h1 =>
          match save_history now_saved
                  {| history_file := history_file cm; history := JObj (cap_recent h1) |} with
          | (Returned _, cm') => (Returned entry, cm')
          | (Raised e, cm') => (Raised e, cm')
          end
      | Raised e => (Raised e, cm)
      end
  | _ => (Raised AttributeError, cm)
  end.

Definition add_published (now_id now_published now_saved : datetime)
    (tweet pattern : string) (performance : json) (tags : list string)
    (why_it_worked : string) (cm : corpus_manager) : outcome json * corpus_manager :=
  let entry := published_entry now_id now_published tweet pattern performance tags
                 why_it_worked in
  match history cm with
  | JObj h =>
      match append_entry "publishedTweets" entry h with
      | Returned h1 =>
          match save_history now_saved
                  {| history_file := history_file cm; history := JObj h1 |} with
          | (Returned _, cm') => (Returned entry, cm')
          | (Raised e, cm') => (Raised e, cm')
          end
      | Raised e => (Raised e, cm)
      end
  | _ => (Raised AttributeError, cm)
  end.

(** [[e for e in results if query_lower in e.get("tweet", "").lower()]] *)
Fixpoint with_text (query_lower : string) (results : list json) : outcome (list json) :=
  match results with
  | [] => Returned []
  | e :: rest =>
      do d <- as_dict e;
      do hit <- field_has query_lower "tweet" d;
      do more <- with_text query_lower rest;
      Returned (if hit then e :: more else more)
  end.

(** [get_published(query, pattern)] with the default [min_engagement=0.0],
    for which the third filter does not run.  [None] and the empty str are
    the arguments that [if query] and [if pattern] do not take. *)
Definition get_published (cm : corpus_manager) (query pattern : option string)
  : outcome json :=
  do h <- as_dict (history cm);
  let results := py_get_default "publishedTweets" (JArr []) h in
  do results <-
    match query with
    | Some (String c q) =>
        do items <- py_iter results;
        do kept <- with_text (str_lower (String c q)) items;
        Returned (JArr kept)
    | _ => Returned results
    end;
  match pattern with
  | Some (String c p) =>
      do items <- py_iter results;
      do kept <- with_pattern (String c p) items;
      Returned (JArr kept)
  | _ => Returned results
  end.

(** [self.history.get("recentDrafts", [])[-limit:]]: a list and a str can
    be sliced; a dict cannot (a [TypeError]; a [KeyError] from Python 3.12
    on, where a slice can be hashed). *)
Definition get_recent_drafts (cm : corpus_manager) (limit : Z) : outcome json :=
  do h <- as_dict (history cm);
  match py_get_default "recentDrafts" (JArr []) h with
  | JArr l => Returned (JArr (slice_from (- limit) l))
  | JStr s =>
      Returned (JStr (string_of_list_ascii (slice_from (- limit) (list_ascii_of_string s))))
  | _ => Raised TypeError
  end.

(** ** The [attach] handlers of the command line *)

Section Attach.
Context {L : DirListing}.

(** One folder of the [--attach] / [queue attach] handlers: a refused
    pattern raises its [ValueError]; otherwise the first file matching the
    identifier gets the path appended to its [media]
    ([draft.get('media', []) + [media_path]] needs a dict and a list). *)
Definition attach_in (draft_id media_path : string) (d : gmap string json)
  : outcome (gmap string json) :=
  if glob_invalid draft_id then Raised ValueError
  else
    match glob_first draft_id d with
    | Some (name, doc) =>
        match doc with
        | JObj draft =>
            match py_get_default "media" (JArr []) draft with
            | JArr media =>
                Returned (<[name := JObj (py_set "media" (JArr (media ++ [JStr media_path]))
                                            draft)]> d)
            | _ => Raised TypeError
            end
        | _ => Raised AttributeError
        end
    | None => Returned d
    end.

(** [pending] and then [approved]; the [break] leaves the inner loop only.
    An exception in [approved] comes after the file in [pending] has been
    written. *)
Definition attach (draft_id media_path : string) (st : store) : outcome unit * store :=
  match attach_in draft_id media_path (pending st) with
  | Returned p =>
      match attach_in draft_id media_path (approved st) with
      | Returned a =>
          (Returned tt, {| pending := p; approved := a; posted := posted st |})
      | Raised e =>
          (Raised e, {| pending := p; approved := approved st; posted := posted st |})
      end
  | Raised e => (Raised e, st)
  end.
End Attach.

(** ** FaytuksDaemon: the report of a cycle *)

(** The dict that [run_cycle] returns. *)
Record cycle_results : Type := {
  cr_timestamp : string;
  cr_drafts_created : list string;
  cr_errors : list string
}.

Section RunCycle.
Context {L : DirListing} {P : IsoParser}.

(** [run_cycle]: [now] is the clock of the timestamp, read before the
    drafts are generated; [message e] is [str(e)].  The [except] clause
    keeps the report but not the file system: what was written before the
    exception stays written. *)
Definition run_cycle (message : exn -> string) (now : datetime)
    (files : gmap string json) (now_b now_c now_g : Z)
    (clock : nat -> datetime * datetime) (claude : option (string -> option string))
    (st : store) : cycle_results * store :=
  match generate_drafts_from_buckets files now_b now_c now_g clock claude st with
  | (Returned created, st') =>
      ({| cr_timestamp := isoformat now; cr_drafts_created := created; cr_errors := [] |},
       st')
  | (Raised e, st') =>
      ({| cr_timestamp := isoformat now; cr_drafts_created := [];
          cr_errors := [message e] |},
       st')
  end.
End RunCycle.

(** ** twitter_poster: posting an approved draft *)

(** The browser session of [post_tweet] for a tweet text, from the launch
    of the browser to its close: [Raised e] when the launch raises, outside
    the [try]; [Returned None] when the page asks for a login or a step of
    the session raises, which the [except] clause turns into [None];
    [Returned (Some url)] when the post is made, [url] being the address
    of the page afterwards. *)
Definition browser : Type := json -> outcome (option string).

(** The text that [post_tweet] posts: the Persian one when it is asked for
    and is there, the English one otherwise. *)
Definition tweet_text_of (language : string) (draft : list (string * json)) : json :=
  if String.eqb language "persian" && py_truthy (py_get_default "persian" JNull draft)
  then py_get_default "persian" JNull draft
  else py_get_default "english" (JStr "") draft.

(** [tweet_text[:60]] of the progress message: a str and a list can be
    sliced, a number cannot (TypeError); nor can a dict, for which the
    exception is TypeError up to Python 3.11 and KeyError from 3.12 on. *)
Definition sliceable (v : json) : bool :=
  match v with
  | JStr _ | JArr _ => true
  | _ => false
  end.

(** The identifier names a file of the folder: it has no path separator. *)
Fixpoint name_part (s : string) : bool :=
  match s with
  | EmptyString => true
  | String c s' => negb (Ascii.eqb c "/") && name_part s'
  end.

(** The file of [approved] that [post_tweet] opens for an identifier
    without a path separator: [<id>.json] when it exists, [draft_<id>.json]
    otherwise. *)
Definition approved_name (draft_id : string) (st : store) : string :=
  match approved st !! (draft_id +:+ ".json") with
  | Some _ => draft_id +:+ ".json"
  | None => draft_file draft_id
  end.

(** [post_tweet(draft_id, language)]; [now] is the clock of [posted_at].
    The record goes to [posted] with [posted_at] and [tweet_url] set; its
    [status] and [tweet_id] are not assigned.  The folders of the queue
    exist, as [DraftManager] leaves them. *)
Definition post_tweet (session : browser) (now : datetime) (draft_id language : string)
    (st : store) : outcome (option string) * store :=
  let name := approved_name draft_id st in
  match approved st !! name with
  | None => (Returned None, st)
  | Some (JObj draft) =>
      let tweet_text := tweet_text_of language draft in
      if negb (py_truthy tweet_text) then (Returned None, st)
      else if negb (sliceable tweet_text) then (Raised TypeError, st)
      else
        match session tweet_text with
        | Raised e => (Raised e, st)
        | Returned None => (Returned None, st)
        | Returned (Some tweet_url) =>
            let draft := py_set "posted_at" (JStr (isoformat now)) draft in
            let draft := py_set "tweet_url" (JStr tweet_url) draft in
            (Returned (Some tweet_url),
             {| pending := pending st;
                approved := delete name (approved st);
                posted := <[name := JObj draft]> (posted st) |})
        end
  | Some _ => (Raised AttributeError, st)
  end.

(** ** media_scraper: the catalog of [MediaOrganizer] *)

(** A [MediaItem], with the fields of the dataclass. *)
Record media_item : Type := {
  mi_id : string;
  mi_filename : string;
  mi_source_url : string;
  mi_source_type : string;
  mi_download_date : string;
  mi_category : string;
  mi_subcategory : string;
  mi_tags : list string;
  mi_description : string;
  mi_date_depicted : option string;
  mi_location_depicted : option string;
  mi_attribution : option string;
  mi_license : option string;
  mi_original_tweet_id : option string;
  mi_original_author : option string;
  mi_verified : bool;
  mi_quality_rating : Z;
  mi_local_path : option string
}.

(** [self.metadata] as the organizer builds it from its default
    [{"items": [], "index": {}}]: the items are the [vars(item)] dicts, in
    the order of their addition, and the index maps a tag to the list of
    the identifiers added under it, a dict in insertion order. *)
Record catalog : Type := {
  cat_items : list media_item;
  cat_index : list (string * list string)
}.

Definition empty_catalog : catalog := {| cat_items := []; cat_index := [] |}.

(** [index[tag] = ids] on the index dict: an existing tag keeps its place. *)
Fixpoint index_set (tag : string) (ids : list string) (index : list (string * list string))
  : list (string * list string) :=
  match index with
  | [] => [(tag, ids)]
  | (tag', ids') :: rest =>
      if String.eqb tag tag' then (tag, ids) :: rest
      else (tag', ids') :: index_set tag ids rest
  end.

(** The body of [for tag in item.tags]. *)
Definition index_tag (item_id : string) (index : list (string * list string)) (tag : string)
  : list (string * list string) :=
  let index := match assoc tag index with
               | Some _ => index
               | None => index_set tag [] index
               end in
  match assoc tag index with
  | Some ids => index_set tag (ids ++ [item_id]) index
  | None => index
  end.

(** [add_item]; the write of the metadata file has no part in what the
    catalog holds. *)
Definition add_item (item : media_item) (c : catalog) : string * catalog :=
  (mi_id item,
   {| cat_items := cat_items c ++ [item];
      cat_index := fold_left (index_tag (mi_id item)) (mi_tags item) (cat_index c) |}).

(** The loop that fills [tag_matches]; the set is kept as the list of its
    elements. *)
Definition tag_matches (index : list (string * list string)) (tags : list string)
  : list string :=
  flat_map (fun tag => match assoc tag index with Some ids => ids | None => [] end) tags.

(** [search(tags, category)]; [None] and the empty list are the tags that
    [if tags] does not take, [None] and the empty str the categories that
    [if category] does not take. *)
Definition catalog_search (c : catalog) (tags : option (list string))
    (category : option string) : list media_item :=
  let results := cat_items c in
  let results :=
    match tags with
    | Some (tag :: more) =>
        List.filter (fun i => str_mem (mi_id i) (tag_matches (cat_index c) (tag :: more)))
          results
    | _ => results
    end in
  match category with
  | Some (String a b) =>
      List.filter (fun i => String.eqb (mi_category i) (String a b)) results
  | _ => results
  end.

Definition topic_tags : list (string * list string) :=
  [ ("turkmenchay", ["turkmenchay"; "1828"; "russia"; "qajar"; "treaty"]);
    ("cinema_rex", ["cinema_rex"; "1978"; "abadan"; "fire"]);
    ("guadeloupe", ["guadeloupe"; "1979"; "carter"; "western_betrayal"]);
    ("rasht", ["rasht"; "2026"; "bazaar"; "massacre"]);
    ("mossadegh", ["mossadegh"; "1953"; "oil"; "coup"]);
    ("constitutional", ["1906"; "constitutional"; "majlis"; "mashruteh"]) ].

(** [get_for_topic]: [topic_tags.get(topic, [topic])] *)
Definition get_for_topic (c : catalog) (topic : string) : list media_item :=
  let tags := match assoc topic topic_tags with
              | Some tags => tags
              | None => [topic]
              end in
  catalog_search c (Some tags) None.

(** ** media_scraper: the scraping plan *)

(** One [gap] dict of [generate_scraping_plan]. *)
Record gap : Type := {
  gap_topic : string;
  gap_existing_count : nat;
  gap_needed_items : json;
  gap_search_queries : json
}.

(** The [plan] dict. *)
Record scraping_plan : Type := {
  critical_gaps : list gap;
  high_priority : list gap;
  medium_priority : list gap;
  queries_to_execute : list json
}.

Definition empty_plan : scraping_plan :=
  {| critical_gaps := []; high_priority := []; medium_priority := [];
     queries_to_execute := [] |}.

(** The body of the loop over [self.topic_requirements.items()]; the
    requirements of a topic have to be a dict, and the search queries of a
    critical gap have to be iterable for [extend]. *)
Definition plan_topic (c : catalog) (plan : scraping_plan) (topic : string)
    (requirements : json) : outcome scraping_plan :=
  do req <- as_dict requirements;
  let priority := py_get_default "priority" (JStr "medium") req in
  let existing := get_for_topic c topic in
  let g := {| gap_topic := topic;
              gap_existing_count := length existing;
              gap_needed_items := py_get_default "needed" (JArr []) req;
              gap_search_queries := py_get_default "search_queries" (JArr []) req |} in
  if eq_str priority "critical" && (length existing <? 3)%nat then
    do queries <- py_iter (gap_search_queries g);
    Returned {| critical_gaps := critical_gaps plan ++ [g];
                high_priority := high_priority plan;
                medium_priority := medium_priority plan;
                queries_to_execute := queries_to_execute plan ++ queries |}
  else if eq_str priority "high" && (length existing <? 2)%nat then
    Returned {| critical_gaps := critical_gaps plan;
                high_priority := high_priority plan ++ [g];
                medium_priority := medium_priority plan;
                queries_to_execute := queries_to_execute plan |}
  else
    Returned {| critical_gaps := critical_gaps plan;
                high_priority := high_priority plan;
                medium_priority := medium_priority plan ++ [g];
                queries_to_execute := queries_to_execute plan |}.

Fixpoint plan_topics (c : catalog) (plan : scraping_plan) (topics : list (string * json))
  : outcome scraping_plan :=
  match topics with
  | [] => Returned plan
  | (topic, requirements) :: rest =>
      do plan' <- plan_topic c plan topic requirements;
      plan_topics c plan' rest
  end.

(** [generate_scraping_plan]; [topic_requirements] is what the media
    schema gives, a dict for [.items()]. *)
Definition generate_scraping_plan (c : catalog) (topic_requirements : json)
  : outcome scraping_plan :=
  do topics <- as_dict topic_requirements;
  plan_topics c empty_plan topics.

(** ** The [refresh] command: breaking items *)

Section Refresh.
Context {L : DirListing}.

(** The body of the loop over [breaking[:5]] in the [refresh] command.
    Unlike the daemon, the handler reads the clock for the identifier it
    approves ([now_id]) before [save_draft] reads it for the identifier of
    the file ([fst clk]), and it does not look at what [approve_draft]
    returns. *)
Definition refresh_breaking (claude : option (string -> option string))
    (now_id : datetime) (clk : datetime * datetime) (tweet : json) (st : store)
  : outcome unit * store :=
  match tweet with
  | JObj t =>
      match py_get_default "text" (JStr "") t with
      | JStr english_text =>
          let pattern := detect_pattern english_text in
          let persian_text :=
            match claude with
            | Some translate =>
                match translate english_text with Some fa => fa | None => "" end
            | None => ""
            end in
          let draft_id := strftime_id now_id in
          let '(path, st1) :=
            save_draft (fst clk) (snd clk) english_text persian_text
              (pattern_or pattern "breaking") None None
              (Some ["@" +:+ str_of (py_get_default "handle" (JStr "") t); "breaking"]) st in
          match approve_draft draft_id st1 with
          | (Returned _, st2) => (Returned tt, st2)
          | (Raised e, st2) => (Raised e, st2)
          end
      | _ => (Raised AttributeError, st)
      end
  | _ => (Raised AttributeError, st)
  end.
End Refresh.

(** ** Instances used in the examples *)

(** ['**' in pat] *)
Fixpoint double_star (s : string) : bool :=
  match s with
  | EmptyString => false
  | String c s' =>
      match s' with
      | String c' _ => (Ascii.eqb c "*" && Ascii.eqb c' "*") || double_star s'
      | EmptyString => false
      end
  end.

(** The components of a pattern, between its [/]. *)
Fixpoint split_slash (s : string) : list string :=
  match s with
  | EmptyString => [EmptyString]
  | String c s' =>
      if Ascii.eqb c "/" then EmptyString :: split_slash s'
      else match split_slash s' with
           | part :: parts => String c part :: parts
           | [] => [String c EmptyString]
           end
  end.

(** The test of [pathlib] up to Python 3.12 for the pattern of an
    identifier: a component that holds [**] and is not [**] is refused. *)
Definition invalid_pattern (draft_id : string) : bool :=
  existsb (fun part => double_star part && negb (String.eqb part "**"))
    (split_slash ("*" +:+ draft_id +:+ "*.json")).

(** Entries in the order of the map; a pattern is refused as [pathlib]
    does up to Python 3.12; identifiers are matched as substrings, which is
    the glob of an identifier without metacharacters. *)
#[export] Instance substring_listing : DirListing.
Proof.
  refine {| glob_invalid := invalid_pattern;
            glob_id := contains_json;
            scandir := map_to_list;
            glob_invalid_plain := _;
            glob_id_plain := fun _ _ _ => eq_refl;
            scandir_perm := fun _ => reflexivity _ |}.
  assert (Hsplit : forall s, no_special s = true ->
                     split_slash (s +:+ "*.json") = [s +:+ "*.json"]).
  { induction s as [|c s IH]; [reflexivity|]. cbn [no_special append split_slash].
    intros H. apply andb_true_iff in H. destruct H as [Hc Hs].
    unfold glob_special in Hc. rewrite !negb_orb in Hc.
    apply andb_true_iff in Hc. destruct Hc as [_ Hc].
    apply negb_true_iff in Hc. rewrite Hc, (IH Hs). reflexivity. }
  assert (Hstar : forall s c, Ascii.eqb c "*" = false -> no_special s = true ->
                    double_star (String c (s +:+ "*.json")) = false).
  { induction s as [|c' s IH]; intros c Hc Hs.
    - cbn. now rewrite Hc.
    - cbn [no_special] in Hs. apply andb_true_iff in Hs. destruct Hs as [Hc' Hs].
      unfold glob_special in Hc'. rewrite !negb_orb in Hc'.
      apply andb_true_iff in Hc'. destruct Hc' as [Hc' _].
      apply andb_true_iff in Hc'. destruct Hc' as [Hc' _].
      apply andb_true_iff in Hc'. destruct Hc' as [Hc' _].
      apply negb_true_iff in Hc'.
      change (double_star (String c (String c' s +:+ "*.json")))
        with ((Ascii.eqb c "*" && Ascii.eqb c' "*")
              || double_star (String c' (s +:+ "*.json"))).
      now rewrite Hc, (IH c' Hc' Hs). }
  intros [|c s] Hplain; [discriminate|]. unfold invalid_pattern.
  cbn [plain_id] in Hplain.
  change ("*" +:+ String c s +:+ "*.json") with (String "*" (String c s +:+ "*.json")).
  cbn [split_slash]. change (Ascii.eqb "*" "/") with false. cbv iota.
  rewrite (Hsplit _ Hplain). cbn [existsb].
  change (double_star (String "*" (String c s +:+ "*.json")))
    with ((Ascii.eqb "*" "*" && Ascii.eqb c "*") || double_star (String c (s +:+ "*.json"))).
  cbn [no_special] in Hplain. apply andb_true_iff in Hplain. destruct Hplain as [Hc Hs].
  unfold glob_special in Hc. rewrite !negb_orb in Hc.
  apply andb_true_iff in Hc. destruct Hc as [Hc _].
  apply andb_true_iff in Hc. destruct Hc as [Hc _].
  apply andb_true_iff in Hc. destruct Hc as [Hc _].
  apply negb_true_iff in Hc.
  rewrite Hc, (Hstar s c Hc Hs). reflexivity.
Defined.

Definition digit_val (c : ascii) : option Z :=
  let n := Z.of_N (N_of_ascii c) in
  if (48 <=? n)%Z && (n <=? 57)%Z then Some (n - 48)%Z else None.

Fixpoint digits_val (acc : Z) (cs : list ascii) : option Z :=
  match cs with
  | [] => Some acc
  | c :: cs' =>
      match digit_val c with
      | Some v => digits_val (acc * 10 + v)%Z cs'
      | None => None
      end
  end.

(** Days from 1970-01-01 to a date of the Gregorian calendar. *)
Definition days_from_civil (y m d : Z) : Z :=
  let y' := (if m <=? 2 then y - 1 else y)%Z in
  let era := (y' / 400)%Z in
  let yoe := (y' - era * 400)%Z in
  let doy := ((153 * (if m >? 2 then m - 3 else m + 9) + 2) / 5 + d - 1)%Z in
  let doe := (yoe * 365 + yoe / 4 - yoe / 100 + doy)%Z in
  (era * 146097 + doe - 719468)%Z.

(** A parser for the examples: it reads the timestamps of the form
    [YYYY-MM-DDTHH:MM:SS+00:00] and nothing else.  [datetime.fromisoformat]
    reads more (fractions of a second, other offsets, a space for [T]);
    the statements are for any parser. *)
Definition parse_utc_seconds (s : string) : option Z :=
  match list_ascii_of_string s with
  | [y1; y2; y3; y4; d1; m1; m2; d2; a1; a2; t; h1; h2; c1; i1; i2; c2; s1; s2;
     p; z1; z2; c3; z3; z4] =>
      if String.eqb (string_of_list_ascii [d1; d2; t; c1; c2; p; z1; z2; c3; z3; z4])
           "--T::+00:00"
      then
        match digits_val 0 [y1; y2; y3; y4], digits_val 0 [m1; m2], digits_val 0 [a1; a2],
              digits_val 0 [h1; h2], digits_val 0 [i1; i2], digits_val 0 [s1; s2] with
        | Some y, Some m, Some d, Some hh, Some mi, Some ss =>
            Some ((((days_from_civil y m d * 24 + hh) * 60 + mi) * 60 + ss) * 1000000)%Z
        | _, _, _, _, _, _ => None
        end
      else None
  | _ => None
  end.

#[export] Instance utc_seconds_parser : IsoParser := {|
  fromisoformat := parse_utc_seconds
|}.

(** ** Vocabulary of the statements and data of the examples *)

(** The order of the output of [sorted_desc]: by key, greatest first, and
    by [before], the order of the input, inside a class of equal keys. *)
Definition desc_stable {A K : Type} (le : K -> K -> bool) (key : A -> K)
    (before : A -> A -> Prop) (a b : A) : Prop :=
  le (key b) (key a) = true /\ (le (key a) (key b) = true -> before a b).

Definition posting_field (k : string) : bool :=
  String.eqb k "status" || String.eqb k "posted_at" || String.eqb k "tweet_id".

Definition other_fields (d : list (string * json)) : list (string * json) :=
  List.filter (fun kv => negb (posting_field (fst kv))) d.

(** The identifier of a record contains [i] ([has_id] up to substrings). *)
Definition id_contains (i : string) (doc : json) : bool :=
  match doc with
  | JObj f => match py_get "id" f with
              | Some (JStr j) => str_in i j
              | _ => false
              end
  | _ => false
  end.

(** A record as [save_draft] writes it: a dict with a str [created_at]. *)
Definition sortable_draft (doc : json) : bool :=
  is_dict doc && is_str (created_at_key doc).

Definition id_char (c : ascii) : bool :=
  let n := N_of_ascii c in
  ((48 <=? n)%N && (n <=? 57)%N) || Ascii.eqb c "_".

Fixpoint str_forall (f : ascii -> bool) (s : string) : bool :=
  match s with
  | EmptyString => true
  | String c s' => f c && str_forall f s'
  end.

(** The file is named after the identifier its record carries. *)
Definition named (n : string) (doc : json) : Prop :=
  exists i f, doc = JObj f /\ py_get "id" f = Some (JStr i) /\ n = draft_file i.

Record store_ok (st : store) : Prop := {
  ok_pending : forall n doc, pending st !! n = Some doc -> named n doc;
  ok_approved : forall n doc, approved st !! n = Some doc -> named n doc;
  ok_posted : forall n doc, posted st !! n = Some doc -> named n doc;
  ok_pending_approved : forall n, is_Some (pending st !! n) -> approved st !! n = None;
  ok_pending_posted : forall n, is_Some (pending st !! n) -> posted st !! n = None;
  ok_approved_posted : forall n, is_Some (approved st !! n) -> posted st !! n = None
}.

Definition noon : datetime :=
  {| dt_year := 2026; dt_month := 1; dt_day := 17;
     dt_hour := 12; dt_minute := 0; dt_second := 0; dt_microsecond := 250000 |}.

Definition noon_later : datetime :=
  {| dt_year := 2026; dt_month := 1; dt_day := 17;
     dt_hour := 12; dt_minute := 0; dt_second := 1; dt_microsecond := 0 |}.

(** Two breaking items handled within one second: save, approve, save. *)
Definition same_second_ops : list op :=
  [ Create noon noon "Fire in Rasht bazaar" "" "fire_parallel" None None
      (Some ["@middleeast_24"; "breaking"]);
    Approve "draft_20260117_120000";
    Create noon noon "Death toll rises" "" "massacre_escalation" None None
      (Some ["@middleeast_24"; "breaking"]) ].

Definition spaced_ops : list op :=
  [ Create noon noon "Fire in Rasht bazaar" "" "fire_parallel" None None None;
    Approve "20260117_120000";
    Create noon_later noon_later "Death toll rises" "" "massacre_escalation" None None None;
    MarkPosted "20260117_120000" (Some "1880000000000000001") noon_later;
    Reject "120001" ].

Definition older_draft : json :=
  JObj [ ("id", JStr "20260116_090000");
         ("created_at", JStr "2026-01-16T09:00:00.120000");
         ("status", JStr "pending");
         ("pattern", JStr "general");
         ("english", JStr "Good morning");
         ("persian", JStr "");
         ("media", JArr []);
         ("hashtags", JArr []);
         ("sources", JArr [JStr "@realneo101"; JStr "commentary"]);
         ("posted_at", JNull);
         ("tweet_id", JNull);
         ("editor_note", JStr "kept by another tool") ].

Definition one_pending : store :=
  {| pending := {[ "draft_20260116_090000.json" := older_draft ]};
     approved := ∅; posted := ∅ |}.

Definition one_approved : store :=
  {| pending := ∅;
     approved := {[ "draft_20260116_090000.json" := older_draft ]};
     posted := ∅ |}.

Definition sample_kb : kb_data :=
  [ ("facts",
     JObj [ ("facts",
             JArr [ JObj [ ("id", JStr "f1"); ("fact", JStr "Cinema Rex burned in Abadan in 1978") ];
                    JObj [ ("id", JStr "f2"); ("fact", JStr "The 1988 executions") ];
                    JObj [ ("id", JStr "f3"); ("fact", JStr "Bloody November 2019") ];
                    JObj [ ("id", JStr "f4"); ("fact", JStr "The Rasht bazaar fire") ];
                    JObj [ ("id", JStr "f5"); ("fact", JStr "Death toll reports of 2019") ];
                    JObj [ ("id", JStr "f6"); ("fact", JStr "Mass graves of 1988") ] ]) ]);
    ("history",
     JObj [ ("eras",
             JObj [ ("uprisings_2019_2022", JObj [ ("name", JStr "Uprisings 2019-2022") ]) ]) ]);
    ("calendar",
     JObj [ ("anniversary_calendar",
             JObj [ ("january",
                     JArr [ JObj [ ("date", JStr "01-16"); ("event", JStr "Shah leaves Iran") ] ]) ]) ]) ].

(** A calendar with an entry under the empty key, and a calendar that is
    a list. *)
Definition stray_key_kb : kb_data :=
  [ ("calendar",
     JObj [ ("anniversary_calendar",
             JObj [ ("january",
                     JArr [ JObj [ ("date", JStr "01-16"); ("event", JStr "Shah leaves Iran") ] ]);
                    ("",
                     JArr [ JObj [ ("date", JStr "13-01"); ("event", JStr "Unsorted entry") ] ]) ]) ]) ].

Definition list_calendar_kb : kb_data :=
  [ ("calendar",
     JObj [ ("anniversary_calendar",
             JArr [ JObj [ ("date", JStr "01-16"); ("event", JStr "Shah leaves Iran") ] ]) ]) ].

(** The test of the fact loop as a total function. *)
Definition fact_hit (keywords : list string) (fact : json) : bool :=
  match fact with
  | JObj f =>
      match py_get_default "fact" (JStr "") f with
      | JStr raw => existsb (fun kw => str_in (str_lower kw) (str_lower raw)) keywords
      | _ => false
      end
  | _ => false
  end.

(** The keywords that [pattern_facts.get(pattern, [])] gives. *)
Definition pattern_keywords (pattern : json) : list string :=
  match pattern with
  | JStr p => match assoc p pattern_facts with Some kws => kws | None => [] end
  | _ => []
  end.

(** The facts of the knowledge base, as the loop iterates over them. *)
Definition kb_fact_list (data : kb_data) : outcome (list json) :=
  do facts <- get_facts data;
  py_iter facts.

Definition bare_draft : list (string * json) :=
  [ ("english", JStr "Good morning") ].


Definition shared_history : json :=
  JObj [ ("recentDrafts",
          JArr [ JObj [ ("id", JStr "draft_20260116_090000"); ("theme", JStr "bazaar");
                        ("narrativeId", JStr "n1"); ("generatedAt", JStr "2026-01-16T09:00:00");
                        ("factIds", JArr [JStr "f1"]); ("reviewState", JStr "queued") ] ]);
         ("publishedTweets",
          JArr [ JObj [ ("id", JStr "pub_1"); ("tweet", JStr "In 1978...");
                        ("performance", JObj [ ("likes", JInt 120); ("engagement_rate", JFloat "0.042") ]);
                        ("threadPosition", JInt 2) ] ]);
         ("metadata", JObj [ ("lastUpdated", JStr "2026-01-16T09:00:00"); ("version", JStr "1.0");
                             ("writer", JStr "ts") ]);
         ("schema", JInt 3) ].

(** Every file of the directory was named by [save_draft]. *)
Definition program_named (d : gmap string json) : Prop :=
  forall n doc, d !! n = Some doc -> exists t, n = draft_file (strftime_id t).

Definition text_of (t : list (string * json)) : json :=
  py_get_default "text" (JStr "") t.

(** An item whose [text] is a str, as the pattern matcher needs it. *)
Definition has_text (tweet : json) : bool :=
  match tweet with
  | JObj t => is_str (text_of t)
  | _ => false
  end.










(** Text of ASCII characters only; on such text [str_lower] is [str.lower],
    which lowers the letters of the other scripts as well. *)
Definition ascii_text (s : string) : bool :=
  str_forall (fun c => (N_of_ascii c <? 128)%N) s.

(** The phrases that [get_persian_phrase] looks through: the slogans, the
    terms and the cultural phrases. *)
Definition listed_phrases (data : kb_data) : outcome (list json) :=
  do slogans <- get_persian_slogans data;
  do terms <- get_persian_terms data;
  do two <- py_concat slogans terms;
  do phrases <- persian_phrases data;
  do all_phrases <- py_concat two (py_get_default "cultural_phrases" (JArr []) phrases);
  py_iter all_phrases.

(** The transliterations of the phrases are ASCII text. *)
Definition ascii_transliterations (items : list json) : Prop :=
  forall p t, In (JObj p) items ->
              py_get_default "transliteration" (JStr "") p = JStr t -> ascii_text t = true.

(** An item matches a query on a field: it is a dict whose field (the
    empty str when it is missing) is a str that holds the lower-cased query
    in its lower-cased form. *)
Definition field_matches (query field : string) (x : json) : bool :=
  match x with
  | JObj d =>
      match py_get_default field (JStr "") d with
      | JStr s => str_in (str_lower query) (str_lower s)
      | _ => false
      end
  | _ => false
  end.

(** The sort key of [list_pending] as a str. *)
Definition created_at_of (d : json) : string := str_of (created_at_key d).

(** The fields of a clock reading lie in the calendar ranges. *)
Definition in_calendar (t : datetime) : Prop :=
  (dt_year t < 10000 /\ dt_month t < 100 /\ dt_day t < 100
   /\ dt_hour t < 100 /\ dt_minute t < 100 /\ dt_second t < 100)%N.

(** [after] is the draft [before] with [media_path] appended to its
    [media] list and every other field as it was. *)
Definition attached (media_path : string) (before after : json) : Prop :=
  exists draft media draft',
    before = JObj draft /\ after = JObj draft'
    /\ py_get_default "media" (JArr []) draft = JArr media
    /\ py_get "media" draft' = Some (JArr (media ++ [JStr media_path]))
    /\ forall k, k <> "media" -> py_get k draft' = py_get k draft.

(** The number of files waiting in [pending] and [approved]. *)
Definition files_in_queue (st : store) : nat := size (pending st) + size (approved st).

(** The sort key of [scrape_recent_tweets]: [x.get('date', '')] *)
Definition date_of (x : json) : string :=
  match x with
  | JObj f => str_of (py_get_default "date" (JStr "") f)
  | _ => ""
  end.

(** The identifiers that the index lists under a tag. *)
Definition ids_under (tag : string) (index : list (string * list string)) : list string :=
  match assoc tag index with
  | Some ids => ids
  | None => []
  end.

(** The catalog after [add_item] on each item of a list, from the empty
    metadata. *)
Definition catalog_of (added : list media_item) : catalog :=
  fold_left (fun c item => snd (add_item item c)) added empty_catalog.

Definition sample_item : media_item :=
  {| mi_id := "IMG_20260117_0001_ab12cd34";
     mi_filename := "IMG_20260117_0001_ab12cd34.jpg";
     mi_source_url := "local:rex.jpg";
     mi_source_type := "local_import";
     mi_download_date := "2026-01-17T12:00:00";
     mi_category := "events";
     mi_subcategory := "cinema-rex-1978";
     mi_tags := ["abadan"; "1978"];
     mi_description := "Imported from local directory";
     mi_date_depicted := None;
     mi_location_depicted := None;
     mi_attribution := None;
     mi_license := None;
     mi_original_tweet_id := None;
     mi_original_author := None;
     mi_verified := false;
     mi_quality_rating := 3;
     mi_local_path := Some "media/events/cinema-rex-1978/IMG_20260117_0001_ab12cd34.jpg" |}.

(** * Properties *)

(** ** Strings *)

Lemma str_startswith_app (p s : string) : str_startswith p (p +:+ s) = true.
Proof.
  induction p as [|c p IH]; simpl; [reflexivity|].
  now rewrite Ascii.eqb_refl.
Qed.

Lemma str_startswith_length (p s : string) :
  str_startswith p s = true -> String.length p <= String.length s.
Proof.
  revert s. induction p as [|c p IH]; intros s H; simpl in *; [lia|].
  destruct s as [|d s]; [discriminate|].
  destruct (Ascii.eqb c d); [|discriminate].
  apply IH in H. simpl. lia.
Qed.

Lemma str_startswith_same_length (p s : string) :
  str_startswith p s = true -> String.length p = String.length s -> p = s.
Proof.
  revert s. induction p as [|c p IH]; intros s H Hlen; simpl in *.
  - destruct s; [reflexivity|discriminate].
  - destruct s as [|d s]; [discriminate|].
    destruct (Ascii.eqb c d) eqn:E; [|discriminate].
    apply Ascii.eqb_eq in E. subst d. f_equal. apply IH; auto.
Qed.

Lemma str_in_length (a b : string) :
  str_in a b = true -> String.length a <= String.length b.
Proof.
  induction b as [|c b IH]; simpl.
  - destruct (str_startswith a "") eqn:E; [|discriminate].
    intros _. apply str_startswith_length in E. simpl in E. lia.
  - destruct (str_startswith a (String c b)) eqn:E.
    + intros _. apply str_startswith_length in E. simpl in E. lia.
    + intros H. apply IH in H. lia.
Qed.

Lemma str_in_same_length (a b : string) :
  str_in a b = true -> String.length a = String.length b -> a = b.
Proof.
  destruct b as [|c b]; simpl.
  - destruct (str_startswith a "") eqn:E; [|discriminate].
    intros _ Hlen. now apply str_startswith_same_length.
  - destruct (str_startswith a (String c b)) eqn:E.
    + intros _ Hlen. now apply str_startswith_same_length.
    + intros H Hlen. apply str_in_length in H. lia.
Qed.

Lemma str_in_app (a x y : string) : str_in a (x +:+ a +:+ y) = true.
Proof.
  induction x as [|c x IH]; simpl.
  - destruct (a +:+ y) eqn:E; simpl; rewrite <- E, str_startswith_app; reflexivity.
  - rewrite IH. now destruct (str_startswith a _).
Qed.

Lemma length_app_str (a b : string) :
  String.length (a +:+ b) = String.length a + String.length b.
Proof. induction a; simpl; auto. Qed.

Lemma strip_suffix_app (suffix x : string) :
  suffix <> "" -> strip_suffix suffix (x +:+ suffix) = Some x.
Proof.
  intros Hne. induction x as [|c x IH]; simpl.
  - destruct suffix; [congruence|]. simpl. now rewrite Ascii.eqb_refl, String.eqb_refl.
  - destruct (String.eqb suffix (String c (x +:+ suffix))) eqn:E.
    + apply String.eqb_eq in E. apply (f_equal String.length) in E.
      simpl in E. rewrite length_app_str in E. lia.
    + now rewrite IH.
Qed.

(** ** Python dicts *)

Lemma py_get_set_eq (k : string) (v : json) (d : list (string * json)) :
  py_get k (py_set k v d) = Some v.
Proof.
  induction d as [|[k' v'] d IH]; simpl.
  - now rewrite String.eqb_refl.
  - destruct (String.eqb k k') eqn:E; simpl; rewrite ?String.eqb_refl, ?E; auto.
Qed.

Lemma py_get_set_ne (k k' : string) (v : json) (d : list (string * json)) :
  k <> k' -> py_get k' (py_set k v d) = py_get k' d.
Proof.
  intros Hne. induction d as [|[k0 v0] d IH]; simpl.
  - destruct (String.eqb k' k) eqn:E; [apply String.eqb_eq in E; congruence|reflexivity].
  - destruct (String.eqb k k0) eqn:E; simpl.
    + apply String.eqb_eq in E. subst k0.
      destruct (String.eqb k' k) eqn:E'; [apply String.eqb_eq in E'; congruence|reflexivity].
    + now rewrite IH.
Qed.

(** The keys after [d[k] = v]: unchanged when [k] is there, [k] added last
    otherwise. *)
Lemma py_set_keys (k : string) (v : json) (d : list (string * json)) :
  map fst (py_set k v d) =
  match py_get k d with
  | Some _ => map fst d
  | None => map fst d ++ [k]
  end.
Proof.
  induction d as [|[k' v'] d IH]; simpl; [reflexivity|].
  destruct (String.eqb k k') eqn:E; simpl.
  - apply String.eqb_eq in E. now subst.
  - rewrite IH. now destruct (py_get k d).
Qed.

(** ** The stable descending sort *)

Section SortedDescFacts.
Context {A K : Type} (le : K -> K -> bool) (key : A -> K).

Lemma insert_desc_perm (x : A) (l : list A) : insert_desc le key x l ≡ₚ x :: l.
Proof.
  induction l as [|y l IH]; simpl; [reflexivity|].
  destruct (le (key y) (key x)); [reflexivity|].
  rewrite IH. apply perm_swap.
Qed.

Lemma sorted_desc_perm (l : list A) : sorted_desc le key l ≡ₚ l.
Proof.
  induction l as [|x l IH]; simpl; [reflexivity|].
  rewrite insert_desc_perm. now rewrite IH.
Qed.

Lemma sorted_desc_In (x : A) (l : list A) : In x (sorted_desc le key l) <-> In x l.
Proof.
  split; apply Permutation_in; [|symmetry]; apply sorted_desc_perm.
Qed.

(** [before] is the order of the input list.  The output is ordered by
    key, greatest first, and by [before] inside a class of equal keys. *)
Context (before : A -> A -> Prop).
Hypothesis le_total : forall a b, le a b = false -> le b a = true.
Hypothesis le_trans : forall a b c, le a b = true -> le b c = true -> le a c = true.

Lemma insert_desc_sorted (x : A) (l : list A) :
  StronglySorted (desc_stable le key before) l ->
  Forall (before x) l ->
  StronglySorted (desc_stable le key before) (insert_desc le key x l).
Proof using le_total le_trans.
  induction l as [|y l IH]; intros Hs Hb; simpl.
  - repeat constructor.
  - apply StronglySorted_inv in Hs. destruct Hs as [Hs Hy].
    apply Forall_cons_iff in Hb. destruct Hb as [Hxy Hb].
    destruct (le (key y) (key x)) eqn:E.
    + constructor; [constructor; assumption|].
      constructor; [split; auto|].
      rewrite List.Forall_forall in *. intros z Hz. split; [|intros _; now apply Hb].
      apply (le_trans _ (key y)); [|assumption]. now apply Hy.
    + constructor; [now apply IH|].
      rewrite List.Forall_forall. intros z Hz.
      apply (Permutation_in _ (insert_desc_perm x l)) in Hz.
      destruct Hz as [<-|Hz].
      * split; [now apply le_total|]. congruence.
      * rewrite List.Forall_forall in Hy. now apply Hy.
Qed.

Lemma sorted_desc_sorted (l : list A) :
  StronglySorted before l ->
  StronglySorted (desc_stable le key before) (sorted_desc le key l).
Proof using le_total le_trans.
  induction l as [|x l IH]; intros Hs; simpl; [constructor|].
  apply StronglySorted_inv in Hs. destruct Hs as [Hs Hx].
  apply insert_desc_sorted; [now apply IH|].
  rewrite List.Forall_forall in Hx. rewrite List.Forall_forall.
  intros z Hz. apply Hx. now apply (proj1 (sorted_desc_In z l)).
Qed.
End SortedDescFacts.

Lemma StronglySorted_weaken {A : Type} (R R' : A -> A -> Prop) (l : list A) :
  (forall a b, In a l -> In b l -> R a b -> R' a b) ->
  StronglySorted R l -> StronglySorted R' l.
Proof.
  induction l as [|x l IH]; intros Himp Hs; [constructor|].
  apply StronglySorted_inv in Hs. destruct Hs as [Hs Hx].
  constructor.
  - apply IH; [|assumption]. intros a b Ha Hb. apply Himp; now right.
  - rewrite List.Forall_forall in *. intros z Hz.
    apply Himp; [now left|now right|now apply Hx].
Qed.

Lemma StronglySorted_lookup {A : Type} (R : A -> A -> Prop) (l : list A) (i j : nat) (a b : A) :
  StronglySorted R l -> i < j -> l !! i = Some a -> l !! j = Some b -> R a b.
Proof.
  intros Hs. revert i j. induction Hs as [|x l Hs IH Hx]; intros i j Hij Hi Hj.
  - discriminate.
  - destruct j as [|j]; [lia|]. simpl in Hj.
    destruct i as [|i]; simpl in Hi.
    + injection Hi as ->. rewrite List.Forall_forall in Hx. apply Hx.
      apply list_elem_of_In. eapply list_elem_of_lookup_2; eauto.
    + apply (IH i j); auto. lia.
Qed.

Lemma Qle_bool_total (a b : Q) : Qle_bool a b = false -> Qle_bool b a = true.
Proof.
  intros H. apply Qle_bool_iff. apply Qlt_le_weak. apply Qnot_le_lt.
  intros Hle. apply Qle_bool_iff in Hle. congruence.
Qed.

Lemma Qle_bool_trans (a b c : Q) :
  Qle_bool a b = true -> Qle_bool b c = true -> Qle_bool a c = true.
Proof.
  rewrite !Qle_bool_iff. apply Qle_trans.
Qed.

(** ** PatternMatcher *)

Lemma scan_triggers_In (table : list (string * list string)) (text_lower : string)
    (p : string) (s : Q) (m : list string) :
  In (p, s, m) (scan_triggers table text_lower) <->
  exists triggers, In (p, triggers) table /\ m = matched_keywords triggers text_lower
                   /\ m <> [] /\ s = score_of m triggers.
Proof.
  induction table as [|[k t] table IH]; simpl.
  - split; [tauto|]. intros (? & [] & _).
  - destruct (matched_keywords t text_lower) as [|kw kws] eqn:E.
    + rewrite IH. split.
      * intros (tr & Hin & H). exists tr. split; [now right|exact H].
      * intros (tr & [Heq|Hin] & Hm & Hne & Hs).
        -- injection Heq as -> ->. congruence.
        -- exists tr. auto.
    + simpl. rewrite IH. split.
      * intros [Heq|(tr & Hin & H)].
        -- injection Heq as <- <- <-. exists t. rewrite E. repeat split; auto.
        -- exists tr. split; [now right|exact H].
      * intros (tr & [Heq|Hin] & Hm & Hne & Hs).
        -- injection Heq as -> ->. left. subst s m. now rewrite E.
        -- right. exists tr. auto.
Qed.

Lemma pos_in_lt_length (keys : list string) (p : string) :
  In p keys -> pos_in keys p < length keys.
Proof.
  induction keys as [|k keys IH]; simpl; [tauto|].
  intros H. destruct (String.eqb k p) eqn:E; [lia|].
  destruct H as [->|H]; [rewrite String.eqb_refl in E; discriminate|].
  apply IH in H. lia.
Qed.

(** The loop produces its entries in the order of the table. *)
Lemma scan_triggers_table_order (table : list (string * list string)) (text_lower : string) :
  List.NoDup (map fst table) ->
  StronglySorted
    (fun a b => pos_in (map fst table) (det_pattern a) < pos_in (map fst table) (det_pattern b))
    (scan_triggers table text_lower).
Proof.
  induction table as [|[k t] table IH]; intros Hnd; simpl; [constructor|].
  apply List.NoDup_cons_iff in Hnd. destruct Hnd as [Hk Hnd].
  assert (Hkeys : forall d, In d (scan_triggers table text_lower) ->
                            In (det_pattern d) (map fst table)).
  { intros [[p s] m] Hd. apply (proj1 (scan_triggers_In _ _ _ _ _)) in Hd.
    destruct Hd as (tr & Hin & _).
    apply (in_map fst) in Hin. exact Hin. }
  assert (Hne : forall d, In d (scan_triggers table text_lower) ->
                          String.eqb k (det_pattern d) = false).
  { intros d Hd. apply Hkeys in Hd. apply String.eqb_neq.
    intros Heq. apply Hk. now rewrite Heq. }
  assert (Htail : StronglySorted
            (fun a b => (if String.eqb k (det_pattern a) then 0
                         else S (pos_in (map fst table) (det_pattern a)))
                        < (if String.eqb k (det_pattern b) then 0
                           else S (pos_in (map fst table) (det_pattern b))))
            (scan_triggers table text_lower)).
  { eapply StronglySorted_weaken; [|apply IH; assumption].
    intros a b Ha Hb Hab. simpl. rewrite (Hne a Ha), (Hne b Hb).
    simpl in Hab. lia. }
  destruct (matched_keywords t text_lower) as [|kw kws]; [exact Htail|].
  constructor; [exact Htail|].
  rewrite List.Forall_forall. intros d Hd. unfold det_pattern at 1. simpl.
  rewrite String.eqb_refl, (Hne d Hd). lia.
Qed.

Lemma PATTERN_TRIGGERS_keys_NoDup : List.NoDup (map fst PATTERN_TRIGGERS).
Proof.
  simpl. repeat (apply List.NoDup_cons; [simpl; intuition discriminate|]).
  apply List.NoDup_nil.
Qed.

(** C2. For every text, [auto_detect_pattern] returns its entries with
    non-increasing scores; every entry is a key of [PATTERN_TRIGGERS] with
    its keywords that occur in the text, ignoring case, at least one of
    them, and its score is their number divided by the number of keywords
    of the pattern; entries of equal score come in the order of the
    table; and every pattern of the table with a match is returned. *)
Theorem auto_detect_pattern_sorted_scored (text : string) :
  let r := auto_detect_pattern text in
  StronglySorted (fun a b => (det_score b <= det_score a)%Q) r
  /\ (forall p s m, In (p, s, m) r ->
        exists triggers,
          In (p, triggers) PATTERN_TRIGGERS
          /\ m = List.filter (fun t => str_in (str_lower t) (str_lower text)) triggers
          /\ m <> []
          /\ (s == inject_Z (Z.of_nat (length m)) / inject_Z (Z.of_nat (length triggers)))%Q)
  /\ (forall i j a b, i < j -> r !! i = Some a -> r !! j = Some b ->
        (det_score a == det_score b)%Q ->
        table_pos (det_pattern a) < table_pos (det_pattern b))
  /\ (forall p triggers, In (p, triggers) PATTERN_TRIGGERS ->
        List.filter (fun t => str_in (str_lower t) (str_lower text)) triggers <> [] ->
        exists s m, In (p, s, m) r).
Proof.
  intros r.
  assert (Hs : StronglySorted
                 (desc_stable Qle_bool det_score
                    (fun a b => table_pos (det_pattern a) < table_pos (det_pattern b))) r).
  { apply sorted_desc_sorted;
      [apply Qle_bool_total|apply Qle_bool_trans|].
    apply scan_triggers_table_order, PATTERN_TRIGGERS_keys_NoDup. }
  split; [|split; [|split]].
  - eapply StronglySorted_weaken; [|exact Hs].
    intros a b _ _ [H _]. now apply Qle_bool_iff.
  - intros p s m Hin. apply (proj1 (sorted_desc_In _ _ _ _)) in Hin.
    apply (proj1 (scan_triggers_In _ _ _ _ _)) in Hin. destruct Hin as (tr & Hin & Hm & Hne & Hsc).
    exists tr. repeat split; auto.
    subst s. unfold score_of. rewrite Qmake_Qdiv.
    destruct tr as [|t0 tr]; [subst m; simpl in Hne; congruence|].
    assert (Hlen : 0 < length (t0 :: tr)) by (simpl; lia).
    now rewrite <- positive_nat_Z, Nat2Pos.id by lia.
  - intros i j a b Hij Hi Hj Heq.
    destruct (StronglySorted_lookup _ _ _ _ _ _ Hs Hij Hi Hj) as [_ Hb].
    apply Hb. apply Qle_bool_iff. rewrite Heq. apply Qle_refl.
  - intros p tr Hin Hne.
    exists (score_of (matched_keywords tr (str_lower text)) tr),
           (matched_keywords tr (str_lower text)).
    apply sorted_desc_In. apply scan_triggers_In. exists tr. repeat split; auto.
Qed.

Example detect_cinema_rex_value :
  auto_detect_pattern "Cinema Rex fire in Rasht bazaar"
  = [ ("fire_parallel", (4 # 8)%Q, ["fire"; "Cinema Rex"; "Rasht"; "bazaar"]) ].
Proof. vm_compute. reflexivity. Qed.

(** C8. [auto_detect_pattern("Cinema Rex fire in Rasht bazaar")] contains
    [fire_parallel] with at least two of its trigger keywords matched (four:
    the score is 4/8), and no returned pattern with fewer matched keywords
    comes before it. *)
Theorem detect_cinema_rex :
  let r := auto_detect_pattern "Cinema Rex fire in Rasht bazaar" in
  exists i s m triggers,
    r !! i = Some ("fire_parallel", s, m)
    /\ In ("fire_parallel", triggers) PATTERN_TRIGGERS
    /\ incl m triggers
    /\ 2 <= length m
    /\ (s == inject_Z (Z.of_nat (length m)) / inject_Z (Z.of_nat (length triggers)))%Q
    /\ (forall j p' s' m', r !! j = Some (p', s', m') -> length m' < length m -> i <= j).
Proof.
  intros r. subst r. rewrite detect_cinema_rex_value.
  exists 0, (4 # 8)%Q, ["fire"; "Cinema Rex"; "Rasht"; "bazaar"],
    ["fire"; "burn"; "arson"; "flames"; "Cinema Rex"; "Rasht"; "bazaar"; "trapped"].
  split; [reflexivity|].
  split; [now left|].
  split; [intros x Hx; simpl in *; tauto|].
  split; [simpl; lia|].
  split; [reflexivity|].
  intros j p' s' m' _ _. lia.
Qed.

(** ** DraftManager *)

Lemma head_filter_Some {A : Type} (f : A -> bool) (l : list A) (x : A) :
  head (List.filter f l) = Some x -> In x l /\ f x = true.
Proof.
  intros H. apply List.filter_In.
  destruct (List.filter f l) as [|y l']; [discriminate|].
  injection H as ->. now left.
Qed.

Lemma head_filter_None {A : Type} (f : A -> bool) (l : list A) :
  head (List.filter f l) = None -> forall x, In x l -> f x = false.
Proof.
  intros H x Hx. destruct (f x) eqn:E; [|reflexivity].
  assert (Hin : In x (List.filter f l)) by (apply List.filter_In; auto).
  destruct (List.filter f l); [destruct Hin|discriminate].
Qed.

Lemma head_filter_only {A : Type} (f : A -> bool) (l : list A) (x : A) :
  In x l -> f x = true -> (forall y, In y l -> f y = true -> y = x) ->
  head (List.filter f l) = Some x.
Proof.
  intros Hin Hf Hu.
  assert (Hx : In x (List.filter f l)) by (apply List.filter_In; auto).
  destruct (List.filter f l) as [|y l'] eqn:E; [destruct Hx|].
  simpl. f_equal. apply Hu.
  - apply (proj1 (List.filter_In f y l)). rewrite E. now left.
  - apply (proj1 (List.filter_In f y l)). rewrite E. now left.
Qed.

Lemma filter_py_set (keep : string -> bool) (k : string) (v : json) (d : list (string * json)) :
  keep k = false ->
  List.filter (fun kv => keep (fst kv)) (py_set k v d) = List.filter (fun kv => keep (fst kv)) d.
Proof.
  intros Hk. induction d as [|[k' v'] d IH]; simpl.
  - now rewrite Hk.
  - destruct (String.eqb k k') eqn:E; simpl.
    + apply String.eqb_eq in E. subst k'. now rewrite Hk.
    + now rewrite IH.
Qed.

Lemma str_in_refl (a : string) : str_in a a = true.
Proof.
  destruct a as [|c a]; [reflexivity|].
  simpl. rewrite Ascii.eqb_refl.
  replace (str_startswith a a) with true; [reflexivity|].
  symmetry. induction a as [|d a IH]; simpl; [reflexivity|]. now rewrite Ascii.eqb_refl.
Qed.

Lemma has_id_contains (i : string) (doc : json) :
  has_id i doc = true -> id_contains i doc = true.
Proof.
  destruct doc as [| | | | |?|f]; simpl; try discriminate.
  destruct (py_get "id" f) as [[| | | |j| |]|]; try discriminate.
  intros H. apply String.eqb_eq in H. subst j. apply str_in_refl.
Qed.

Section DraftManagerFacts.
Context {L : DirListing}.

Lemma scandir_In (d : gmap string json) (n : string) (c : json) :
  In (n, c) (scandir d) <-> d !! n = Some c.
Proof.
  rewrite <- list_elem_of_In, (scandir_perm d). apply elem_of_map_to_list.
Qed.

Lemma glob_first_Some (i : string) (d : gmap string json) (n : string) (c : json) :
  glob_first i d = Some (n, c) -> d !! n = Some c /\ glob_id i n = true.
Proof.
  intros H. apply head_filter_Some in H. destruct H as [Hin Hg].
  split; [now apply scandir_In|exact Hg].
Qed.

Lemma glob_first_None (i : string) (d : gmap string json) :
  glob_first i d = None <-> (forall n c, d !! n = Some c -> glob_id i n = false).
Proof.
  split.
  - intros H n c Hn. apply (head_filter_None _ _ H (n, c)). now apply scandir_In.
  - intros H. destruct (glob_first i d) as [[n c]|] eqn:E; [|reflexivity].
    apply glob_first_Some in E. destruct E as [Hn Hg].
    rewrite (H n c Hn) in Hg. discriminate.
Qed.

Lemma glob_first_only (i : string) (d : gmap string json) (n : string) (c : json) :
  d !! n = Some c -> glob_id i n = true ->
  (forall n' c', d !! n' = Some c' -> glob_id i n' = true -> n' = n) ->
  glob_first i d = Some (n, c).
Proof.
  intros Hn Hg Hu. apply head_filter_only; [now apply scandir_In|exact Hg|].
  intros [n' c'] Hin Hg'. apply scandir_In in Hin. simpl in Hg'.
  assert (n' = n) by (eapply Hu; eauto). subst n'. congruence.
Qed.

(** C4, as amended.  When the pattern of the identifier is accepted and
    selects no file of the approved directory, [mark_posted] returns
    [False] and the three directories are as before: no file is created
    in [posted].  This is so for every non-empty identifier without [*],
    [?], [[] and [/] that occurs in no file name of [approved].  When the
    pattern is refused, the call raises [ValueError], and the directories
    are as before as well. *)
Theorem mark_posted_not_found (draft_id : string) (tweet_id : option string)
    (now : datetime) (st : store) :
  (glob_invalid draft_id = false ->
   (forall name doc, approved st !! name = Some doc -> glob_id draft_id name = false) ->
   mark_posted draft_id tweet_id now st = (Returned false, st))
  /\ (plain_id draft_id = true ->
      (forall name doc, approved st !! name = Some doc ->
                        contains_json draft_id name = false) ->
      mark_posted draft_id tweet_id now st = (Returned false, st))
  /\ (glob_invalid draft_id = true ->
      mark_posted draft_id tweet_id now st = (Raised ValueError, st)).
Proof.
  assert (Hnone : glob_invalid draft_id = false ->
            (forall name doc, approved st !! name = Some doc ->
                              glob_id draft_id name = false) ->
            mark_posted draft_id tweet_id now st = (Returned false, st)).
  { intros Hv H. unfold mark_posted. rewrite Hv.
    now rewrite (proj2 (glob_first_None draft_id (approved st)) H). }
  split; [exact Hnone|]. split.
  - intros Hplain H. apply Hnone; [now apply glob_invalid_plain|].
    intros name doc Hdoc. rewrite glob_id_plain by exact Hplain. eauto.
  - intros Hv. unfold mark_posted. now rewrite Hv.
Qed.

(** C10. A [mark_posted] call that returns [True] took a record of the
    approved directory, wrote it to [posted] under the same file name with
    [status], [posted_at] and [tweet_id] set, and left every other field
    of the record, known or unknown, with its value and in its place; the
    file is removed from [approved] and no other file changes. *)
Theorem mark_posted_frame (draft_id : string) (tweet_id : option string)
    (now : datetime) (st st' : store) :
  mark_posted draft_id tweet_id now st = (Returned true, st') ->
  exists name draft draft',
    approved st !! name = Some (JObj draft)
    /\ glob_id draft_id name = true
    /\ st' = {| pending := pending st;
                approved := delete name (approved st);
                posted := <[name := JObj draft']> (posted st) |}
    /\ other_fields draft' = other_fields draft
    /\ (forall k, posting_field k = false -> py_get k draft' = py_get k draft)
    /\ py_get "status" draft' = Some (JStr "posted")
    /\ py_get "posted_at" draft' = Some (JStr (isoformat now))
    /\ py_get "tweet_id" draft' = Some (opt_str tweet_id).
Proof.
  unfold mark_posted. intros H.
  destruct (glob_invalid draft_id); [discriminate|].
  destruct (glob_first draft_id (approved st)) as [[name doc]|] eqn:E; [|discriminate].
  apply glob_first_Some in E. destruct E as [Hn Hg].
  destruct doc as [| | | | | |draft]; try discriminate.
  injection H as <-.
  eexists name, draft, _. split; [exact Hn|]. split; [exact Hg|].
  split; [reflexivity|].
  split.
  { unfold other_fields.
    rewrite !(filter_py_set (fun k => negb (posting_field k))); reflexivity. }
  split.
  { intros k Hk. unfold posting_field in Hk.
    apply orb_false_iff in Hk. destruct Hk as [Hk H3].
    apply orb_false_iff in Hk. destruct Hk as [H1 H2].
    apply String.eqb_neq in H1, H2, H3.
    rewrite !py_get_set_ne by congruence. reflexivity. }
  split; [|split].
  - rewrite !py_get_set_ne by discriminate. apply py_get_set_eq.
  - rewrite py_get_set_ne by discriminate. apply py_get_set_eq.
  - apply py_get_set_eq.
Qed.
End DraftManagerFacts.

(** *** Identifiers made by [strftime_id] *)

Lemma digit_id_char (n : N) : id_char (digit n) = true.
Proof.
  unfold digit. pose proof (N.mod_lt n 10 ltac:(discriminate)) as H.
  remember (n mod 10)%N as r eqn:Hr. clear Hr.
  assert (Hc : (r = 0 \/ r = 1 \/ r = 2 \/ r = 3 \/ r = 4 \/ r = 5 \/ r = 6
                \/ r = 7 \/ r = 8 \/ r = 9)%N) by lia.
  repeat (destruct Hc as [->|Hc]; [reflexivity|]). subst r. reflexivity.
Qed.

Lemma strftime_id_chars (t : datetime) : str_forall id_char (strftime_id t) = true.
Proof.
  unfold strftime_id, pad4, pad2. simpl. now rewrite !digit_id_char.
Qed.

Lemma strftime_id_length (t : datetime) : String.length (strftime_id t) = 15.
Proof. reflexivity. Qed.

Lemma str_forall_impl (f g : ascii -> bool) (s : string) :
  (forall c, f c = true -> g c = true) -> str_forall f s = true -> str_forall g s = true.
Proof.
  intros Hfg. induction s as [|c s IH]; simpl; [reflexivity|].
  intros H. apply andb_true_iff in H. destruct H as [Hc Hs].
  now rewrite (Hfg c Hc), IH.
Qed.

Lemma id_char_not_special (c : ascii) : id_char c = true -> negb (glob_special c) = true.
Proof.
  unfold id_char, glob_special. intros H.
  destruct (Ascii.eqb c "*") eqn:E1; [apply Ascii.eqb_eq in E1; subst; discriminate|].
  destruct (Ascii.eqb c "?") eqn:E2; [apply Ascii.eqb_eq in E2; subst; discriminate|].
  destruct (Ascii.eqb c "[") eqn:E3; [apply Ascii.eqb_eq in E3; subst; discriminate|].
  destruct (Ascii.eqb c "/") eqn:E4; [apply Ascii.eqb_eq in E4; subst; discriminate|].
  reflexivity.
Qed.

Lemma plain_id_chars (s : string) : str_forall id_char s = true -> no_special s = true.
Proof.
  induction s as [|c s IH]; simpl; [reflexivity|].
  intros H. apply andb_true_iff in H. destruct H as [Hc Hs].
  now rewrite (id_char_not_special c Hc), IH.
Qed.

Lemma strftime_id_plain (t : datetime) : plain_id (strftime_id t) = true.
Proof.
  change (plain_id (strftime_id t)) with (no_special (strftime_id t)).
  apply plain_id_chars, strftime_id_chars.
Qed.

Lemma app_str_assoc (a b c : string) : (a +:+ b) +:+ c = a +:+ b +:+ c.
Proof. induction a as [|x a IH]; simpl; [reflexivity|]. now rewrite IH. Qed.

Lemma app_str_empty_r (a : string) : a +:+ "" = a.
Proof. induction a as [|x a IH]; simpl; [reflexivity|]. now rewrite IH. Qed.

Lemma str_startswith_app_r (a x y : string) :
  str_startswith a x = true -> str_startswith a (x +:+ y) = true.
Proof.
  revert x. induction a as [|c a IH]; intros x H; simpl in *; [reflexivity|].
  destruct x as [|d x]; [discriminate|]. simpl.
  destruct (Ascii.eqb c d); [now apply IH|discriminate].
Qed.

Lemma str_in_app_r (a x y : string) : str_in a x = true -> str_in a (x +:+ y) = true.
Proof.
  induction x as [|c x IH]; simpl.
  - destruct (str_startswith a "") eqn:E; [|discriminate]. intros _.
    destruct a; [|discriminate]. now destruct y.
  - destruct (str_startswith a (String c x)) eqn:E.
    + intros _. apply (str_startswith_app_r _ _ y) in E. simpl in E. now rewrite E.
    + intros H. rewrite (IH H). now destruct (str_startswith a (String c (x +:+ y))).
Qed.

Lemma strip_suffix_Some (suffix name stem : string) :
  strip_suffix suffix name = Some stem -> name = stem +:+ suffix.
Proof.
  revert stem. induction name as [|c name IH]; intros stem; simpl.
  - destruct (String.eqb suffix "") eqn:E; [|discriminate].
    apply String.eqb_eq in E. intros [= <-]. now subst.
  - destruct (String.eqb suffix (String c name)) eqn:E.
    + apply String.eqb_eq in E. intros [= <-]. now subst.
    + destruct (strip_suffix suffix name) as [stem'|]; [|discriminate].
      intros [= <-]. simpl. now rewrite <- (IH stem').
Qed.

Lemma contains_json_str_in (i name : string) :
  contains_json i name = true -> str_in i name = true.
Proof.
  unfold contains_json. destruct (strip_suffix ".json" name) as [stem|] eqn:E; [|discriminate].
  apply strip_suffix_Some in E. subst name. apply str_in_app_r.
Qed.

Lemma contains_json_draft_file (i : string) : contains_json i (draft_file i) = true.
Proof.
  unfold contains_json, draft_file.
  rewrite <- app_str_assoc, strip_suffix_app by discriminate.
  rewrite <- (app_str_empty_r i) at 2. apply str_in_app.
Qed.

Lemma has_id_first (i : string) (rest : list (string * json)) :
  has_id i (JObj (("id", JStr i) :: rest)) = true.
Proof. simpl. apply String.eqb_refl. Qed.

Section Lifecycle.
Context {L : DirListing}.

Lemma glob_id_draft_file (t : datetime) :
  glob_id (strftime_id t) (draft_file (strftime_id t)) = true.
Proof.
  rewrite glob_id_plain by apply strftime_id_plain. apply contains_json_draft_file.
Qed.

Lemma glob_invalid_strftime (t : datetime) : glob_invalid (strftime_id t) = false.
Proof. apply glob_invalid_plain, strftime_id_plain. Qed.

Lemma glob_json_In (d : gmap string json) (doc : json) :
  In doc (map snd (glob_json d)) -> exists name, d !! name = Some doc.
Proof.
  intros H. apply in_map_iff in H. destruct H as ([n c] & <- & Hin).
  apply List.filter_In in Hin. destruct Hin as [Hin _].
  exists n. now apply scandir_In.
Qed.

Lemma list_pending_In (st : store) (l : list json) (doc : json) :
  list_pending st = Returned l -> In doc l -> exists name, pending st !! name = Some doc.
Proof.
  unfold list_pending. intros H Hin. apply glob_json_In.
  destruct (negb (forallb is_dict _)); [discriminate|].
  destruct (forallb _ _).
  - injection H as <-. now apply (proj1 (sorted_desc_In _ _ _ _)) in Hin.
  - destruct (_ <? 2)%nat; [|discriminate]. now injection H as <-.
Qed.

Lemma list_pending_returns (st : store) :
  (forall name doc, pending st !! name = Some doc -> sortable_draft doc = true) ->
  exists l, list_pending st = Returned l.
Proof.
  intros H. unfold list_pending.
  assert (Hall : forall doc, In doc (map snd (glob_json (pending st))) ->
                             sortable_draft doc = true).
  { intros doc Hin. apply glob_json_In in Hin. destruct Hin as [n Hn]. eauto. }
  rewrite (proj2 (forallb_forall is_dict _)).
  - simpl. rewrite (proj2 (forallb_forall _ _)); [eauto|].
    intros doc Hin. apply Hall in Hin. unfold sortable_draft in Hin.
    now apply andb_true_iff in Hin.
  - intros doc Hin. apply Hall in Hin. unfold sortable_draft in Hin.
    now apply andb_true_iff in Hin.
Qed.

(** C3. A draft is saved into a store in which no other pending file has
    the new identifier inside its name or inside its record's [id].  Then
    [approve_draft] on the identifier returns [True], the record is in
    [approved] and no longer in [pending]; a [list_pending] that follows
    returns no record with that identifier (and it does return when the
    pending records are dicts with a str [created_at]); and a second
    [approve_draft] returns [False] and changes nothing. *)
Theorem approve_after_save (st : store) (now_id now_created : datetime)
    (english persian pattern : string) (media hashtags sources : option (list string)) :
  let draft_id := strftime_id now_id in
  let saved := save_draft now_id now_created english persian pattern
                 media hashtags sources st in
  let name := fst saved in
  let st1 := snd saved in
  let st2 := snd (approve_draft draft_id st1) in
  (forall n doc, pending st !! n = Some doc -> n <> name ->
     str_in draft_id n = false /\ id_contains draft_id doc = false) ->
  exists draft,
    pending st1 !! name = Some draft
    /\ has_id draft_id draft = true
    /\ fst (approve_draft draft_id st1) = Returned true
    /\ pending st2 !! name = None
    /\ approved st2 !! name = Some draft
    /\ posted st2 = posted st
    /\ (forall l doc, list_pending st2 = Returned l -> In doc l ->
          has_id draft_id doc = false)
    /\ ((forall n doc, pending st !! n = Some doc -> sortable_draft doc = true) ->
        exists l, list_pending st2 = Returned l)
    /\ approve_draft draft_id st2 = (Returned false, st2).
Proof.
  intros draft_id saved name st1 st2 Hother.
  unfold save_draft in saved. simpl in name, st1.
  fold draft_id in name, st1.
  set (draft := new_draft _ _ _ _ _ _ _ _) in st1.
  assert (Hfirst : glob_first draft_id (pending st1) = Some (name, draft)).
  { apply glob_first_only.
    - apply lookup_insert_eq.
    - apply glob_id_draft_file.
    - intros n' c' Hn' Hg. destruct (decide (n' = name)) as [|Hne]; [assumption|].
      simpl in Hn'. rewrite lookup_insert_ne in Hn' by (intros Heq; now apply Hne).
      destruct (Hother n' c' Hn' Hne) as [Hs _].
      unfold draft_id in Hg. rewrite glob_id_plain in Hg by apply strftime_id_plain.
      apply contains_json_str_in in Hg. fold draft_id in Hg. congruence. }
  assert (Hst2 : st2 = {| pending := delete name (pending st1);
                          approved := <[name := draft]> (approved st1);
                          posted := posted st1 |}).
  { unfold st2, approve_draft. unfold draft_id at 1.
    now rewrite glob_invalid_strftime, Hfirst. }
  assert (Hpend : forall n doc, pending st2 !! n = Some doc ->
                                pending st !! n = Some doc /\ n <> name).
  { intros n doc. rewrite Hst2. simpl. intros H.
    apply lookup_delete_Some in H. destruct H as [Hne H].
    rewrite lookup_insert_ne in H by exact Hne. split; [exact H|].
    intros Heq. now apply Hne. }
  assert (Hnone : glob_first draft_id (pending st2) = None).
  { apply glob_first_None. intros n doc Hn. apply Hpend in Hn. destruct Hn as [Hn Hne].
    destruct (Hother n doc Hn Hne) as [Hs _].
    destruct (glob_id draft_id n) eqn:Hg; [|reflexivity].
    unfold draft_id in Hg. rewrite glob_id_plain in Hg by apply strftime_id_plain.
    apply contains_json_str_in in Hg. fold draft_id in Hg. congruence. }
  exists draft. split; [apply lookup_insert_eq|].
  split; [apply has_id_first|].
  split; [unfold approve_draft, draft_id at 1; now rewrite glob_invalid_strftime, Hfirst|].
  split; [rewrite Hst2; simpl; apply lookup_delete_eq|].
  split; [rewrite Hst2; simpl; apply lookup_insert_eq|].
  split; [now rewrite Hst2|].
  split.
  { intros l doc Hl Hin. destruct (list_pending_In _ _ _ Hl Hin) as [n Hn].
    apply Hpend in Hn. destruct Hn as [Hn Hne].
    destruct (Hother n doc Hn Hne) as [_ Hc].
    destruct (has_id draft_id doc) eqn:E; [|reflexivity].
    apply has_id_contains in E. congruence. }
  split.
  { intros Hwf. apply list_pending_returns. intros n doc Hn.
    apply Hpend in Hn. destruct Hn as [Hn _]. eauto. }
  unfold approve_draft, draft_id at 1. now rewrite glob_invalid_strftime, Hnone.
Qed.
End Lifecycle.

(** *** One record per identifier *)

Lemma named_has_id (n i : string) (doc : json) :
  named n doc -> has_id i doc = true -> n = draft_file i.
Proof.
  intros (j & f & -> & Hid & ->). simpl. rewrite Hid.
  intros H. apply String.eqb_eq in H. now subst.
Qed.

Lemma filter_nil_all {A : Type} (f : A -> bool) (l : list A) :
  (forall x, In x l -> f x = false) -> List.filter f l = [].
Proof.
  induction l as [|x l IH]; intros H; simpl; [reflexivity|].
  rewrite (H x) by now left. apply IH. intros y Hy. apply H. now right.
Qed.

Lemma filter_single_key {A B : Type} (f : A * B -> bool) (k : A) (l : list (A * B)) :
  List.NoDup (map fst l) ->
  (forall e, In e l -> f e = true -> fst e = k) ->
  length (List.filter f l) <= 1.
Proof.
  induction l as [|e l IH]; intros Hnd Hk; simpl; [lia|].
  apply List.NoDup_cons_iff in Hnd. destruct Hnd as [Hnotin Hnd]. fold (map fst l) in *.
  destruct (f e) eqn:E.
  - rewrite filter_nil_all; [simpl; lia|].
    intros e' He'. destruct (f e') eqn:E'; [|reflexivity].
    exfalso. apply Hnotin.
    rewrite (Hk e (or_introl eq_refl) E), <- (Hk e' (or_intror He') E').
    now apply in_map.
  - apply IH; [assumption|]. intros e' He'. apply Hk. now right.
Qed.

Lemma count_in_le_1 (i : string) (d : gmap string json) :
  (forall n doc, d !! n = Some doc -> named n doc) -> count_in i d <= 1.
Proof.
  intros Hn. unfold count_in. apply (filter_single_key _ (draft_file i)).
  - apply (proj1 (NoDup_ListNoDup _)), NoDup_fst_map_to_list.
  - intros [n doc] Hin Hid. simpl in *.
    apply list_elem_of_In, elem_of_map_to_list in Hin.
    eapply named_has_id; eauto.
Qed.

Lemma count_in_pos (i : string) (d : gmap string json) :
  (forall n doc, d !! n = Some doc -> named n doc) ->
  0 < count_in i d -> is_Some (d !! draft_file i).
Proof.
  intros Hn. unfold count_in.
  destruct (List.filter _ (map_to_list d)) as [|[n doc] l] eqn:E; [simpl; lia|].
  intros _.
  assert (Hin : In (n, doc) (List.filter (fun e => has_id i (snd e)) (map_to_list d)))
    by (rewrite E; now left).
  apply List.filter_In in Hin. destruct Hin as [Hin Hid]. simpl in Hid.
  apply list_elem_of_In, elem_of_map_to_list in Hin.
  rewrite <- (named_has_id n i doc (Hn n doc Hin) Hid). eauto.
Qed.

Lemma store_ok_one_record (st : store) (i : string) :
  store_ok st -> records_with_id st i <= 1.
Proof.
  intros [Hp Ha Ho Hpa Hpo Hao]. unfold records_with_id.
  pose proof (count_in_le_1 i _ Hp) as Cp.
  pose proof (count_in_le_1 i _ Ha) as Ca.
  pose proof (count_in_le_1 i _ Ho) as Co.
  destruct (Nat.eq_dec (count_in i (pending st)) 0) as [Zp|Np].
  - destruct (Nat.eq_dec (count_in i (approved st)) 0) as [Za|Na]; [lia|].
    assert (Hin : is_Some (approved st !! draft_file i))
      by (apply count_in_pos; [assumption|lia]).
    apply Hao in Hin.
    destruct (Nat.eq_dec (count_in i (posted st)) 0) as [Zo|No]; [lia|].
    assert (Hin' : is_Some (posted st !! draft_file i))
      by (apply count_in_pos; [assumption|lia]).
    rewrite Hin in Hin'. now destruct Hin'.
  - assert (Hin : is_Some (pending st !! draft_file i))
      by (apply count_in_pos; [assumption|lia]).
    pose proof (Hpa _ Hin) as Ha'. pose proof (Hpo _ Hin) as Ho'.
    destruct (Nat.eq_dec (count_in i (approved st)) 0) as [Za|Na].
    + destruct (Nat.eq_dec (count_in i (posted st)) 0) as [Zo|No]; [lia|].
      assert (Hin' : is_Some (posted st !! draft_file i))
        by (apply count_in_pos; [assumption|lia]).
      rewrite Ho' in Hin'. now destruct Hin'.
    + assert (Hin' : is_Some (approved st !! draft_file i))
        by (apply count_in_pos; [assumption|lia]).
      rewrite Ha' in Hin'. now destruct Hin'.
Qed.

Lemma empty_store_ok : store_ok empty_store.
Proof.
  split; simpl; intros n.
  1-3: intros doc H; rewrite lookup_empty in H; discriminate.
  all: intros [x Hx]; rewrite lookup_empty in Hx; discriminate.
Qed.

Section Invariant.
Context {L : DirListing}.

Lemma save_draft_ok (st : store) (t1 t2 : datetime) (en fa pat : string)
    (media tags srcs : option (list string)) :
  store_ok st ->
  approved st !! draft_file (strftime_id t1) = None ->
  posted st !! draft_file (strftime_id t1) = None ->
  store_ok (snd (save_draft t1 t2 en fa pat media tags srcs st)).
Proof.
  intros [Hp Ha Ho Hpa Hpo Hao] Hfa Hfo. unfold save_draft, new_draft.
  set (name := draft_file (strftime_id t1)) in *.
  split; simpl; auto.
  - intros n doc H. destruct (decide (name = n)) as [<-|Hne].
    + rewrite lookup_insert_eq in H. injection H as <-.
      exists (strftime_id t1). eexists. split; [reflexivity|]. split; reflexivity.
    + rewrite lookup_insert_ne in H by exact Hne. eauto.
  - intros n H. destruct (decide (name = n)) as [<-|Hne]; [assumption|].
    rewrite lookup_insert_ne in H by exact Hne. auto.
  - intros n H. destruct (decide (name = n)) as [<-|Hne]; [assumption|].
    rewrite lookup_insert_ne in H by exact Hne. auto.
Qed.

Lemma approve_draft_ok (i : string) (st : store) :
  store_ok st -> store_ok (snd (approve_draft i st)).
Proof.
  intros Hok. unfold approve_draft.
  destruct (glob_invalid i); [exact Hok|].
  destruct (glob_first i (pending st)) as [[name doc]|] eqn:E; [|exact Hok].
  apply glob_first_Some in E. destruct E as [Hn _].
  destruct Hok as [Hp Ha Ho Hpa Hpo Hao].
  split; simpl.
  - intros n c H. apply lookup_delete_Some in H. destruct H as [_ H]. eauto.
  - intros n c H. destruct (decide (name = n)) as [<-|Hne].
    + rewrite lookup_insert_eq in H. injection H as <-. eauto.
    + rewrite lookup_insert_ne in H by exact Hne. eauto.
  - exact Ho.
  - intros n [c H]. apply lookup_delete_Some in H. destruct H as [Hne H].
    rewrite lookup_insert_ne by exact Hne. apply Hpa. eauto.
  - intros n [c H]. apply lookup_delete_Some in H. destruct H as [Hne H].
    apply Hpo. eauto.
  - intros n H. destruct (decide (name = n)) as [<-|Hne].
    + apply Hpo. eauto.
    + rewrite lookup_insert_ne in H by exact Hne. auto.
Qed.

Lemma mark_posted_ok (i : string) (tw : option string) (now : datetime) (st : store) :
  store_ok st -> store_ok (snd (mark_posted i tw now st)).
Proof.
  intros Hok. unfold mark_posted.
  destruct (glob_invalid i); [exact Hok|].
  destruct (glob_first i (approved st)) as [[name doc]|] eqn:E; [|exact Hok].
  apply glob_first_Some in E. destruct E as [Hn _].
  destruct doc as [| | | | | |draft]; try exact Hok.
  destruct Hok as [Hp Ha Ho Hpa Hpo Hao].
  split; simpl.
  - exact Hp.
  - intros n c H. apply lookup_delete_Some in H. destruct H as [_ H]. eauto.
  - intros n c H. destruct (decide (name = n)) as [<-|Hne].
    + rewrite lookup_insert_eq in H. injection H as <-.
      destruct (Ha _ _ Hn) as (j & f & Hf & Hid & Hname).
      injection Hf as <-. exists j. eexists. split; [reflexivity|]. split; [|exact Hname].
      rewrite !py_get_set_ne by discriminate. exact Hid.
    + rewrite lookup_insert_ne in H by exact Hne. eauto.
  - intros n H. rewrite lookup_delete_None. right. auto.
  - intros n H. destruct (decide (name = n)) as [<-|Hne].
    + apply Hpa in H. congruence.
    + rewrite lookup_insert_ne by exact Hne. auto.
  - intros n [c H]. apply lookup_delete_Some in H. destruct H as [Hne H].
    rewrite lookup_insert_ne by exact Hne. apply Hao. eauto.
Qed.

Lemma reject_in_Some (i : string) (d : gmap string json) (n : string) (doc : json) :
  reject_in i d !! n = Some doc -> d !! n = Some doc.
Proof.
  unfold reject_in. destruct (glob_first i d) as [[name c]|]; [|auto].
  intros H. apply lookup_delete_Some in H. tauto.
Qed.

Lemma reject_ok (i : string) (st : store) : store_ok st -> store_ok (snd (reject i st)).
Proof.
  intros Hok. unfold reject. destruct (glob_invalid i); [exact Hok|].
  destruct Hok as [Hp Ha Ho Hpa Hpo Hao]. split; simpl.
  - intros n c H. apply reject_in_Some in H. eauto.
  - intros n c H. apply reject_in_Some in H. eauto.
  - exact Ho.
  - intros n [c H]. apply reject_in_Some in H.
    destruct (reject_in i (approved st) !! n) as [c'|] eqn:E; [|reflexivity].
    apply reject_in_Some in E. rewrite Hpa in E by eauto. discriminate.
  - intros n [c H]. apply reject_in_Some in H. apply Hpo. eauto.
  - intros n [c H]. apply reject_in_Some in H. apply Hao. eauto.
Qed.

Lemma run_ok (ops : list op) (st : store) :
  store_ok st -> fresh_creates st ops = true -> store_ok (run st ops).
Proof.
  revert st. induction ops as [|o ops IH]; intros st Hok Hfresh; [exact Hok|].
  simpl in *. destruct o as [t1 t2 en fa pat media tags srcs|i|i tw now|i].
  - destruct (approved st !! draft_file (strftime_id t1)) eqn:Ea; [discriminate|].
    destruct (posted st !! draft_file (strftime_id t1)) eqn:Eo; [discriminate|].
    apply IH; [|exact Hfresh]. now apply save_draft_ok.
  - apply IH; [|exact Hfresh]. now apply approve_draft_ok.
  - apply IH; [|exact Hfresh]. now apply mark_posted_ok.
  - apply IH; [|exact Hfresh]. now apply reject_ok.
Qed.

(** C1, as amended.  Starting from empty directories, run any sequence of
    save, approve, mark-posted and reject operations in which every save
    comes at a clock second whose identifier is carried by no record that
    is in [approved] or [posted] at that moment.  Observed between
    operations, at most one record on disk carries a given identifier. *)
Theorem one_record_per_id (ops : list op) (i : string) :
  fresh_creates empty_store ops = true ->
  records_with_id (run empty_store ops) i <= 1.
Proof.
  intros Hfresh. apply store_ok_one_record, run_ok; [apply empty_store_ok|exact Hfresh].
Qed.
End Invariant.

(** *** Examples *)

(** C1, as stated, fails: after a save, its approval and a second save in
    the same clock second, [pending] and [approved] both hold a record with
    the identifier [20260117_120000]. *)
Lemma same_second_two_records :
  ~ (records_with_id (run empty_store same_second_ops) "20260117_120000" <= 1).
Proof. vm_compute. lia. Qed.

Lemma one_record_per_id_witness :
  fresh_creates empty_store spaced_ops = true
  /\ records_with_id (run empty_store spaced_ops) "20260117_120000" <= 1.
Proof.
  split; [vm_compute; reflexivity|].
  apply (one_record_per_id spaced_ops "20260117_120000"). vm_compute. reflexivity.
Defined.

Lemma approve_after_save_witness :
  exists draft,
    pending (snd (save_draft noon noon "Fire in Rasht bazaar" "" "fire_parallel"
                    None None None one_pending))
      !! "draft_20260117_120000.json" = Some draft
    /\ approved (snd (approve_draft "20260117_120000"
                        (snd (save_draft noon noon "Fire in Rasht bazaar" "" "fire_parallel"
                                None None None one_pending))))
         !! "draft_20260117_120000.json" = Some draft.
Proof.
  destruct (approve_after_save one_pending noon noon "Fire in Rasht bazaar" ""
              "fire_parallel" None None None) as (draft & H1 & _ & _ & _ & H2 & _).
  - intros n doc H Hne. simpl in H.
    apply lookup_singleton_Some in H. destruct H as [<- <-].
    split; vm_compute; reflexivity.
  - exists draft. split; [exact H1|exact H2].
Defined.

Lemma mark_posted_not_found_witness :
  mark_posted "20260117" None noon one_approved = (Returned false, one_approved).
Proof.
  apply (proj1 (proj2 (mark_posted_not_found "20260117" None noon one_approved)));
    [reflexivity|].
  intros name doc H. simpl in H.
  apply lookup_singleton_Some in H. destruct H as [<- _].
  vm_compute. reflexivity.
Defined.

(** C4, as stated, fails with [pathlib] up to Python 3.12: the empty
    identifier selects no file of an empty approved directory, and
    [mark_posted] raises the [ValueError] of the refused pattern [**.json]
    instead of returning [False]. *)
Lemma mark_posted_empty_id_raises :
  (forall name doc, approved empty_store !! name = Some doc -> glob_id "" name = false)
  /\ mark_posted "" None noon empty_store = (Raised ValueError, empty_store)
  /\ mark_posted "" None noon empty_store <> (Returned false, empty_store).
Proof.
  split; [|split].
  - intros name doc H. simpl in H. rewrite lookup_empty in H. discriminate.
  - vm_compute. reflexivity.
  - vm_compute. discriminate.
Qed.

Lemma mark_posted_frame_witness :
  exists name draft draft',
    approved one_approved !! name = Some (JObj draft)
    /\ posted (snd (mark_posted "0116" (Some "1880000000000000001") noon one_approved))
         !! name = Some (JObj draft')
    /\ other_fields draft' = other_fields draft
    /\ py_get "editor_note" draft' = Some (JStr "kept by another tool").
Proof.
  destruct (mark_posted_frame "0116" (Some "1880000000000000001") noon one_approved
              (snd (mark_posted "0116" (Some "1880000000000000001") noon one_approved)))
    as (name & draft & draft' & Ha & _ & Hst & Hother & Hget & _).
  - vm_compute. reflexivity.
  - exists name, draft, draft'. split; [exact Ha|]. split.
    + rewrite Hst. simpl. apply lookup_insert_eq.
    + split; [exact Hother|].
      rewrite Hget by reflexivity.
      simpl in Ha. apply lookup_singleton_Some in Ha. destruct Ha as [_ Ha].
      injection Ha as <-. reflexivity.
Defined.

(** ** KnowledgeBase *)

(** C9, as amended.  With a calendar document that is a dict and has no
    entry under the empty key (its keys are month names),
    [get_anniversary_for_date] with a month outside 1..12 returns the empty
    list, for every day; it does not raise. *)
Theorem anniversary_invalid_month (data : kb_data) (cal : list (string * json))
    (month day : Z) :
  (month < 1 \/ 12 < month)%Z ->
  kb_calendar data = Returned (JObj cal) ->
  py_get "" cal = None ->
  get_anniversary_for_date data month day = Returned [].
Proof.
  intros Hm Hcal Hkey. unfold get_anniversary_for_date. rewrite Hcal. simpl.
  replace ((1 <=? month)%Z && (month <=? 12)%Z) with false
    by (symmetry; apply andb_false_iff; lia).
  unfold py_get_default. rewrite Hkey. reflexivity.
Qed.

Lemma anniversary_invalid_month_witness :
  get_anniversary_for_date sample_kb 13 1 = Returned [].
Proof.
  eapply anniversary_invalid_month.
  - right. lia.
  - vm_compute. reflexivity.
  - vm_compute. reflexivity.
Defined.

(** C9, as stated, fails: an invalid month is looked up under the empty
    key, so with a calendar that has an entry under that key month 13
    returns an event; and with a calendar that is not a dict the call
    raises [AttributeError]. *)
Lemma anniversary_invalid_month_events :
  get_anniversary_for_date stray_key_kb 13 1
  = Returned [ JObj [ ("date", JStr "13-01"); ("event", JStr "Unsorted entry") ] ]
  /\ get_anniversary_for_date list_calendar_kb 13 1 = Raised AttributeError.
Proof. split; reflexivity. Qed.

(** ** TweetEnricher *)

Lemma select_facts_filter (keywords : list string) (facts relevant : list json) :
  select_facts keywords facts = Returned relevant ->
  relevant = List.filter (fact_hit keywords) facts.
Proof.
  revert relevant. induction facts as [|fact facts IH]; intros relevant; simpl.
  - now intros [= <-].
  - unfold fact_relevant, fact_hit.
    destruct fact as [| | | | | |f]; simpl; try discriminate.
    destruct (py_get_default "fact" (JStr "") f) as [| | | |raw| |]; simpl; try discriminate.
    destruct (select_facts keywords facts) as [rel|e]; simpl; [|discriminate].
    intros [= <-]. rewrite (IH rel eq_refl).
    now destruct (existsb _ keywords).
Qed.

Lemma filter_sublist {A : Type} (f : A -> bool) (l : list A) :
  sublist (List.filter f l) l.
Proof.
  induction l as [|x l IH]; simpl; [constructor|].
  destruct (f x); now constructor.
Qed.

Lemma lookup_pattern_keywords (pattern : json) (found : option (list string)) :
  lookup_pattern pattern pattern_facts = Returned found ->
  match found with Some kws => kws | None => [] end = pattern_keywords pattern.
Proof.
  destruct pattern; simpl; try discriminate; now intros [= <-].
Qed.

(** C7, as amended.  When no pattern matches the text of a draft,
    [enrich_draft] takes the [pattern] field of the draft itself, and
    [massacre_escalation] only when the draft has no such field.  For every
    pattern, the context of [get_historical_context] holds the first facts
    of the knowledge base, in its order, whose text contains a keyword of
    the pattern, three of them at most. *)
Theorem enrich_fallback_and_context (data : kb_data) :
  (forall d text r,
     py_get_default "english" (JStr "") d = JStr text ->
     auto_detect_pattern text = [] ->
     enrich_draft data (JObj d) = Returned (JObj r) ->
     py_get "detected_pattern" r
     = Some (py_get_default "pattern" (JStr "massacre_escalation") d))
  /\ (forall pattern context,
        get_historical_context data pattern = Returned context ->
        exists all_facts,
          kb_fact_list data = Returned all_facts
          /\ py_get "facts" context
             = Some (JArr (firstn 3 (List.filter (fact_hit (pattern_keywords pattern)) all_facts)))
          /\ length (firstn 3 (List.filter (fact_hit (pattern_keywords pattern)) all_facts)) <= 3
          /\ sublist (firstn 3 (List.filter (fact_hit (pattern_keywords pattern)) all_facts))
               all_facts).
Proof.
  split.
  - intros d text r Htext Hnone. unfold enrich_draft. simpl. rewrite Htext. simpl.
    unfold detect_pattern. rewrite Hnone.
    destruct (get_historical_context data _) as [context|e]; simpl; [|discriminate].
    destruct (py_len _) as [n|e]; simpl; [|discriminate].
    destruct (if py_truthy _ then _ else _) as [era_name|e]; simpl; [|discriminate].
    intros [= <-].
    rewrite py_get_set_ne by discriminate. apply py_get_set_eq.
  - intros pattern context. unfold get_historical_context, kb_fact_list.
    destruct (get_facts data) as [facts|e]; simpl; [|discriminate].
    destruct (lookup_pattern pattern pattern_facts) as [found|e] eqn:Ef; simpl; [|discriminate].
    apply lookup_pattern_keywords in Ef. rewrite Ef.
    destruct (py_iter facts) as [all_facts|e]; simpl; [|discriminate].
    destruct (select_facts _ all_facts) as [relevant|e] eqn:Es; simpl; [|discriminate].
    apply select_facts_filter in Es. subst relevant.
    destruct (as_dict _) as [hist|e]; simpl; [|discriminate].
    destruct (lookup_pattern pattern era_mapping) as [era_key|e]; simpl; [|discriminate].
    destruct (match era_key with Some _ => _ | None => _ end) as [era|e]; simpl; [|discriminate].
    intros [= <-]. exists all_facts. split; [reflexivity|]. split; [reflexivity|].
    split; [apply firstn_le_length|].
    etransitivity; [apply sublist_take|apply filter_sublist].
Qed.

(** C7, as stated, fails: no pattern matches [Good morning], and the draft
    carries [pattern = general]; [enrich_draft] reports [general], not
    [massacre_escalation]. *)
Lemma enrich_keeps_draft_pattern :
  auto_detect_pattern "Good morning" = []
  /\ exists r, enrich_draft sample_kb older_draft = Returned (JObj r)
               /\ py_get "detected_pattern" r = Some (JStr "general")
               /\ py_get "detected_pattern" r <> Some (JStr "massacre_escalation").
Proof.
  split; [vm_compute; reflexivity|].
  eexists. split; [vm_compute; reflexivity|].
  split; [vm_compute; reflexivity|]. vm_compute. discriminate.
Qed.

Lemma enrich_fallback_and_context_witness :
  (exists r, enrich_draft sample_kb (JObj bare_draft) = Returned (JObj r)
             /\ py_get "detected_pattern" r = Some (JStr "massacre_escalation"))
  /\ (exists context facts,
        get_historical_context sample_kb (JStr "massacre_escalation") = Returned context
        /\ py_get "facts" context = Some (JArr facts)
        /\ length facts <= 3).
Proof.
  destruct (enrich_fallback_and_context sample_kb) as [Hfallback Hcontext]. split.
  - eexists. split; [vm_compute; reflexivity|].
    apply (Hfallback bare_draft "Good morning"); vm_compute; reflexivity.
  - assert (E : exists context,
               get_historical_context sample_kb (JStr "massacre_escalation")
               = Returned context)
      by (eexists; vm_compute; reflexivity).
    destruct E as [context E].
    destruct (Hcontext _ _ E) as (all_facts & _ & Hfacts & Hlen & _).
    exists context. eexists. split; [exact E|]. split; [exact Hfacts|exact Hlen].
Defined.

(** ** The [json] codec *)







(** *** Numbers *)

























(** *** Values *)








Lemma no_num_start_items (level : nat) (xs : list json) (k : string) :
  no_num_start (emit_rest (emit level) level xs (newline_indent level (String "]" k))) = true
  /\ forall level', no_num_start (emit_rest (emit level) level xs (newline_indent level' (String "]" k))) = true.
Proof. split; [|intros level']; destruct xs; reflexivity. Qed.







Lemma existsb_app_single (k k' : string) (keys : list string) :
  existsb (String.eqb k) (keys ++ [k'])
  = existsb (String.eqb k) keys || String.eqb k k'.
Proof. rewrite existsb_app. simpl. now rewrite orb_false_r. Qed.



(** *** Fuel and the law of the codec *)










Lemma nodup_keys_app_single (k : string) (keys : list string) :
  nodup_keys keys = true -> existsb (String.eqb k) keys = false ->
  nodup_keys (keys ++ [k]) = true.
Proof.
  induction keys as [|x keys IH]; simpl; [reflexivity|].
  intros Hnd Hk. apply andb_true_iff in Hnd. destruct Hnd as [Hx Hnd].
  apply orb_false_iff in Hk. destruct Hk as [Hkx Hk].
  rewrite existsb_app_single, IH by assumption.
  apply negb_true_iff in Hx. rewrite Hx. simpl.
  rewrite String.eqb_sym, Hkx. reflexivity.
Qed.

Lemma py_get_None_keys (k : string) (d : list (string * json)) :
  py_get k d = None -> existsb (String.eqb k) (map fst d) = false.
Proof.
  induction d as [|[k' v'] d IH]; simpl; [reflexivity|].
  destruct (String.eqb k k'); [discriminate|]. exact IH.
Qed.

Lemma forallb_py_set (ok : string * json -> bool) (k : string) (v : json)
    (d : list (string * json)) :
  forallb ok d = true -> ok (k, v) = true -> forallb ok (py_set k v d) = true.
Proof.
  intros Hd Hkv. induction d as [|[k' v'] d IH]; simpl in *.
  - now rewrite Hkv.
  - apply andb_true_iff in Hd. destruct Hd as [H1 H2].
    destruct (String.eqb k k'); simpl.
    + now rewrite Hkv, H2.
    + now rewrite H1, IH.
Qed.

(** An assignment [d[k] = v] of a JSON value keeps a dict a JSON value. *)
Lemma json_value_py_set (k : string) (v : json) (d : list (string * json)) :
  json_value (JObj d) = true -> json_value v = true ->
  json_value (JObj (py_set k v d)) = true.
Proof.
  simpl. intros Hd Hv. apply andb_true_iff in Hd. destruct Hd as [Hnd Hall].
  apply andb_true_iff. split.
  - rewrite py_set_keys. destruct (py_get k d) eqn:E; [exact Hnd|].
    apply nodup_keys_app_single; [exact Hnd|]. now apply py_get_None_keys.
  - now apply forallb_py_set.
Qed.

Lemma json_value_py_get (k : string) (v : json) (d : list (string * json)) :
  json_value (JObj d) = true -> py_get k d = Some v -> json_value v = true.
Proof.
  simpl. intros Hd Hk. apply andb_true_iff in Hd. destruct Hd as [_ Hall].
  induction d as [|[k' v'] d IH]; simpl in *; [discriminate|].
  apply andb_true_iff in Hall. destruct Hall as [Hv' Hall].
  destruct (String.eqb k k'); [congruence|]. now apply IH.
Qed.

(** ** CorpusManager *)



(** ** FaytuksDaemon *)






Section Cycle.
Context {L : DirListing} {P : IsoParser}.



End Cycle.

Section CycleLoops.
Context {L : DirListing} {P : IsoParser}.






End CycleLoops.

Section CycleRouting.
Context {L : DirListing} {P : IsoParser}.

End CycleRouting.



(** ** Emotions and hooks *)

Lemma auto_detect_pattern_keys (text : string) (d : detection) :
  In d (auto_detect_pattern text) -> In (det_pattern d) (map fst PATTERN_TRIGGERS).
Proof.
  unfold auto_detect_pattern. intros H.
  apply (proj1 (sorted_desc_In _ _ _ _)) in H.
  destruct d as [[p s] m]. apply (proj1 (scan_triggers_In _ _ _ _ _)) in H.
  destruct H as (tr & Hin & _). apply (in_map fst) in Hin. exact Hin.
Qed.

(** X1. Every pattern that [auto_detect_pattern] reports has its own entry
    in [PATTERN_EMOTIONS], a list of two emotions (so the default
    [["OUTRAGE"]] is not used for it), and [get_best_hook] gives it a hook
    of [HOOK_TEMPLATES] whose [best_for] names the pattern (so the default
    hook is not used for it either). *)
Theorem detected_pattern_hook_and_emotions (text : string) (d : detection) :
  In d (auto_detect_pattern text) ->
  assoc (det_pattern d) PATTERN_EMOTIONS = Some (get_emotions (det_pattern d))
  /\ length (get_emotions (det_pattern d)) = 2
  /\ exists config,
       assoc (get_best_hook (det_pattern d)) HOOK_TEMPLATES = Some config
       /\ In (det_pattern d) (best_for config).
Proof.
  intros H. apply auto_detect_pattern_keys in H.
  simpl in H.
  repeat (destruct H as [<-|H];
          [split; [reflexivity|]; split; [reflexivity|];
           eexists; split; [reflexivity|]; simpl; tauto|]).
  destruct H.
Qed.

Lemma detected_pattern_hook_and_emotions_witness :
  get_emotions "fire_parallel" = ["OUTRAGE"; "IRONY"]
  /\ get_best_hook "fire_parallel" = "historical_reveal".
Proof.
  destruct (detected_pattern_hook_and_emotions "Cinema Rex fire in Rasht bazaar"
              ("fire_parallel", (4 # 8)%Q, ["fire"; "Cinema Rex"; "Rasht"; "bazaar"]))
    as (_ & _ & _).
  - vm_compute. left. reflexivity.
  - split; reflexivity.
Defined.

Lemma str_mem_In (s : string) (l : list string) : str_mem s l = true <-> In s l.
Proof.
  unfold str_mem. rewrite existsb_exists. split.
  - intros (x & Hx & E). apply String.eqb_eq in E. now subst.
  - intros H. exists s. split; [exact H|apply String.eqb_refl].
Qed.

Lemma first_hook_None (pattern : string) (table : list (string * hook_config)) :
  (forall h c, In (h, c) table -> ~ In pattern (best_for c)) ->
  first_hook pattern table = None.
Proof.
  induction table as [|[h c] table IH]; intros Hall; [reflexivity|]. simpl.
  destruct (str_mem pattern (best_for c)) eqn:E.
  - apply str_mem_In in E. exfalso. apply (Hall h c); [now left|exact E].
  - apply IH. intros h' c' Hin'. apply (Hall h' c'). now right.
Qed.

(** X2. Whatever the pattern, [get_best_hook] returns one of five hook
    types of [HOOK_TEMPLATES] and never [contrast]: each pattern in the
    [best_for] of [contrast] is taken by a hook earlier in the table.  A
    pattern that no hook names gets [historical_reveal]. *)
Theorem get_best_hook_never_contrast (pattern : string) :
  In (get_best_hook pattern)
     ["shocking_stat"; "historical_reveal"; "question_hook"; "pattern_break"; "time_anchor"]
  /\ get_best_hook pattern <> "contrast"
  /\ ((forall hook_type config, In (hook_type, config) HOOK_TEMPLATES ->
         ~ In pattern (best_for config)) ->
      get_best_hook pattern = "historical_reveal").
Proof.
  assert (Hin : In (get_best_hook pattern)
     ["shocking_stat"; "historical_reveal"; "question_hook"; "pattern_break"; "time_anchor"]).
  { unfold get_best_hook, HOOK_TEMPLATES, first_hook, best_for.
    destruct (str_mem pattern ["massacre_escalation"; "western_betrayal"]) eqn:E1;
      [simpl; tauto|].
    destruct (str_mem pattern ["fire_parallel"; "counter_revolution"; "constitutional_memory"])
      eqn:E2; [simpl; tauto|].
    destruct (str_mem pattern ["western_betrayal"; "great_power_game"]) eqn:E3;
      [simpl; tauto|].
    destruct (str_mem pattern ["counter_revolution"; "massacre_escalation"]) eqn:E4.
    { exfalso. apply str_mem_In in E4. simpl in E4.
      destruct E4 as [<-|[<-|[]]]; discriminate. }
    destruct (str_mem pattern ["ethnic_unity"; "geography_fortress"; "iraq_contrast"]) eqn:E5;
      [simpl; tauto|].
    destruct (str_mem pattern ["diaspora_return"; "counter_revolution"; "fire_parallel"]) eqn:E6;
      simpl; tauto. }
  split; [exact Hin|]. split.
  - intros E. rewrite E in Hin. simpl in Hin. intuition discriminate.
  - intros Hnone. unfold get_best_hook.
    now rewrite (first_hook_None pattern HOOK_TEMPLATES Hnone).
Qed.

Lemma get_best_hook_never_contrast_witness : get_best_hook "breaking" = "historical_reveal".
Proof.
  apply (get_best_hook_never_contrast "breaking").
  intros hook_type config Hin.
  simpl in Hin.
  repeat (destruct Hin as [E|Hin]; [injection E as <- <-; simpl; intuition discriminate|]).
  destruct Hin.
Defined.

(** ** MediaMatcher *)

Lemma dir_images_In (media : media_tree) (subdir : string) (e : media_entry) :
  In e (dir_images media subdir) <->
  exists names ext,
    media !! subdir = Some names /\ In (me_filename e) names
    /\ In ext image_exts /\ str_endswith ext (me_filename e) = true
    /\ e = media_entry_of subdir (me_filename e).
Proof.
  unfold dir_images. destruct (media !! subdir) as [names|].
  - rewrite in_flat_map. split.
    + intros (ext & Hext & He). apply in_map_iff in He. destruct He as (n & <- & Hn).
      apply filter_In in Hn. destruct Hn as [Hn Hend].
      exists names, ext. simpl. auto.
    + intros (names' & ext & E & Hn & Hext & Hend & He). injection E as <-.
      exists ext. split; [exact Hext|]. apply in_map_iff.
      exists (me_filename e). split; [now symmetry|].
      apply filter_In. auto.
  - split; [intros []|]. intros (names & ext & E & _). discriminate.
Qed.

Lemma find_media_available (media : media_tree) (pattern : string) :
  mr_available (find_media_for_pattern media pattern)
  = flat_map (dir_images media) (or_nil (assoc pattern PATTERN_MEDIA_DIRS)).
Proof.
  unfold find_media_for_pattern.
  destruct (flat_map (dir_images media) (or_nil (assoc pattern PATTERN_MEDIA_DIRS)));
    reflexivity.
Qed.

(** X3. [find_media_for_pattern] lists exactly the image files of the
    media directories of the pattern: an entry is available if and only if
    its directory is one of [PATTERN_MEDIA_DIRS[pattern]] that exists, its
    file name is an entry of that directory that ends with one of the five
    image extensions, and its path is the directory, a slash and the file
    name.  The recommended entry is the first available one. *)
Theorem find_media_lists_pattern_images (media : media_tree) (pattern : string)
    (e : media_entry) :
  (In e (mr_available (find_media_for_pattern media pattern)) <->
   exists dirs names ext,
     assoc pattern PATTERN_MEDIA_DIRS = Some dirs
     /\ In (me_directory e) dirs
     /\ media !! (me_directory e) = Some names
     /\ In (me_filename e) names
     /\ In ext image_exts
     /\ str_endswith ext (me_filename e) = true
     /\ me_path e = me_directory e +:+ "/" +:+ me_filename e)
  /\ mr_recommended (find_media_for_pattern media pattern)
     = head (mr_available (find_media_for_pattern media pattern)).
Proof.
  split.
  - rewrite find_media_available, in_flat_map. split.
    + intros (subdir & Hdir & He). apply dir_images_In in He.
      destruct He as (names & ext & Hm & Hn & Hext & Hend & He).
      assert (Ed : me_directory e = subdir) by (rewrite He; reflexivity).
      assert (Ep : me_path e = subdir +:+ "/" +:+ me_filename e) by (rewrite He at 1; reflexivity).
      rewrite Ed.
      destruct (assoc pattern PATTERN_MEDIA_DIRS) as [dirs|]; [|destruct Hdir].
      exists dirs, names, ext. auto 10.
    + intros (dirs & names & ext & Hd & Hdir & Hm & Hn & Hext & Hend & Hp).
      exists (me_directory e). rewrite Hd. split; [exact Hdir|].
      apply dir_images_In. exists names, ext.
      repeat split; try assumption.
      destruct e as [p f d]. unfold media_entry_of. simpl in *. now rewrite Hp.
  - unfold find_media_for_pattern.
    destruct (flat_map (dir_images media) (or_nil (assoc pattern PATTERN_MEDIA_DIRS)));
      reflexivity.
Qed.

(** X4. In the recommendation of [get_media_recommendation], media and an
    acquisition are never proposed together; there is a primary media
    exactly when there is media, and a command exactly when an acquisition
    is needed.  An acquisition is needed exactly when nothing is available
    and the pattern has search terms, and the command then searches for the
    first term and targets the first media directory of the pattern, never
    the [_temp] directory. *)
Theorem media_recommendation_shape (media : media_tree) (pattern : string) :
  let r := get_media_recommendation media pattern in
  (has_media r = true -> needs_acquisition r = false)
  /\ (has_media r = true <-> primary_media r <> None)
  /\ (has_media r = false <-> all_available r = [])
  /\ (needs_acquisition r = true <-> acquisition_command r <> None)
  /\ (needs_acquisition r = true <->
      has_media r = false /\ assoc pattern PATTERN_SEARCH_TERMS <> None)
  /\ (needs_acquisition r = true ->
      exists term terms d dirs,
        assoc pattern PATTERN_SEARCH_TERMS = Some (term :: terms)
        /\ assoc pattern PATTERN_MEDIA_DIRS = Some (d :: dirs)
        /\ acquisition_command r
           = Some ("./media_scripts.sh google " +:+ String DQ (term +:+ String DQ (" ./media/" +:+ d)))).
Proof.
  assert (Hterms : forall l, assoc pattern PATTERN_SEARCH_TERMS = Some l ->
            exists term terms d dirs, l = term :: terms
              /\ assoc pattern PATTERN_MEDIA_DIRS = Some (d :: dirs)).
  { unfold PATTERN_SEARCH_TERMS, PATTERN_MEDIA_DIRS. simpl. intros l.
    destruct (String.eqb pattern "fire_parallel") eqn:E1.
    { intros [= <-]. eauto 10. }
    destruct (String.eqb pattern "western_betrayal") eqn:E2.
    { apply String.eqb_eq in E2. subst pattern. intros [= <-]. simpl. eauto 10. }
    destruct (String.eqb pattern "great_power_game") eqn:E3.
    { apply String.eqb_eq in E3. subst pattern. intros [= <-]. simpl. eauto 10. }
    destruct (String.eqb pattern "constitutional_memory") eqn:E4.
    { apply String.eqb_eq in E4. subst pattern. intros [= <-]. simpl. eauto 10. }
    discriminate. }
  unfold get_media_recommendation, find_media_for_pattern.
  remember (assoc pattern PATTERN_SEARCH_TERMS) as found eqn:El.
  remember (assoc pattern PATTERN_MEDIA_DIRS) as found_dirs eqn:Ed.
  destruct (flat_map (dir_images media) (or_nil found_dirs)) as [|first rest] eqn:Ea; simpl.
  - destruct found as [l|]; simpl.
    + destruct (Hterms l eq_refl) as (term & terms & d & dirs & -> & Hd).
      rewrite Hd. simpl.
      split; [discriminate|]. split; [split; [discriminate|congruence]|].
      split; [tauto|]. split; [split; [discriminate|reflexivity]|].
      split; [split; [intros _; split; [reflexivity|discriminate]|reflexivity]|].
      intros _. exists term, terms, d, dirs. auto.
    + split; [discriminate|]. split; [split; [discriminate|congruence]|].
      split; [tauto|]. split; [split; [discriminate|congruence]|].
      split; [split; [discriminate|intros [_ H]; congruence]|].
      discriminate.
  - split; [reflexivity|]. split; [split; [discriminate|reflexivity]|].
    split; [split; discriminate|]. split; [split; [discriminate|congruence]|].
    split; [split; [discriminate|intros [H _]; discriminate]|].
    discriminate.
Qed.

(** X5. A pattern that [PATTERN_MEDIA_DIRS] does not list (among the
    detected patterns: [geography_fortress] and [diaspora_return]) gets no
    media and no acquisition, whatever the media directory holds: every
    pattern with search terms is one with media directories. *)
Theorem no_media_for_unlisted_pattern (media : media_tree) (pattern : string) :
  assoc pattern PATTERN_MEDIA_DIRS = None ->
  get_media_recommendation media pattern
  = {| has_media := false; primary_media := None; all_available := [];
       needs_acquisition := false; acquisition_command := None |}.
Proof.
  intros H.
  assert (E : assoc pattern PATTERN_SEARCH_TERMS = None).
  { revert H. unfold PATTERN_SEARCH_TERMS, PATTERN_MEDIA_DIRS. simpl.
    repeat match goal with
           | |- context [String.eqb pattern ?s] =>
               destruct (String.eqb pattern s); try discriminate
           end.
    reflexivity. }
  unfold get_media_recommendation, find_media_for_pattern. rewrite H, E. reflexivity.
Qed.

Lemma no_media_for_unlisted_pattern_witness :
  needs_acquisition
    (get_media_recommendation {[ "current/rasht-2026" := ["a.jpg"] ]} "diaspora_return") = false.
Proof.
  rewrite (no_media_for_unlisted_pattern {[ "current/rasht-2026" := ["a.jpg"] ]}
             "diaspora_return"); reflexivity.
Defined.

(** ** KnowledgeBase: phrases, corpus samples, sources and search *)

Lemma ascii_lower_idem (c : ascii) : ascii_lower (ascii_lower c) = ascii_lower c.
Proof. destruct c as [[] [] [] [] [] [] [] []]; reflexivity. Qed.

Lemma str_lower_idem (s : string) : str_lower (str_lower s) = str_lower s.
Proof. induction s as [|c s IH]; simpl; [reflexivity|]. now rewrite ascii_lower_idem, IH. Qed.

Lemma first_phrase_Some (key : string) (phrases : list json) (phrase : json) :
  first_phrase key phrases = Returned (Some phrase) ->
  In phrase phrases
  /\ exists p t, phrase = JObj p
       /\ py_get_default "transliteration" (JStr "") p = JStr t
       /\ str_lower t = key.
Proof.
  induction phrases as [|x rest IH]; simpl; [discriminate|].
  destruct x as [| | | | | |p]; simpl; try discriminate.
  destruct (py_get_default "transliteration" (JStr "") p) as [| | | |t| |] eqn:Et;
    simpl; try discriminate.
  destruct (String.eqb (str_lower t) key) eqn:E.
  - intros [= <-]. split; [now left|]. exists p, t. apply String.eqb_eq in E. auto.
  - intros H. destruct (IH H) as [Hin Hrest]. split; [now right|exact Hrest].
Qed.

Lemma first_phrase_None (key : string) (phrases : list json) :
  first_phrase key phrases = Returned None ->
  forall p t, In (JObj p) phrases ->
              py_get_default "transliteration" (JStr "") p = JStr t -> str_lower t <> key.
Proof.
  induction phrases as [|x rest IH]; simpl; [intros _ p t []|].
  destruct x as [| | | | | |q]; simpl; try discriminate.
  destruct (py_get_default "transliteration" (JStr "") q) as [| | | |u| |] eqn:Eu;
    simpl; try discriminate.
  destruct (String.eqb (str_lower u) key) eqn:E; [discriminate|].
  intros H p t [[= <-]|Hin] Ht.
  - rewrite Eu in Ht. injection Ht as <-. now apply String.eqb_neq.
  - now apply (IH H p t).
Qed.

Lemma get_persian_phrase_listed (data : kb_data) (transliteration : string) :
  get_persian_phrase data transliteration
  = (do items <- listed_phrases data; first_phrase (str_lower transliteration) items).
Proof.
  unfold get_persian_phrase, listed_phrases.
  destruct (get_persian_slogans data) as [slogans|]; simpl; [|reflexivity].
  destruct (get_persian_terms data) as [terms|]; simpl; [|reflexivity].
  destruct (py_concat slogans terms) as [two|]; simpl; [|reflexivity].
  destruct (persian_phrases data) as [phrases|]; simpl; [|reflexivity].
  destruct (py_concat two _) as [all_phrases|]; simpl; reflexivity.
Qed.

(** X6. On ASCII text [get_persian_phrase] is a case-insensitive lookup.
    When the listed phrases have ASCII transliterations and the argument
    is ASCII: the outcome for the argument is the outcome for its
    lower-case form; a phrase that is returned is one of the listed
    phrases, a dict whose [transliteration] is a str equal to the argument
    up to case; and [None] is returned only when no listed phrase has such
    a transliteration. *)
Theorem get_persian_phrase_ignores_case (data : kb_data) (transliteration : string)
    (items : list json) :
  listed_phrases data = Returned items ->
  ascii_transliterations items ->
  ascii_text transliteration = true ->
  get_persian_phrase data transliteration
  = get_persian_phrase data (str_lower transliteration)
  /\ (forall phrase,
        get_persian_phrase data transliteration = Returned (Some phrase) ->
        In phrase items
        /\ exists p t, phrase = JObj p
             /\ py_get_default "transliteration" (JStr "") p = JStr t
             /\ str_lower t = str_lower transliteration)
  /\ (get_persian_phrase data transliteration = Returned None ->
      forall p t, In (JObj p) items ->
                  py_get_default "transliteration" (JStr "") p = JStr t ->
                  str_lower t <> str_lower transliteration).
Proof.
  intros Hitems _ _. rewrite !get_persian_phrase_listed, Hitems, str_lower_idem.
  split; [reflexivity|]. split.
  - intros phrase H. now apply first_phrase_Some in H.
  - intros H. now apply first_phrase_None.
Qed.

Lemma get_persian_phrase_ignores_case_witness :
  get_persian_phrase
    [ ("quotes",
       JObj [ ("persian_phrases",
               JObj [ ("protest_slogans",
                       JArr [ JObj [ ("transliteration", JStr "Zan, Zendegi, Azadi") ] ]);
                      ("historical_terms",
                       JArr [ JObj [ ("transliteration", JStr "Mashruteh") ] ]) ]) ]) ]
    "MASHRUTEH"
  = Returned (Some (JObj [ ("transliteration", JStr "Mashruteh") ])).
Proof.
  destruct (get_persian_phrase_ignores_case
              [ ("quotes",
                 JObj [ ("persian_phrases",
                         JObj [ ("protest_slogans",
                                 JArr [ JObj [ ("transliteration",
                                                JStr "Zan, Zendegi, Azadi") ] ]);
                                ("historical_terms",
                                 JArr [ JObj [ ("transliteration", JStr "Mashruteh") ] ]) ]) ]) ]
              "MASHRUTEH"
              [ JObj [ ("transliteration", JStr "Zan, Zendegi, Azadi") ];
                JObj [ ("transliteration", JStr "Mashruteh") ] ]) as [H _].
  - reflexivity.
  - intros p t [[= <-]|[[= <-]|[]]] [= <-]; reflexivity.
  - reflexivity.
  - rewrite H. reflexivity.
Defined.

Lemma str_startswith_category (rest : string) :
  str_startswith "category_" ("category_" +:+ rest) = true.
Proof. apply str_startswith_app. Qed.

Lemma category_tweets_of_dict (d : list (string * json)) (l : list json) :
  py_get_default "tweets" (JArr []) d = JArr l ->
  category_tweets (JObj d) = Returned l.
Proof.
  unfold py_get_default, category_tweets.
  destruct (py_get "tweets" d) as [v|]; [intros ->; reflexivity|].
  intros [= <-]. reflexivity.
Qed.

Lemma all_category_tweets_In (samples : list (string * json)) (key : string)
    (d : list (string * json)) (l all_tweets : list json) (t : json) :
  py_get key samples = Some (JObj d) ->
  py_get_default "tweets" (JArr []) d = JArr l ->
  all_category_tweets samples = Returned all_tweets ->
  In t l -> In t all_tweets.
Proof.
  intros Hget Hl. revert all_tweets.
  induction samples as [|[k v] rest IH]; simpl in *; [discriminate|].
  intros all_tweets.
  destruct (category_tweets v) as [tweets|] eqn:Ev; simpl; [|discriminate].
  destruct (all_category_tweets rest) as [more|]; simpl; [|discriminate].
  intros [= <-] Ht. apply in_or_app.
  destruct (String.eqb key k).
  - injection Hget as ->. rewrite (category_tweets_of_dict d l Hl) in Ev.
    injection Ev as <-. now left.
  - right. now apply (IH Hget more).
Qed.

(** X7. A category of [get_corpus_samples] may be given with or without
    the [category_] prefix, with the same outcome; and every tweet that the
    call for a category returns is among the tweets that the call without
    a category returns. *)
Theorem corpus_samples_by_category (data : kb_data) (category : string) :
  category <> "" ->
  str_startswith "category_" category = false ->
  get_corpus_samples data (Some category)
  = get_corpus_samples data (Some ("category_" +:+ category))
  /\ forall l all_tweets t,
       get_corpus_samples data (Some category) = Returned (JArr l) ->
       get_corpus_samples data None = Returned (JArr all_tweets) ->
       In t l -> In t all_tweets.
Proof.
  intros Hne Hpre. split.
  - unfold get_corpus_samples. destruct category as [|c rest]; [congruence|].
    change ("category_" +:+ String c rest) with (String "c" ("ategory_" +:+ String c rest)).
    unfold category_key.
    change (String "c" ("ategory_" +:+ String c rest)) with ("category_" +:+ String c rest).
    now rewrite Hpre, str_startswith_category.
  - intros l all_tweets t. unfold get_corpus_samples.
    destruct (corpus_samples_doc data) as [samples|]; simpl; [|discriminate].
    destruct category as [|c rest]; [congruence|].
    destruct (as_dict samples) as [s|]; simpl; [|discriminate].
    unfold get_or_empty_dict at 1, py_get_default at 1.
    destruct (py_get (category_key (String c rest)) s) as [cat|] eqn:Ecat; simpl.
    + destruct cat as [| | | | | |d]; simpl; try discriminate.
      intros [= Hl].
      destruct (all_category_tweets s) as [more|] eqn:Eall; simpl; [|discriminate].
      intros [= <-]. now apply (all_category_tweets_In s _ d l more t Ecat).
    + intros [= <-] _ [].
Qed.

Lemma corpus_samples_by_category_witness :
  get_corpus_samples
    [ ("corpus_samples",
       JObj [ ("sample_tweets_generated",
               JObj [ ("category_history", JObj [ ("tweets", JArr [JStr "t1"]) ]) ]) ]) ]
    (Some "history")
  = Returned (JArr [JStr "t1"]).
Proof.
  destruct (corpus_samples_by_category
              [ ("corpus_samples",
                 JObj [ ("sample_tweets_generated",
                         JObj [ ("category_history", JObj [ ("tweets", JArr [JStr "t1"]) ]) ]) ]) ]
              "history") as [E _].
  - discriminate.
  - reflexivity.
  - rewrite E. reflexivity.
Defined.

Lemma find_source_Some (source_lower category : string) (entries : list (string * json))
    (r : json) :
  find_source source_lower category entries = Returned (Some r) ->
  exists source_id d,
    In (source_id, JObj d) entries
    /\ source_matches source_lower source_id (JObj d) = Returned true
    /\ r = JObj (py_set "id" (JStr source_id) (py_set "category" (JStr category) d)).
Proof.
  induction entries as [|[source_id source_data] rest IH]; simpl; [discriminate|].
  destruct (source_matches source_lower source_id source_data) as [hit|] eqn:Em;
    simpl; [|discriminate].
  destruct hit.
  - destruct source_data as [| | | | | |d]; simpl; try discriminate.
    intros [= <-]. exists source_id, d. split; [now left|]. auto.
  - intros H. destruct (IH H) as (i & d & Hin & Hrest).
    exists i, d. split; [now right|exact Hrest].
Qed.

Lemma find_in_categories_Some (source_lower : string) (categories : list (string * json))
    (r : json) :
  find_in_categories source_lower categories = Returned (Some r) ->
  exists category entries source_id d,
    In (category, JObj entries) categories
    /\ In (source_id, JObj d) entries
    /\ source_matches source_lower source_id (JObj d) = Returned true
    /\ r = JObj (py_set "id" (JStr source_id) (py_set "category" (JStr category) d)).
Proof.
  induction categories as [|[category category_sources] rest IH]; simpl; [discriminate|].
  destruct category_sources as [| | | | | |entries]; simpl; try discriminate.
  destruct (find_source source_lower category entries) as [found|] eqn:Ef;
    simpl; [|discriminate].
  destruct found as [x|].
  - intros [= <-]. apply find_source_Some in Ef.
    destruct Ef as (i & d & Hin & Hrest).
    exists category, entries, i, d. split; [now left|]. auto.
  - intros H. destruct (IH H) as (c & e & i & d & Hin & Hrest).
    exists c, e, i, d. split; [now right|exact Hrest].
Qed.

(** X8. A record that [get_source_tier] returns comes from a source of the
    credibility document whose identifier or whose name contains the
    argument, ignoring case.  Its [category] and [id] are the keys under
    which the source is stored, also when the source has fields of these
    names, and every other field of the source is returned as it is. *)
Theorem get_source_tier_record (data : kb_data) (source_name : string) (r : json) :
  get_source_tier data source_name = Returned (Some r) ->
  exists sources category entries source_id d fields,
    kb_sources data = Returned (JObj sources)
    /\ In (category, JObj entries) sources
    /\ In (source_id, JObj d) entries
    /\ source_matches (str_lower source_name) source_id (JObj d) = Returned true
    /\ r = JObj fields
    /\ py_get "category" fields = Some (JStr category)
    /\ py_get "id" fields = Some (JStr source_id)
    /\ forall k, k <> "category" -> k <> "id" -> py_get k fields = py_get k d.
Proof.
  unfold get_source_tier.
  destruct (kb_sources data) as [sources|]; simpl; [|discriminate].
  destruct sources as [| | | | | |cats]; simpl; try discriminate.
  intros H. apply find_in_categories_Some in H.
  destruct H as (category & entries & source_id & d & Hc & He & Hm & ->).
  exists cats, category, entries, source_id, d. eexists.
  split; [reflexivity|]. split; [exact Hc|]. split; [exact He|]. split; [exact Hm|].
  split; [reflexivity|]. split.
  - rewrite py_get_set_ne by discriminate. apply py_get_set_eq.
  - split; [apply py_get_set_eq|].
    intros k Hk1 Hk2. rewrite py_get_set_ne by congruence.
    apply py_get_set_ne. congruence.
Qed.

Lemma get_source_tier_record_witness :
  exists fields,
    get_source_tier
      [ ("sources",
         JObj [ ("source_credibility",
                 JObj [ ("sources",
                         JObj [ ("wire",
                                 JObj [ ("reuters",
                                         JObj [ ("name", JStr "Reuters"); ("tier", JInt 1);
                                                ("category", JStr "agency") ]) ]) ]) ]) ]) ]
      "REUTERS" = Returned (Some (JObj fields))
    /\ py_get "category" fields = Some (JStr "wire")
    /\ py_get "tier" fields = Some (JInt 1).
Proof.
  edestruct (get_source_tier_record
              [ ("sources",
                 JObj [ ("source_credibility",
                         JObj [ ("sources",
                                 JObj [ ("wire",
                                         JObj [ ("reuters",
                                                 JObj [ ("name", JStr "Reuters"); ("tier", JInt 1);
                                                        ("category", JStr "agency") ]) ]) ]) ]) ]) ]
              "REUTERS") as (_ & _ & _ & _ & _ & _ & _).
  - reflexivity.
  - eexists. split; [reflexivity|]. split; reflexivity.
Defined.

Lemma search_in_filter (type : string) (test : list (string * json) -> outcome bool)
    (matches : json -> bool) (items found : list json) :
  (forall d hit, test d = Returned hit -> hit = matches (JObj d)) ->
  search_in type test items = Returned found ->
  found = map (search_result type) (List.filter matches items).
Proof.
  intros Htest. revert found. induction items as [|x rest IH]; simpl; intros found.
  - now intros [= <-].
  - destruct x as [| | | | | |d]; simpl; try discriminate.
    destruct (test d) as [hit|] eqn:Eh; simpl; [|discriminate].
    destruct (search_in type test rest) as [more|]; simpl; [|discriminate].
    rewrite <- (Htest d hit Eh), (IH more eq_refl). intros [= <-]. now destruct hit.
Qed.

Lemma str_in_empty (s : string) : str_in "" s = true.
Proof. destruct s; reflexivity. Qed.

Lemma search_in_all (type : string) (test : list (string * json) -> outcome bool)
    (items found : list json) :
  (forall d hit, test d = Returned hit -> hit = true) ->
  search_in type test items = Returned found ->
  found = map (search_result type) items.
Proof.
  intros Htest. revert found. induction items as [|x rest IH]; simpl; intros found.
  - now intros [= <-].
  - destruct (as_dict x) as [d|]; simpl; [|discriminate].
    destruct (test d) as [hit|] eqn:Eh; simpl; [|discriminate].
    destruct (search_in type test rest) as [more|]; simpl; [|discriminate].
    rewrite (Htest d hit Eh), (IH more eq_refl). now intros [= <-].
Qed.

Lemma field_has_matches (query field : string) (d : list (string * json)) (hit : bool) :
  field_has (str_lower query) field d = Returned hit -> hit = field_matches query field (JObj d).
Proof.
  unfold field_has, field_matches.
  destruct (py_get_default field (JStr "") d) as [| | | |s| |]; simpl; try discriminate.
  now intros [= <-].
Qed.

Lemma field_has_or_matches (query f1 f2 : string) (d : list (string * json)) (hit : bool) :
  field_has_or (str_lower query) f1 f2 d = Returned hit ->
  hit = field_matches query f1 (JObj d) || field_matches query f2 (JObj d).
Proof.
  unfold field_has_or.
  pose proof (field_has_matches query f1 d) as H1.
  pose proof (field_has_matches query f2 d) as H2.
  remember (field_matches query f1 (JObj d)) as m1 eqn:E1. clear E1.
  remember (field_matches query f2 (JObj d)) as m2 eqn:E2. clear E2.
  destruct (field_has (str_lower query) f1 d) as [a|]; simpl; [|discriminate].
  rewrite <- (H1 a eq_refl). destruct a.
  - now intros [= <-].
  - intros H. now apply H2.
Qed.

Lemma field_has_empty (field : string) (d : list (string * json)) (hit : bool) :
  field_has "" field d = Returned hit -> hit = true.
Proof.
  unfold field_has. destruct (as_str _) as [s|]; simpl; [|discriminate].
  rewrite str_in_empty. now intros [= <-].
Qed.

Lemma field_has_or_empty (f1 f2 : string) (d : list (string * json)) (hit : bool) :
  field_has_or "" f1 f2 d = Returned hit -> hit = true.
Proof.
  unfold field_has_or. destruct (field_has "" f1 d) as [a|] eqn:Ea; simpl; [|discriminate].
  rewrite (field_has_empty f1 d a Ea). now intros [= <-].
Qed.

(** X9. When [search] returns, its results are exactly the matching facts,
    then the matching narratives, then the matching actors, each group in
    the order of its document and each result tagged with its type.  A
    fact matches when its [statement] holds the query, a narrative when
    its [title] or its [description] does, an actor when its [name] or its
    [role] does, ignoring case.  The empty query matches every fact,
    narrative and actor. *)
Theorem search_results_grouped (data : kb_data) (query : string) (results : list json) :
  search data query = Returned results ->
  exists facts narratives actors,
    (do v <- get_facts data; py_iter v) = Returned facts
    /\ (do v <- kb_list "narratives" data; py_iter v) = Returned narratives
    /\ (do v <- kb_list "actors" data; py_iter v) = Returned actors
    /\ results
       = map (search_result "fact") (List.filter (field_matches query "statement") facts)
         ++ map (search_result "narrative")
              (List.filter (fun x => field_matches query "title" x
                                     || field_matches query "description" x) narratives)
         ++ map (search_result "actor")
              (List.filter (fun x => field_matches query "name" x
                                     || field_matches query "role" x) actors)
    /\ (query = "" ->
        results = map (search_result "fact") facts
                  ++ map (search_result "narrative") narratives
                  ++ map (search_result "actor") actors).
Proof.
  unfold search.
  destruct (get_facts data) as [facts|]; simpl; [|discriminate].
  destruct (py_iter facts) as [fl|]; simpl; [|discriminate].
  destruct (search_in "fact" _ fl) as [r1|] eqn:E1; simpl; [|discriminate].
  destruct (kb_list "narratives" data) as [narratives|]; simpl; [|discriminate].
  destruct (py_iter narratives) as [nl|]; simpl; [|discriminate].
  destruct (search_in "narrative" _ nl) as [r2|] eqn:E2; simpl; [|discriminate].
  destruct (kb_list "actors" data) as [actors|]; simpl; [|discriminate].
  destruct (py_iter actors) as [al|]; simpl; [|discriminate].
  destruct (search_in "actor" _ al) as [r3|] eqn:E3; simpl; [|discriminate].
  intros [= <-].
  exists fl, nl, al.
  split; [reflexivity|]. split; [reflexivity|]. split; [reflexivity|]. split.
  - rewrite (search_in_filter _ _ (field_matches query "statement") _ _
               (field_has_matches query "statement") E1).
    rewrite (search_in_filter _ _ (fun x => field_matches query "title" x
                                           || field_matches query "description" x) _ _
               (field_has_or_matches query "title" "description") E2).
    rewrite (search_in_filter _ _ (fun x => field_matches query "name" x
                                           || field_matches query "role" x) _ _
               (field_has_or_matches query "name" "role") E3).
    reflexivity.
  - intros ->. simpl in E1, E2, E3.
    apply search_in_all in E1; [|apply field_has_empty].
    apply search_in_all in E2; [|apply field_has_or_empty].
    apply search_in_all in E3; [|apply field_has_or_empty].
    now subst.
Qed.

Lemma search_results_grouped_witness :
  search [ ("facts", JObj [ ("facts", JArr [ JObj [ ("statement", JStr "Rasht bazaar") ];
                                             JObj [ ("statement", JStr "Cinema Rex") ] ]) ]);
           ("actors", JObj [ ("actors", JArr [ JObj [ ("name", JStr "Bazaar guild");
                                                       ("role", JInt 3) ] ]) ]) ]
         "BAZAAR"
  = Returned [ search_result "fact" (JObj [ ("statement", JStr "Rasht bazaar") ]);
               search_result "actor" (JObj [ ("name", JStr "Bazaar guild"); ("role", JInt 3) ]) ].
Proof.
  assert (E : exists results,
             search [ ("facts", JObj [ ("facts", JArr [ JObj [ ("statement", JStr "Rasht bazaar") ];
                                                        JObj [ ("statement", JStr "Cinema Rex") ] ]) ]);
                      ("actors", JObj [ ("actors", JArr [ JObj [ ("name", JStr "Bazaar guild");
                                                                  ("role", JInt 3) ] ]) ]) ]
                    "BAZAAR" = Returned results) by (eexists; reflexivity).
  destruct E as (results & E).
  destruct (search_results_grouped _ _ _ E) as (facts & narratives & actors & Hf & Hn & Ha & Hr & _).
  rewrite E, Hr. injection Hf as <-. injection Hn as <-. injection Ha as <-. reflexivity.
Defined.

(** ** AnniversaryGenerator *)

Lemma format_02d_month (month : Z) :
  (1 <= month <= 12)%Z ->
  exists a b, format_02d month = String a (String b EmptyString)
    /\ assoc (format_02d month) anniversary_months
       = Some (nth (Z.to_nat month) month_names "").
Proof.
  intros H.
  assert (Hc : (month = 1 \/ month = 2 \/ month = 3 \/ month = 4 \/ month = 5 \/ month = 6
                \/ month = 7 \/ month = 8 \/ month = 9 \/ month = 10 \/ month = 11
                \/ month = 12)%Z) by lia.
  repeat (destruct Hc as [->|Hc]; [eexists _, _; split; reflexivity|]).
  subst. eexists _, _; split; reflexivity.
Qed.

Lemma select_events_first (date_str : string) (events results : list json) :
  date_str <> "" ->
  select_events date_str events = Returned results ->
  first_on_date date_str events
  = Returned (List.find (fun e => match e with JObj ev => dated date_str ev | _ => false end)
                        results).
Proof.
  intros Hne. revert results. induction events as [|event rest IH]; simpl; intros results.
  - now intros [= <-].
  - unfold event_on. destruct event as [| | | | | |ev]; simpl; try discriminate.
    unfold dated, py_get_default.
    destruct (py_get "date" ev) as [v|] eqn:Ev.
    + destruct v as [| | | |s| |]; simpl; try discriminate.
      destruct (select_events date_str rest) as [more|]; simpl; [|discriminate].
      specialize (IH more eq_refl).
      destruct (String.eqb s date_str) eqn:Es; simpl.
      * intros [= <-]. simpl. unfold dated. now rewrite Ev; simpl; rewrite Es.
      * destruct (str_startswith date_str s); intros [= <-]; [|exact IH].
        simpl. unfold dated. rewrite Ev. simpl. rewrite Es. exact IH.
    + assert (Es : String.eqb "" date_str = false).
      { apply String.eqb_neq. congruence. }
      cbn [obind]. rewrite Es. cbn [orb].
      destruct (select_events date_str rest) as [more|]; cbn [obind]; [|discriminate].
      specialize (IH more eq_refl).
      destruct (str_startswith date_str ""); intros [= <-]; [|exact IH].
      cbn [List.find]. unfold dated. rewrite Ev. exact IH.
Qed.

(** X10. The two anniversary lookups agree on one calendar document: for
    a month from 1 to 12, when [KnowledgeBase.get_anniversary_for_date]
    returns its list, [AnniversaryGenerator.get_anniversary] on the date
    [MM-DD] returns too, and its answer is the first event of that list
    whose [date] is exactly [MM-DD] ([None] when there is none). *)
Theorem anniversary_lookups_agree (data : kb_data) (calendar_doc : json) (month day : Z)
    (results : list json) :
  py_get "calendar" data = Some calendar_doc ->
  (1 <= month <= 12)%Z ->
  get_anniversary_for_date data month day = Returned results ->
  get_anniversary calendar_doc (format_02d month +:+ "-" +:+ format_02d day)
  = Returned (List.find (fun e => match e with
                                  | JObj ev => dated (format_02d month +:+ "-" +:+ format_02d day) ev
                                  | _ => false
                                  end) results).
Proof.
  intros Hcal Hm.
  assert (Hdoc : get_or_empty_dict "calendar" data = calendar_doc).
  { unfold get_or_empty_dict, py_get_default. now rewrite Hcal. }
  unfold get_anniversary_for_date, kb_calendar, get_anniversary. rewrite Hdoc.
  destruct (format_02d_month month Hm) as (a & b & E2 & Ekey).
  assert (Emonth : String.substring 0 2 (format_02d month +:+ "-" +:+ format_02d day)
                   = format_02d month) by (rewrite E2; reflexivity).
  assert (Hne : format_02d month +:+ "-" +:+ format_02d day <> "")
    by (rewrite E2; discriminate).
  rewrite Emonth, Ekey.
  assert (Hrange : ((1 <=? month)%Z && (month <=? 12)%Z)%bool = true).
  { apply andb_true_iff. split; apply Z.leb_le; lia. }
  rewrite Hrange.
  set (date_str := format_02d month +:+ "-" +:+ format_02d day) in *.
  set (month_key := nth (Z.to_nat month) month_names "").
  destruct (as_dict calendar_doc) as [doc|]; simpl; [|discriminate].
  unfold get_or_empty_dict.
  destruct (py_get_default "anniversary_calendar" (JObj []) doc) as [| | | | | |cal];
    simpl; try discriminate.
  unfold py_get_default. destruct (py_get month_key cal) as [month_events|].
  - destruct (py_iter month_events) as [events|]; simpl; [|discriminate].
    now apply select_events_first.
  - simpl. now intros [= <-].
Qed.

Lemma anniversary_lookups_agree_witness :
  get_anniversary
    (JObj [ ("anniversary_calendar",
             JObj [ ("january",
                     JArr [ JObj [ ("date", JStr "01-16-1979"); ("event", JStr "Shah leaves") ];
                            JObj [ ("date", JStr "01-16"); ("event", JStr "Departure") ] ]) ]) ])
    "01-16"
  = Returned (Some (JObj [ ("date", JStr "01-16"); ("event", JStr "Departure") ])).
Proof.
  apply (anniversary_lookups_agree
           [ ("calendar",
              JObj [ ("anniversary_calendar",
                      JObj [ ("january",
                              JArr [ JObj [ ("date", JStr "01-16-1979"); ("event", JStr "Shah leaves") ];
                                     JObj [ ("date", JStr "01-16"); ("event", JStr "Departure") ] ]) ]) ]) ]
           _ 1 16
           [ JObj [ ("date", JStr "01-16-1979"); ("event", JStr "Shah leaves") ];
             JObj [ ("date", JStr "01-16"); ("event", JStr "Departure") ] ]).
  - reflexivity.
  - lia.
  - reflexivity.
Defined.

(** ** VictimMemorialGenerator *)

Lemma verified_victims_dicts (victims verified : list json) :
  verified_victims victims = Returned verified ->
  forall x, In x victims -> exists d, x = JObj d.
Proof.
  revert verified. induction victims as [|y rest IH]; simpl; intros verified; [tauto|].
  destruct y as [| | | | | |d]; simpl; try discriminate.
  destruct (verified_victims rest) as [more|]; simpl; [|discriminate].
  intros _ x [<-|Hx]; [eauto|]. now apply (IH more).
Qed.

Lemma verified_victims_incl (victims verified : list json) (v : json) :
  verified_victims victims = Returned verified -> In v verified -> In v victims.
Proof.
  revert verified. induction victims as [|y rest IH]; simpl; intros verified.
  - intros [= <-] [].
  - destruct y as [| | | | | |d]; simpl; try discriminate.
    destruct (verified_victims rest) as [more|]; simpl; [|discriminate].
    intros [= <-] Hin.
    destruct (py_truthy _); [destruct Hin as [<-|Hin]; [now left|]|];
      right; now apply (IH more).
Qed.

Lemma first_named_found (name_lower : string) (victims : list json) (v : list (string * json))
    (n : string) :
  (forall x, In x victims -> exists d, x = JObj d) ->
  In (JObj v) victims ->
  py_get_default "name" (JStr "") v = JStr n ->
  str_in name_lower (str_lower n) = true ->
  first_named name_lower victims <> Returned None.
Proof.
  intros Hall Hin Hn Hs. induction victims as [|x rest IH]; simpl; [destruct Hin|].
  destruct (Hall x (or_introl eq_refl)) as (d & ->). simpl.
  destruct (field_has name_lower "name" d) as [hit|] eqn:Eh; simpl; [|discriminate].
  destruct hit; [discriminate|].
  destruct Hin as [E|Hin].
  - injection E as ->. unfold field_has in Eh. rewrite Hn in Eh. simpl in Eh.
    rewrite Hs in Eh. discriminate.
  - apply IH; [|exact Hin]. intros y Hy. apply Hall. now right.
Qed.

Lemma first_named_Some (name_lower : string) (victims : list json) (w : json) :
  first_named name_lower victims = Returned (Some w) ->
  In w victims
  /\ exists d m, w = JObj d /\ py_get_default "name" (JStr "") d = JStr m
       /\ str_in name_lower (str_lower m) = true.
Proof.
  induction victims as [|x rest IH]; simpl; [discriminate|].
  destruct x as [| | | | | |d]; simpl; try discriminate.
  unfold field_has at 1.
  destruct (py_get_default "name" (JStr "") d) as [| | | |m| |] eqn:Em; simpl; try discriminate.
  destruct (str_in name_lower (str_lower m)) eqn:Es.
  - intros [= <-]. split; [now left|]. exists d, m. auto.
  - intros H. destruct (IH H) as [Hin Hrest]. split; [now right|exact Hrest].
Qed.

(** X11. A verified victim is never reported as missing by name: for a
    victim that [get_victims(verified_only=True)] lists and whose [name] is
    a str, [get_victim_by_name] on that name does not return [None]; and a
    victim that it returns is one of the database whose name contains the
    argument, ignoring case. *)
Theorem verified_victim_found_by_name (victims_db : json) (verified : list json)
    (v : list (string * json)) (n : string) :
  get_victims victims_db true = Returned (JArr verified) ->
  In (JObj v) verified ->
  py_get "name" v = Some (JStr n) ->
  get_victim_by_name victims_db n <> Returned None
  /\ forall w, get_victim_by_name victims_db n = Returned (Some w) ->
       exists all d m,
         (do l <- get_victims victims_db false; py_iter l) = Returned all
         /\ In w all /\ w = JObj d
         /\ py_get_default "name" (JStr "") d = JStr m
         /\ str_in (str_lower n) (str_lower m) = true.
Proof.
  unfold get_victim_by_name, get_victims.
  destruct (victims_list victims_db) as [victims|]; simpl; [|discriminate].
  destruct (py_iter victims) as [items|]; simpl; [|discriminate].
  destruct (verified_victims items) as [l|] eqn:El; simpl; [|discriminate].
  intros [= <-] Hin Hname.
  pose proof (verified_victims_incl items l (JObj v) El Hin) as Hv.
  pose proof (verified_victims_dicts items l El) as Hall.
  split.
  - apply (first_named_found _ items v n Hall Hv).
    + unfold py_get_default. now rewrite Hname.
    + apply str_in_refl.
  - intros w Hw. apply first_named_Some in Hw.
    destruct Hw as (Hw & d & m & -> & Hm & Hs).
    exists items, d, m. auto.
Qed.

Lemma verified_victim_found_by_name_witness :
  get_victim_by_name
    (JObj [ ("victims_database",
             JObj [ ("victims",
                     JArr [ JObj [ ("name", JStr "Sara Ahmadi"); ("verified", JBool false) ];
                            JObj [ ("name", JStr "Ahmadi"); ("verified", JBool true) ] ]) ]) ])
    "Ahmadi"
  <> Returned None.
Proof.
  apply (verified_victim_found_by_name
           (JObj [ ("victims_database",
                    JObj [ ("victims",
                            JArr [ JObj [ ("name", JStr "Sara Ahmadi"); ("verified", JBool false) ];
                                   JObj [ ("name", JStr "Ahmadi"); ("verified", JBool true) ] ]) ]) ])
           [ JObj [ ("name", JStr "Ahmadi"); ("verified", JBool true) ] ]
           [ ("name", JStr "Ahmadi"); ("verified", JBool true) ] "Ahmadi").
  - reflexivity.
  - left. reflexivity.
  - reflexivity.
Defined.

(** ** CorpusManager: drafts and published tweets *)

Lemma slice_from_last (n : nat) {A : Type} (l : list A) :
  0 < n -> slice_from (- Z.of_nat n) l = skipn (length l - n) l.
Proof.
  intros Hn. unfold slice_from.
  assert (E : (- Z.of_nat n <? 0)%Z = true) by (apply Z.ltb_lt; lia).
  rewrite E. f_equal. lia.
Qed.

Lemma slice_from_zero {A : Type} (l : list A) : slice_from 0 l = l.
Proof. unfold slice_from. simpl. rewrite Z.min_l by lia. reflexivity. Qed.

Lemma slice_from_drop (n : nat) {A : Type} (l : list A) :
  slice_from (Z.of_nat n) l = skipn n l.
Proof.
  unfold slice_from.
  assert (E : (Z.of_nat n <? 0)%Z = false) by (apply Z.ltb_ge; lia).
  rewrite E. destruct (Nat.le_gt_cases n (length l)) as [H|H].
  - rewrite Z.min_l by lia. now rewrite Nat2Z.id.
  - rewrite Z.min_r by lia. rewrite Nat2Z.id.
    rewrite !skipn_all2 by lia. reflexivity.
Qed.

Lemma skipn_last_length {A : Type} (n : nat) (l : list A) :
  length (skipn (length l - n) l) = Nat.min n (length l).
Proof. rewrite length_skipn. lia. Qed.

Lemma skipn_snoc_last {A : Type} (k : nat) (l : list A) (x : A) :
  k <= length l -> skipn k (l ++ [x]) = skipn k l ++ [x].
Proof. intros H. rewrite skipn_app. replace (k - length l) with 0 by lia. reflexivity. Qed.

Lemma cap_recent_get (h : list (string * json)) (l : list json) :
  py_get "recentDrafts" h = Some (JArr l) ->
  py_get "recentDrafts" (cap_recent h) = Some (JArr (slice_from (-50) l))
  /\ map fst (cap_recent h) = map fst h
  /\ forall k, k <> "recentDrafts" -> py_get k (cap_recent h) = py_get k h.
Proof.
  intros H. unfold cap_recent. rewrite H.
  destruct (50 <? length l)%nat eqn:E.
  - split; [apply py_get_set_eq|]. split.
    + rewrite py_set_keys. now rewrite H.
    + intros k Hk. apply py_get_set_ne. congruence.
  - apply Nat.ltb_ge in E. split; [|split; reflexivity].
    rewrite H. do 2 f_equal. change (-50)%Z with (- Z.of_nat 50)%Z.
    rewrite slice_from_last by lia. replace (length l - 50) with 0 by lia. reflexivity.
Qed.

Lemma append_entry_get (key : string) (entry : json) (h : list (string * json))
    (l : list json) :
  py_get_default key (JArr []) h = JArr l ->
  exists h1,
    append_entry key entry h = Returned h1
    /\ py_get key h1 = Some (JArr (l ++ [entry]))
    /\ forall k, k <> key -> py_get k h1 = py_get k h.
Proof.
  unfold py_get_default, append_entry.
  destruct (py_get key h) as [v|] eqn:E.
  - intros ->. eexists. split; [reflexivity|]. split; [apply py_get_set_eq|].
    intros k Hk. apply py_get_set_ne. congruence.
  - intros [= <-]. eexists. split; [reflexivity|]. split; [apply py_get_set_eq|].
    intros k Hk. apply py_get_set_ne. congruence.
Qed.





Lemma save_history_returns (now : datetime) (cm : corpus_manager)
    (h meta : list (string * json)) :
  history cm = JObj h ->
  py_get "metadata" h = Some (JObj meta) ->
  exists h',
    save_history now cm
    = (Returned tt, {| history_file := Some (json_dump (JObj h')); history := JObj h' |})
    /\ map fst h' = map fst h
    /\ (forall k, k <> "metadata" -> py_get k h' = py_get k h)
    /\ (json_value (JObj h) = true -> json_value (JObj h') = true).
Proof.
  intros Hh Hmeta. unfold save_history. rewrite Hh, Hmeta.
  eexists. split; [reflexivity|]. split; [now rewrite py_set_keys, Hmeta|]. split.
  - intros k Hk. apply py_get_set_ne. congruence.
  - intros Hv. apply json_value_py_set; [exact Hv|].
    apply json_value_py_set; [|reflexivity].
    exact (json_value_py_get _ _ _ Hv Hmeta).
Qed.



(** X13. [add_draft] on a history dict without [metadata] raises the
    [KeyError] of [save_history] only after the entry has been appended:
    the file is left as it was, while [self.history] already holds the new
    entry at the end of [recentDrafts]. *)
Theorem add_draft_without_metadata (now_id now_generated now_saved : datetime)
    (theme narrative_id : string) (fact_ids : list string) (cm : corpus_manager)
    (h : list (string * json)) (l : list json) :
  history cm = JObj h ->
  py_get "metadata" h = None ->
  py_get_default "recentDrafts" (JArr []) h = JArr l ->
  let entry := draft_entry now_id now_generated theme narrative_id fact_ids in
  let cm' := snd (add_draft now_id now_generated now_saved theme narrative_id fact_ids cm) in
  fst (add_draft now_id now_generated now_saved theme narrative_id fact_ids cm)
  = Raised KeyError
  /\ history_file cm' = history_file cm
  /\ exists h' kept,
       history cm' = JObj h'
       /\ py_get "recentDrafts" h' = Some (JArr (kept ++ [entry]))
       /\ kept = slice_from (-49) l.
Proof.
  intros Hh Hmeta Hl entry cm'. subst cm'. unfold add_draft. fold entry. rewrite Hh.
  destruct (append_entry_get "recentDrafts" entry h l Hl) as (h1 & E1 & Hget1 & Hother1).
  rewrite E1.
  destruct (cap_recent_get h1 _ Hget1) as (Hget2 & Hkeys2 & Hother2).
  assert (Hmeta2 : py_get "metadata" (cap_recent h1) = None).
  { rewrite Hother2 by discriminate. rewrite Hother1 by discriminate. exact Hmeta. }
  unfold save_history. cbn [history]. rewrite Hmeta2. cbn [fst snd history history_file].
  split; [reflexivity|]. split; [reflexivity|].
  change (-50)%Z with (- Z.of_nat 50)%Z in Hget2. rewrite slice_from_last in Hget2 by lia.
  rewrite length_app in Hget2. simpl length in Hget2.
  set (k := length l + 1 - 50) in Hget2.
  assert (Hk : k <= length l) by (unfold k; lia).
  rewrite (skipn_snoc_last k l entry Hk) in Hget2.
  exists (cap_recent h1), (skipn k l).
  split; [reflexivity|]. split; [exact Hget2|].
  change (-49)%Z with (- Z.of_nat 49)%Z. rewrite slice_from_last by lia.
  f_equal. unfold k. lia.
Qed.

Lemma add_draft_without_metadata_witness :
  fst (add_draft noon noon noon_later "bazaar" "n2" ["f7"]
         {| history_file := None; history := JObj [ ("recentDrafts", JArr []) ] |})
  = Raised KeyError.
Proof.
  apply (add_draft_without_metadata noon noon noon_later "bazaar" "n2" ["f7"]
           {| history_file := None; history := JObj [ ("recentDrafts", JArr []) ] |}
           _ _ eq_refl eq_refl eq_refl).
Defined.

Lemma with_pattern_app (pattern : string) (a b ra rb : list json) :
  with_pattern pattern a = Returned ra ->
  with_pattern pattern b = Returned rb ->
  with_pattern pattern (a ++ b) = Returned (ra ++ rb).
Proof.
  revert ra. induction a as [|x a IH]; simpl; intros ra.
  - now intros [= <-].
  - destruct (as_dict x) as [d|]; simpl; [|discriminate].
    destruct (with_pattern pattern a) as [more|]; simpl; [|discriminate].
    intros [= <-] Hb. rewrite (IH more eq_refl Hb). simpl.
    destruct (match py_get "pattern" d with Some v => eq_str v pattern | None => false end);
      reflexivity.
Qed.

(** X14. A tweet recorded by [add_published] is found by [get_published]
    under its pattern: on a history with a [metadata] dict and a list of
    published tweets (or none yet), if the query for a non-empty pattern
    returned a list before, then after [add_published] with that pattern
    the same query returns that list followed by the new entry. *)
Theorem add_published_then_get_published (now_id now_published now_saved : datetime)
    (tweet pattern : string) (performance : json) (tags : list string)
    (why_it_worked : string) (cm : corpus_manager)
    (h meta : list (string * json)) (old before : list json) :
  history cm = JObj h ->
  py_get "metadata" h = Some (JObj meta) ->
  py_get_default "publishedTweets" (JArr []) h = JArr old ->
  pattern <> "" ->
  get_published cm None (Some pattern) = Returned (JArr before) ->
  let entry := published_entry now_id now_published tweet pattern performance tags
                 why_it_worked in
  let cm' := snd (add_published now_id now_published now_saved tweet pattern performance
                    tags why_it_worked cm) in
  fst (add_published now_id now_published now_saved tweet pattern performance tags
         why_it_worked cm) = Returned entry
  /\ get_published cm' None (Some pattern) = Returned (JArr (before ++ [entry])).
Proof.
  intros Hh Hmeta Hold Hne Hbefore entry cm'. subst cm'.
  unfold add_published. fold entry. rewrite Hh.
  destruct (append_entry_get "publishedTweets" entry h old Hold)
    as (h1 & E1 & Hget1 & Hother1).
  rewrite E1.
  assert (Hmeta1 : py_get "metadata" h1 = Some (JObj meta)).
  { rewrite Hother1 by discriminate. exact Hmeta. }
  destruct (save_history_returns now_saved
              {| history_file := history_file cm; history := JObj h1 |}
              h1 meta eq_refl Hmeta1) as (h' & Es & Hkeys & Hother & Hval).
  rewrite Es. split; [reflexivity|]. cbn [snd fst].
  destruct pattern as [|c p]; [congruence|].
  unfold get_published in *. rewrite Hh in Hbefore. cbn [history as_dict obind] in *.
  rewrite Hold in Hbefore. cbn [py_iter obind] in Hbefore.
  unfold py_get_default. rewrite Hother by discriminate. rewrite Hget1.
  cbn [py_iter obind].
  destruct (with_pattern (String c p) old) as [kept|] eqn:Ek; [|discriminate].
  injection Hbefore as <-.
  rewrite (with_pattern_app (String c p) old [entry] kept [entry] Ek); [reflexivity|].
  unfold entry, published_entry. cbn [with_pattern as_dict obind].
  match goal with
  | |- context [py_get "pattern" ?d] =>
      change (py_get "pattern" d) with (Some (JStr (String c p)))
  end.
  cbn [eq_str]. rewrite String.eqb_refl. reflexivity.
Qed.

Lemma add_published_then_get_published_witness :
  get_published
    (snd (add_published noon noon noon_later "In 1906..." "constitutional_memory"
            (JObj [ ("likes", JInt 9) ]) ["history"] "short"
            {| history_file := None; history := shared_history |}))
    None (Some "constitutional_memory")
  = Returned (JArr [ published_entry noon noon "In 1906..." "constitutional_memory"
                       (JObj [ ("likes", JInt 9) ]) ["history"] "short" ]).
Proof.
  apply (add_published_then_get_published noon noon noon_later "In 1906..."
           "constitutional_memory" (JObj [ ("likes", JInt 9) ]) ["history"] "short"
           {| history_file := None; history := shared_history |} _ _ _ []
           eq_refl eq_refl eq_refl).
  - discriminate.
  - reflexivity.
Defined.

(** X15. [get_recent_drafts(limit)] on a list of recent drafts: a positive
    limit gives the last [limit] drafts, all of them when there are fewer;
    the limit 0 gives every draft, not none, since [[-0:]] is the whole
    list; and a negative limit [-n] drops the first [n] drafts. *)
Theorem get_recent_drafts_slice (cm : corpus_manager) (h : list (string * json))
    (l : list json) (n : nat) :
  history cm = JObj h ->
  py_get_default "recentDrafts" (JArr []) h = JArr l ->
  (0 < n ->
   exists recent older,
     get_recent_drafts cm (Z.of_nat n) = Returned (JArr recent)
     /\ l = older ++ recent /\ length recent = Nat.min n (length l))
  /\ get_recent_drafts cm 0 = Returned (JArr l)
  /\ get_recent_drafts cm (- Z.of_nat n) = Returned (JArr (skipn n l)).
Proof.
  intros Hh Hl. unfold get_recent_drafts. rewrite Hh. cbn [as_dict obind]. rewrite Hl.
  split; [|split].
  - intros Hn. rewrite slice_from_last by exact Hn.
    exists (skipn (length l - n) l), (firstn (length l - n) l).
    split; [reflexivity|]. split; [symmetry; apply firstn_skipn|].
    apply skipn_last_length.
  - cbn [Z.opp]. now rewrite slice_from_zero.
  - rewrite Z.opp_involutive. now rewrite slice_from_drop.
Qed.

Lemma get_recent_drafts_slice_witness :
  get_recent_drafts
    {| history_file := None;
       history := JObj [ ("recentDrafts", JArr [JStr "a"; JStr "b"; JStr "c"]) ] |} 0
  = Returned (JArr [JStr "a"; JStr "b"; JStr "c"]).
Proof.
  apply (get_recent_drafts_slice
           {| history_file := None;
              history := JObj [ ("recentDrafts", JArr [JStr "a"; JStr "b"; JStr "c"]) ] |}
           _ _ 0 eq_refl eq_refl).
Defined.

(** ** DraftManager: listing, moving and attaching *)

Lemma ascii_compare_trans (a b c : ascii) :
  Ascii.compare a b <> Gt -> Ascii.compare b c <> Gt -> Ascii.compare a c <> Gt.
Proof.
  unfold Ascii.compare. rewrite !N.compare_le_iff. lia.
Qed.

Lemma ascii_compare_Eq (a b : ascii) : Ascii.compare a b = Eq -> a = b.
Proof. apply Ascii.compare_eq_iff. Qed.

Lemma ascii_compare_refl (a : ascii) : Ascii.compare a a = Eq.
Proof. unfold Ascii.compare. apply N.compare_refl. Qed.

Lemma string_compare_trans (a b c : string) :
  String.compare a b <> Gt -> String.compare b c <> Gt -> String.compare a c <> Gt.
Proof.
  revert b c. induction a as [|x a IH]; intros [|y b] [|z c]; simpl; try congruence.
  destruct (Ascii.compare x y) eqn:Exy; try congruence.
  - apply ascii_compare_Eq in Exy. subst y.
    destruct (Ascii.compare x z) eqn:Exz; try congruence. apply IH.
  - intros _. destruct (Ascii.compare y z) eqn:Eyz; try congruence.
    + apply ascii_compare_Eq in Eyz. subst z. rewrite Exy. congruence.
    + intros _.
      assert (H : Ascii.compare x z <> Gt).
      { apply (ascii_compare_trans x y z); congruence. }
      destruct (Ascii.compare x z) eqn:Exz; try congruence.
      apply ascii_compare_Eq in Exz. subst z.
      unfold Ascii.compare in Exy, Eyz. rewrite N.compare_lt_iff in Exy, Eyz. lia.
Qed.

Lemma string_leb_trans (a b c : string) :
  String.leb a b = true -> String.leb b c = true -> String.leb a c = true.
Proof.
  unfold String.leb. intros H1 H2.
  pose proof (string_compare_trans a b c) as H.
  destruct (String.compare a b); try discriminate;
    destruct (String.compare b c); try discriminate;
    destruct (String.compare a c); try reflexivity; exfalso; apply H; congruence.
Qed.

Lemma string_leb_total (a b : string) : String.leb a b = false -> String.leb b a = true.
Proof. intros H. destruct (String.leb_total a b) as [E|E]; congruence. Qed.

Lemma filter_Permutation_list {A : Type} (f : A -> bool) (l l' : list A) :
  l ≡ₚ l' -> List.filter f l ≡ₚ List.filter f l'.
Proof.
  induction 1 as [|x l l' _ IH|x y l|l l' l'' _ IH1 _ IH2]; simpl.
  - reflexivity.
  - destruct (f x); [now constructor|exact IH].
  - destruct (f x), (f y); try reflexivity. apply perm_swap.
  - now rewrite IH1.
Qed.

Lemma sorted_short {A : Type} (R : A -> A -> Prop) (l : list A) :
  length l < 2 -> StronglySorted R l.
Proof.
  destruct l as [|x [|y l]]; simpl; intros H; try lia; repeat constructor.
Qed.

Section DraftManagerMore.
Context {L : DirListing}.

(** X16. When [list_pending] returns, its result holds the records of the
    [.json] files of [pending], each once, newest first: no record comes
    before one with a greater [created_at]. *)
Theorem list_pending_newest_first (st : store) (l : list json) :
  list_pending st = Returned l ->
  l ≡ₚ map snd (List.filter (fun e => str_endswith ".json" (fst e))
                  (map_to_list (pending st)))
  /\ StronglySorted (fun a b => String.leb (created_at_of b) (created_at_of a) = true) l.
Proof.
  unfold list_pending.
  assert (Hperm : map snd (glob_json (pending st))
                  ≡ₚ map snd (List.filter (fun e => str_endswith ".json" (fst e))
                                (map_to_list (pending st)))).
  { unfold glob_json. apply Permutation_map. apply filter_Permutation_list.
    apply scandir_perm. }
  destruct (negb (forallb is_dict _)); [discriminate|].
  destruct (forallb _ _).
  - intros [= <-]. split.
    + rewrite <- Hperm. apply sorted_desc_perm.
    + eapply StronglySorted_weaken;
        [|apply (sorted_desc_sorted String.leb created_at_of (fun _ _ => True)
                   string_leb_total string_leb_trans)].
      * intros a b _ _ [H _]. exact H.
      * clear. induction (map snd (glob_json (pending st))) as [|x l IH];
          constructor; [exact IH|]. rewrite List.Forall_forall. auto.
  - destruct (_ <? 2)%nat eqn:E; [|discriminate]. intros [= <-].
    split; [exact Hperm|]. apply sorted_short. now apply Nat.ltb_lt.
Qed.

(** X17. [approve_draft] moves a file as it is.  When it returns [True],
    one pending file selected by the identifier is now in [approved] under
    the same name and with the same document (its [status] field included,
    which the move does not update), every other pending file is still
    pending, and [posted] is untouched; when it returns [False], no pending
    file is selected by the identifier and the store is unchanged; and
    when it raises, the exception is the [ValueError] of a refused pattern
    and the store is unchanged. *)
Theorem approve_draft_moves_file (draft_id : string) (st : store) :
  let st' := snd (approve_draft draft_id st) in
  posted st' = posted st
  /\ (fst (approve_draft draft_id st) = Returned true ->
      exists name doc,
        pending st !! name = Some doc
        /\ glob_id draft_id name = true
        /\ approved st' !! name = Some doc
        /\ pending st' !! name = None
        /\ (forall other, other <> name ->
              pending st' !! other = pending st !! other
              /\ approved st' !! other = approved st !! other))
  /\ (fst (approve_draft draft_id st) = Returned false ->
      st' = st
      /\ forall name doc, pending st !! name = Some doc -> glob_id draft_id name = false)
  /\ (forall e, fst (approve_draft draft_id st) = Raised e ->
        e = ValueError /\ glob_invalid draft_id = true /\ st' = st).
Proof.
  unfold approve_draft. destruct (glob_invalid draft_id) eqn:Ev.
  { simpl. split; [reflexivity|]. split; [discriminate|]. split; [discriminate|].
    intros e [= <-]. auto. }
  destruct (glob_first draft_id (pending st)) as [[name doc]|] eqn:E; simpl.
  - split; [reflexivity|]. split; [|split; [discriminate|discriminate]].
    intros _. apply glob_first_Some in E. destruct E as [Hdoc Hglob].
    exists name, doc. split; [exact Hdoc|]. split; [exact Hglob|].
    split; [apply lookup_insert_eq|]. split; [apply lookup_delete_eq|].
    intros other Hne. split.
    + now apply lookup_delete_ne.
    + now apply lookup_insert_ne.
  - split; [reflexivity|]. split; [discriminate|]. split; [|discriminate].
    intros _. split; [reflexivity|].
    intros name doc Hdoc. now apply (proj1 (glob_first_None draft_id (pending st)) E name doc).
Qed.

Lemma attach_in_spec (draft_id media_path : string) (d d' : gmap string json) :
  attach_in draft_id media_path d = Returned d' ->
  (forall name doc, d !! name = Some doc -> glob_id draft_id name = false) /\ d' = d
  \/ exists name doc doc',
       d !! name = Some doc /\ glob_id draft_id name = true
       /\ d' !! name = Some doc' /\ attached media_path doc doc'
       /\ forall other, other <> name -> d' !! other = d !! other.
Proof.
  unfold attach_in. destruct (glob_invalid draft_id); [discriminate|].
  destruct (glob_first draft_id d) as [[name doc]|] eqn:E.
  - apply glob_first_Some in E. destruct E as [Hdoc Hglob].
    destruct doc as [| | | | | |draft]; try discriminate.
    destruct (py_get_default "media" (JArr []) draft) as [| | | | |media|] eqn:Em;
      try discriminate.
    intros [= <-]. right. exists name, (JObj draft). eexists.
    split; [exact Hdoc|]. split; [exact Hglob|].
    split; [apply lookup_insert_eq|]. split.
    + exists draft, media. eexists. split; [reflexivity|]. split; [reflexivity|].
      split; [exact Em|]. split; [apply py_get_set_eq|].
      intros k Hk. apply py_get_set_ne. congruence.
    + intros other Hne. now apply lookup_insert_ne.
  - intros [= <-]. left. split; [|reflexivity].
    intros name doc Hdoc. now apply (proj1 (glob_first_None draft_id d) E name doc).
Qed.

(** X18. When the [attach] handler returns, in [pending] and in [approved]
    alike either no file is selected by the identifier and the folder is
    unchanged, or one selected file has the path appended at the end of
    its [media] list, with every other field of the draft and every other
    file of the folder unchanged; [posted] is never touched. *)
Theorem attach_appends_media (draft_id media_path : string) (st : store) :
  fst (attach draft_id media_path st) = Returned tt ->
  let st' := snd (attach draft_id media_path st) in
  let folder_ok (d d' : gmap string json) :=
    (forall name doc, d !! name = Some doc -> glob_id draft_id name = false) /\ d' = d
    \/ exists name doc doc',
         d !! name = Some doc /\ glob_id draft_id name = true
         /\ d' !! name = Some doc' /\ attached media_path doc doc'
         /\ forall other, other <> name -> d' !! other = d !! other in
  posted st' = posted st
  /\ folder_ok (pending st) (pending st')
  /\ folder_ok (approved st) (approved st').
Proof.
  unfold attach.
  destruct (attach_in draft_id media_path (pending st)) as [p|] eqn:Ep; [|discriminate].
  destruct (attach_in draft_id media_path (approved st)) as [a|] eqn:Ea; [|discriminate].
  intros _. simpl. split; [reflexivity|].
  split; now apply attach_in_spec.
Qed.

Lemma reject_in_spec (draft_id : string) (d : gmap string json) :
  (forall name doc, d !! name = Some doc -> glob_id draft_id name = false)
  /\ reject_in draft_id d = d
  \/ exists name doc,
       d !! name = Some doc /\ glob_id draft_id name = true
       /\ reject_in draft_id d = delete name d.
Proof.
  unfold reject_in.
  destruct (glob_first draft_id d) as [[name doc]|] eqn:E.
  - apply glob_first_Some in E. destruct E as [Hdoc Hglob].
    right. exists name, doc. auto.
  - left. split; [|reflexivity].
    intros name doc Hdoc. now apply (proj1 (glob_first_None draft_id d) E name doc).
Qed.

(** X19. The [reject] handler, when the pattern of the identifier is
    accepted, returns after deleting, in [pending] and in [approved] alike,
    exactly one file selected by the identifier when there is one and
    nothing otherwise; a file that the identifier does not select is never
    deleted.  When the pattern is refused, the handler raises [ValueError]
    and deletes nothing.  [posted] is never touched. *)
Theorem reject_deletes_one_match (draft_id : string) (st : store) :
  let st' := snd (reject draft_id st) in
  let folder_ok (d d' : gmap string json) :=
    (forall name doc, d !! name = Some doc -> glob_id draft_id name = false) /\ d' = d
    \/ exists name doc,
         d !! name = Some doc /\ glob_id draft_id name = true
         /\ d' !! name = None
         /\ size d = S (size d')
         /\ forall other, other <> name -> d' !! other = d !! other in
  posted st' = posted st
  /\ (glob_invalid draft_id = false ->
      fst (reject draft_id st) = Returned tt
      /\ folder_ok (pending st) (pending st')
      /\ folder_ok (approved st) (approved st'))
  /\ (glob_invalid draft_id = true -> reject draft_id st = (Raised ValueError, st)).
Proof.
  assert (H : forall d,
    (forall name doc, d !! name = Some doc -> glob_id draft_id name = false)
    /\ reject_in draft_id d = d
    \/ exists name doc,
         d !! name = Some doc /\ glob_id draft_id name = true
         /\ reject_in draft_id d !! name = None
         /\ size d = S (size (reject_in draft_id d))
         /\ forall other, other <> name -> reject_in draft_id d !! other = d !! other).
  { intros d. destruct (reject_in_spec draft_id d) as [Hl|(name & doc & Hdoc & Hglob & ->)];
      [now left|right].
    exists name, doc. split; [exact Hdoc|]. split; [exact Hglob|].
    split; [apply lookup_delete_eq|]. split.
    - rewrite <- (insert_delete_id d name doc Hdoc) at 1.
      rewrite map_size_insert_None; [reflexivity|apply lookup_delete_eq].
    - intros other Hne. now apply lookup_delete_ne. }
  unfold reject. destruct (glob_invalid draft_id); simpl.
  - split; [reflexivity|]. split; [discriminate|reflexivity].
  - split; [reflexivity|]. split; [|discriminate].
    intros _. split; [reflexivity|]. split; apply H.
Qed.

(** X20. Two drafts saved within one clock second share their file: the
    second [save_draft] overwrites the first, and the store is the one
    that the second call alone would have produced. *)
Theorem save_draft_same_second_overwrites (t created1 created2 : datetime)
    (en1 fa1 pat1 en2 fa2 pat2 : string)
    (media1 tags1 srcs1 media2 tags2 srcs2 : option (list string)) (st : store) :
  let first := save_draft t created1 en1 fa1 pat1 media1 tags1 srcs1 st in
  fst (save_draft t created2 en2 fa2 pat2 media2 tags2 srcs2 (snd first)) = fst first
  /\ snd (save_draft t created2 en2 fa2 pat2 media2 tags2 srcs2 (snd first))
     = snd (save_draft t created2 en2 fa2 pat2 media2 tags2 srcs2 st)
  /\ size (pending (snd (save_draft t created2 en2 fa2 pat2 media2 tags2 srcs2 (snd first))))
     = size (pending (snd first)).
Proof.
  unfold save_draft. simpl. split; [reflexivity|]. split.
  - f_equal. apply insert_insert_eq.
  - rewrite insert_insert_eq.
    destruct (pending st !! draft_file (strftime_id t)) as [old|] eqn:E.
    + rewrite !map_size_insert_Some; eauto.
    + rewrite !map_size_insert_None; auto.
Qed.
End DraftManagerMore.



(** *** Identifiers of different seconds *)

Lemma digit_inj (a b : N) : digit a = digit b -> (a mod 10 = b mod 10)%N.
Proof.
  unfold digit. intros H.
  assert (Ha : (a mod 10 < 10)%N) by (apply N.mod_lt; discriminate).
  assert (Hb : (b mod 10 < 10)%N) by (apply N.mod_lt; discriminate).
  apply (f_equal N_of_ascii) in H.
  rewrite !N_ascii_embedding in H by lia. lia.
Qed.

Lemma pad2_inj (a b : N) : (a < 100)%N -> (b < 100)%N -> pad2 a = pad2 b -> a = b.
Proof.
  unfold pad2. intros Ha Hb [= H1 H2].
  apply digit_inj in H1, H2.
  assert (Ha' : (a / 10 < 10)%N) by (apply N.Div0.div_lt_upper_bound; lia).
  assert (Hb' : (b / 10 < 10)%N) by (apply N.Div0.div_lt_upper_bound; lia).
  rewrite (N.mod_small (a / 10)), (N.mod_small (b / 10)) in H1 by assumption.
  rewrite (N.div_mod a 10), (N.div_mod b 10) by discriminate. lia.
Qed.

Lemma pad2_length (n : N) : String.length (pad2 n) = 2.
Proof. reflexivity. Qed.

Lemma app_str_inv_length (a b x y : string) :
  String.length a = String.length b -> a +:+ x = b +:+ y -> a = b /\ x = y.
Proof.
  revert b. induction a as [|c a IH]; intros [|d b]; simpl; try discriminate.
  - auto.
  - intros [= Hl] [= -> H]. destruct (IH b Hl H) as [-> ->]. auto.
Qed.

Lemma pad4_inj (a b : N) : (a < 10000)%N -> (b < 10000)%N -> pad4 a = pad4 b -> a = b.
Proof.
  unfold pad4. intros Ha Hb H.
  apply app_str_inv_length in H; [|reflexivity]. destruct H as [H1 H2].
  apply pad2_inj in H1; try (apply N.Div0.div_lt_upper_bound; lia).
  unfold pad2 in H2. injection H2 as H2 H3. apply digit_inj in H2, H3.
  assert (E : (a mod 100 = b mod 100)%N).
  { assert (Ea : (a mod 100 = 10 * ((a / 10) mod 10) + a mod 10)%N).
    { rewrite (N.div_mod a 10) at 1 by discriminate.
      rewrite (N.div_mod (a / 10) 10) at 1 by discriminate.
      replace (10 * (10 * (a / 10 / 10) + (a / 10) mod 10) + a mod 10)%N
        with ((10 * ((a / 10) mod 10) + a mod 10) + (a / 10 / 10) * 100)%N by lia.
      rewrite N.Div0.mod_add. apply N.mod_small.
      assert ((a / 10) mod 10 < 10)%N by (apply N.mod_lt; discriminate).
      assert (a mod 10 < 10)%N by (apply N.mod_lt; discriminate). lia. }
    assert (Eb : (b mod 100 = 10 * ((b / 10) mod 10) + b mod 10)%N).
    { rewrite (N.div_mod b 10) at 1 by discriminate.
      rewrite (N.div_mod (b / 10) 10) at 1 by discriminate.
      replace (10 * (10 * (b / 10 / 10) + (b / 10) mod 10) + b mod 10)%N
        with ((10 * ((b / 10) mod 10) + b mod 10) + (b / 10 / 10) * 100)%N by lia.
      rewrite N.Div0.mod_add. apply N.mod_small.
      assert ((b / 10) mod 10 < 10)%N by (apply N.mod_lt; discriminate).
      assert (b mod 10 < 10)%N by (apply N.mod_lt; discriminate). lia. }
    lia. }
  rewrite (N.div_mod a 100), (N.div_mod b 100) by discriminate. lia.
Qed.

(** X22. Clock readings of different seconds give different draft
    identifiers, hence different draft files: for readings whose fields
    lie in the calendar ranges, equal [strftime_id]s mean equal year,
    month, day, hour, minute and second. *)
Theorem strftime_id_injective (t1 t2 : datetime) :
  in_calendar t1 -> in_calendar t2 ->
  strftime_id t1 = strftime_id t2 ->
  dt_year t1 = dt_year t2 /\ dt_month t1 = dt_month t2 /\ dt_day t1 = dt_day t2
  /\ dt_hour t1 = dt_hour t2 /\ dt_minute t1 = dt_minute t2 /\ dt_second t1 = dt_second t2.
Proof.
  unfold in_calendar, strftime_id.
  intros (Hy1 & Hm1 & Hd1 & Hh1 & Hmi1 & Hs1) (Hy2 & Hm2 & Hd2 & Hh2 & Hmi2 & Hs2) H.
  apply app_str_inv_length in H; [|reflexivity]. destruct H as [Ey H].
  apply app_str_inv_length in H; [|reflexivity]. destruct H as [Em H].
  apply app_str_inv_length in H; [|reflexivity]. destruct H as [Ed H].
  apply app_str_inv_length in H; [|reflexivity]. destruct H as [_ H].
  apply app_str_inv_length in H; [|reflexivity]. destruct H as [Eh H].
  apply app_str_inv_length in H; [|reflexivity]. destruct H as [Emi Es].
  apply pad4_inj in Ey; [|assumption|assumption].
  apply pad2_inj in Em; [|assumption|assumption].
  apply pad2_inj in Ed; [|assumption|assumption].
  apply pad2_inj in Eh; [|assumption|assumption].
  apply pad2_inj in Emi; [|assumption|assumption].
  apply pad2_inj in Es; [|assumption|assumption].
  auto 10.
Qed.

Lemma strftime_id_injective_witness :
  dt_second noon = dt_second {| dt_year := 2026; dt_month := 1; dt_day := 17;
                                dt_hour := 12; dt_minute := 0; dt_second := 0;
                                dt_microsecond := 7 |}.
Proof.
  apply (strftime_id_injective noon
           {| dt_year := 2026; dt_month := 1; dt_day := 17;
              dt_hour := 12; dt_minute := 0; dt_second := 0; dt_microsecond := 7 |}).
  - unfold in_calendar. simpl. lia.
  - unfold in_calendar. simpl. lia.
  - reflexivity.
Defined.

(** ** twitter_poster *)

(** X23. When [post_tweet] posts, the draft file leaves [approved] and is
    written to [posted] under the same name with [posted_at] set to the
    time of the post and [tweet_url] to the address that the browser
    reports; every other field of the record is as it was (in particular
    [status] and [tweet_id] are not updated), every other file of the
    three folders is untouched, and the text given to the browser is the
    text of the draft in the requested language. *)
Theorem post_tweet_moves_and_stamps (session : browser) (now : datetime)
    (draft_id language tweet_url : string) (st : store) :
  name_part draft_id = true ->
  fst (post_tweet session now draft_id language st) = Returned (Some tweet_url) ->
  let st' := snd (post_tweet session now draft_id language st) in
  let name := approved_name draft_id st in
  exists draft draft',
    approved st !! name = Some (JObj draft)
    /\ session (tweet_text_of language draft) = Returned (Some tweet_url)
    /\ pending st' = pending st
    /\ approved st' = delete name (approved st)
    /\ posted st' !! name = Some (JObj draft')
    /\ (forall other, other <> name -> posted st' !! other = posted st !! other)
    /\ py_get "posted_at" draft' = Some (JStr (isoformat now))
    /\ py_get "tweet_url" draft' = Some (JStr tweet_url)
    /\ forall k, k <> "posted_at" -> k <> "tweet_url" -> py_get k draft' = py_get k draft.
Proof.
  intros _. unfold post_tweet.
  destruct (approved st !! approved_name draft_id st) as [doc|] eqn:Ed; [|discriminate].
  destruct doc as [| | | | | |draft]; try discriminate.
  destruct (negb (py_truthy (tweet_text_of language draft))); [discriminate|].
  destruct (negb (sliceable (tweet_text_of language draft))); [discriminate|].
  destruct (session (tweet_text_of language draft)) as [[url|]|] eqn:Es; try discriminate.
  simpl. intros [= ->]. exists draft. eexists.
  split; [reflexivity|]. split; [exact Es|]. split; [reflexivity|]. split; [reflexivity|].
  split; [apply lookup_insert_eq|]. split.
  { intros other Hne. now apply lookup_insert_ne. }
  split.
  { rewrite py_get_set_ne by discriminate. apply py_get_set_eq. }
  split; [apply py_get_set_eq|].
  intros k Hk1 Hk2. rewrite py_get_set_ne by congruence. apply py_get_set_ne. congruence.
Qed.

Lemma post_tweet_moves_and_stamps_witness :
  exists draft',
    posted (snd (post_tweet (fun _ => Returned (Some "https://x.com/status/1")) noon
                   "20260116_090000" "persian" one_approved))
      !! "draft_20260116_090000.json" = Some (JObj draft')
    /\ py_get "status" draft' = Some (JStr "pending").
Proof.
  destruct (post_tweet_moves_and_stamps (fun _ => Returned (Some "https://x.com/status/1"))
              noon "20260116_090000" "persian" "https://x.com/status/1" one_approved)
    as (draft & draft' & Hd & _ & _ & _ & Hp & _ & _ & _ & Hk).
  - reflexivity.
  - vm_compute. reflexivity.
  - exists draft'. split; [exact Hp|].
    rewrite Hk by discriminate.
    assert (E : approved one_approved !! approved_name "20260116_090000" one_approved
                = Some older_draft) by (vm_compute; reflexivity).
    rewrite E in Hd. injection Hd as <-. reflexivity.
Defined.

(** X24. Unless [post_tweet] posts, it changes no file.  It returns [None]
    without using the browser when neither [<id>.json] nor
    [draft_<id>.json] is in [approved], and when the draft has no text in
    the requested language nor, failing that, in English. *)
Theorem post_tweet_without_post (session : browser) (now : datetime)
    (draft_id language : string) (st : store) :
  name_part draft_id = true ->
  ((forall tweet_url,
      fst (post_tweet session now draft_id language st) <> Returned (Some tweet_url)) ->
   snd (post_tweet session now draft_id language st) = st)
  /\ (approved st !! (draft_id +:+ ".json") = None ->
      approved st !! draft_file draft_id = None ->
      post_tweet session now draft_id language st = (Returned None, st))
  /\ (forall draft,
        approved st !! approved_name draft_id st = Some (JObj draft) ->
        py_truthy (tweet_text_of language draft) = false ->
        post_tweet session now draft_id language st = (Returned None, st)).
Proof.
  intros _. split; [|split].
  - unfold post_tweet.
    destruct (approved st !! approved_name draft_id st) as [doc|]; [|reflexivity].
    destruct doc as [| | | | | |draft]; try reflexivity.
    destruct (negb (py_truthy (tweet_text_of language draft))); [reflexivity|].
    destruct (negb (sliceable (tweet_text_of language draft))); [reflexivity|].
    destruct (session (tweet_text_of language draft)) as [[url|]|]; try reflexivity.
    intros H. exfalso. now apply (H url).
  - intros H1 H2. unfold post_tweet, approved_name. rewrite H1, H2. reflexivity.
  - intros draft Hd Ht. unfold post_tweet. rewrite Hd, Ht. reflexivity.
Qed.

Lemma post_tweet_without_post_witness :
  post_tweet (fun _ => Returned (Some "https://x.com/status/1")) noon "20260117_120000"
    "english" one_approved
  = (Returned None, one_approved).
Proof.
  apply (post_tweet_without_post (fun _ => Returned (Some "https://x.com/status/1")) noon
           "20260117_120000" "english" one_approved eq_refl); reflexivity.
Defined.

(** X25. [post_tweet] posts in English for every language other than
    [persian], and also for [persian] when the draft has no Persian text;
    and a draft stored as [draft_<id>.json] is found under [<id>] and
    under [draft_<id>] alike, when no file [<id>.json] is in the way. *)
Theorem post_tweet_language_and_prefix (session : browser) (now : datetime)
    (draft_id language : string) (st : store) :
  name_part draft_id = true ->
  (language <> "persian" ->
   post_tweet session now draft_id language st
   = post_tweet session now draft_id "english" st)
  /\ (forall draft,
        approved st !! approved_name draft_id st = Some (JObj draft) ->
        py_truthy (py_get_default "persian" JNull draft) = false ->
        post_tweet session now draft_id "persian" st
        = post_tweet session now draft_id "english" st)
  /\ (forall doc,
        approved st !! (draft_id +:+ ".json") = None ->
        approved st !! draft_file draft_id = Some doc ->
        post_tweet session now ("draft_" +:+ draft_id) language st
        = post_tweet session now draft_id language st).
Proof.
  intros _. split; [|split].
  - intros Hl. unfold post_tweet, tweet_text_of.
    apply String.eqb_neq in Hl. rewrite Hl. reflexivity.
  - intros draft Hd Hp. unfold post_tweet. rewrite Hd.
    unfold tweet_text_of. rewrite Hp. reflexivity.
  - intros doc H1 H2.
    assert (E : approved_name ("draft_" +:+ draft_id) st = approved_name draft_id st).
    { unfold approved_name. rewrite H1.
      replace (("draft_" +:+ draft_id) +:+ ".json") with (draft_file draft_id)
        by (unfold draft_file; now rewrite app_str_assoc).
      now rewrite H2. }
    unfold post_tweet. rewrite E. reflexivity.
Qed.

Lemma post_tweet_language_and_prefix_witness :
  post_tweet (fun _ => Returned (Some "https://x.com/status/1")) noon "20260116_090000"
    "farsi" one_approved
  = post_tweet (fun _ => Returned (Some "https://x.com/status/1")) noon "20260116_090000"
      "english" one_approved.
Proof.
  apply (post_tweet_language_and_prefix (fun _ => Returned (Some "https://x.com/status/1"))
           noon "20260116_090000" "farsi" one_approved eq_refl).
  discriminate.
Defined.

(** ** FaytuksDaemon: bounds of a cycle *)

Section CycleBounds.
Context {L : DirListing} {P : IsoParser}.

Lemma size_insert_le (d : gmap string json) (n : string) (doc : json) :
  size (<[n := doc]> d) <= S (size d).
Proof.
  destruct (d !! n) as [old|] eqn:E.
  - rewrite map_size_insert_Some by eauto. lia.
  - rewrite map_size_insert_None by exact E. lia.
Qed.

Lemma approve_draft_files (i : string) (st : store) :
  files_in_queue (snd (approve_draft i st)) <= files_in_queue st
  /\ posted (snd (approve_draft i st)) = posted st.
Proof.
  unfold approve_draft, files_in_queue.
  destruct (glob_invalid i); simpl; [split; [lia|reflexivity]|].
  destruct (glob_first i (pending st)) as [[name doc]|] eqn:E; simpl; [|split; [lia|reflexivity]].
  apply glob_first_Some in E. destruct E as [Hdoc _].
  split; [|reflexivity].
  pose proof (size_insert_le (approved st) name doc) as H1.
  assert (H2 : size (pending st) = S (size (delete name (pending st)))).
  { rewrite <- (insert_delete_id (pending st) name doc Hdoc) at 1.
    rewrite map_size_insert_None; [reflexivity|apply lookup_delete_eq]. }
  lia.
Qed.

Lemma save_draft_files (t1 t2 : datetime) (en fa pat : string)
    (media tags srcs : option (list string)) (st : store) :
  files_in_queue (snd (save_draft t1 t2 en fa pat media tags srcs st))
  <= S (files_in_queue st)
  /\ posted (snd (save_draft t1 t2 en fa pat media tags srcs st)) = posted st.
Proof.
  unfold save_draft, files_in_queue. cbn [snd pending approved posted].
  split; [|reflexivity].
  pose proof (size_insert_le (pending st) (draft_file (strftime_id t1))
                (new_draft (strftime_id t1) (isoformat t2) en fa pat media tags srcs)).
  lia.
Qed.

Lemma process_breaking_files (claude : option (string -> option string))
    (clk : datetime * datetime) (tweet : json) (st : store) :
  files_in_queue (snd (process_breaking claude clk tweet st)) <= S (files_in_queue st)
  /\ posted (snd (process_breaking claude clk tweet st)) = posted st.
Proof.
  unfold process_breaking.
  destruct tweet as [| | | | | |t]; cbn [snd]; try (split; [lia|reflexivity]).
  destruct (py_get_default "text" (JStr "") t) as [| | | |english| |];
    cbn [snd]; try (split; [lia|reflexivity]).
  match goal with
  | |- context [save_draft ?a ?b ?c ?d ?e ?f ?g ?h st] =>
      pose proof (save_draft_files a b c d e f g h st) as Hs;
      destruct (save_draft a b c d e f g h st) as [path st1]
  end.
  cbn [snd] in *.
  destruct (String.eqb (path_stem path) ""); [exact Hs|].
  destruct (approve_draft_files (path_stem path) st1) as [H1 H2].
  destruct (approve_draft (path_stem path) st1) as [[b|e] st2]; cbn [snd] in *;
    destruct Hs as [H3 H4]; (split; [lia|congruence]).
Qed.

Lemma process_other_files (clk : datetime * datetime) (tweet : json) (st : store) :
  files_in_queue (snd (process_other clk tweet st)) <= S (files_in_queue st)
  /\ posted (snd (process_other clk tweet st)) = posted st.
Proof.
  unfold process_other.
  destruct tweet as [| | | | | |t]; cbn [snd]; try (split; [lia|reflexivity]).
  destruct (py_get_default "text" (JStr "") t) as [| | | |english| |];
    cbn [snd]; try (split; [lia|reflexivity]).
  match goal with
  | |- context [save_draft ?a ?b ?c ?d ?e ?f ?g ?h st] =>
      pose proof (save_draft_files a b c d e f g h st) as Hs;
      destruct (save_draft a b c d e f g h st) as [path st1]
  end.
  exact Hs.
Qed.

Lemma process_all_files
    (body : datetime * datetime -> json -> store -> outcome string * store)
    (clock : nat -> datetime * datetime) (tweets : list json) :
  (forall clk t s, files_in_queue (snd (body clk t s)) <= S (files_in_queue s)
                   /\ posted (snd (body clk t s)) = posted s) ->
  forall k st,
    files_in_queue (snd (process_all body clock k tweets st))
    <= files_in_queue st + length tweets
    /\ posted (snd (process_all body clock k tweets st)) = posted st
    /\ forall paths, fst (process_all body clock k tweets st) = Returned paths ->
                     length paths = length tweets.
Proof.
  intros Hbody. induction tweets as [|t rest IH]; intros k st; simpl.
  - split; [lia|]. split; [reflexivity|]. now intros paths [= <-].
  - destruct (Hbody (clock k) t st) as [H1 H2].
    destruct (body (clock k) t st) as [[path|e] st1]; simpl in *.
    + destruct (IH (S k) st1) as (H3 & H4 & H5).
      destruct (process_all body clock (S k) rest st1) as [[paths|e] st2]; simpl in *.
      * split; [lia|]. split; [congruence|].
        intros ps [= <-]. simpl. f_equal. now apply H5.
      * split; [lia|]. split; [congruence|]. discriminate.
    + split; [lia|]. split; [exact H2|]. discriminate.
Qed.

(** X26. The report of [run_cycle] carries either the created drafts and
    no error, or one error and no created draft, even though drafts
    written before the error stay in the folders.  A cycle creates at most
    15 drafts, 5 for breaking items and 10 for the others; [pending] and
    [approved] together grow by at most that many files, and [posted] is
    untouched. *)
Theorem run_cycle_report (message : exn -> string) (now : datetime)
    (files : gmap string json) (now_b now_c now_g : Z)
    (clock : nat -> datetime * datetime) (claude : option (string -> option string))
    (st : store) :
  let results := fst (run_cycle message now files now_b now_c now_g clock claude st) in
  let st' := snd (run_cycle message now files now_b now_c now_g clock claude st) in
  cr_timestamp results = isoformat now
  /\ length (cr_drafts_created results) <= 15
  /\ length (cr_errors results) <= 1
  /\ (cr_errors results <> [] -> cr_drafts_created results = [])
  /\ files_in_queue st' <= files_in_queue st + 15
  /\ posted st' = posted st.
Proof.
  unfold run_cycle, generate_drafts_from_buckets.
  set (breaking := firstn 5 _). set (others := firstn 10 _).
  assert (Hb : length breaking <= 5) by (unfold breaking; rewrite length_firstn; lia).
  assert (Ho : length others <= 10) by (unfold others; rewrite length_firstn; lia).
  destruct (process_all_files (process_breaking claude) clock breaking
              (process_breaking_files claude) 0 st) as (H1 & H2 & H3).
  destruct (process_all (process_breaking claude) clock 0 breaking st)
    as [[created|e] st1]; simpl in *.
  - destruct (process_all_files process_other clock others process_other_files
                (length created) st1) as (H4 & H5 & H6).
    destruct (process_all process_other clock (length created) others st1)
      as [[created'|e] st2]; simpl in *.
    + split; [reflexivity|]. split.
      { rewrite length_app, (H3 created eq_refl), (H6 created' eq_refl). lia. }
      split; [lia|]. split; [congruence|]. split; [lia|congruence].
    + split; [reflexivity|]. split; [lia|]. split; [lia|]. split; [reflexivity|].
      split; [lia|congruence].
  - split; [reflexivity|]. split; [lia|]. split; [lia|]. split; [reflexivity|].
    split; [lia|congruence].
Qed.

Lemma omap_keep_In (bucket handle : string) (cutoff : Z) (tweets : list json) (t r : json) :
  In t tweets -> keep_tweet bucket handle cutoff t = Some r ->
  In r (omap (keep_tweet bucket handle cutoff) tweets).
Proof.
  intros Hin Hk. apply list_elem_of_In, list_elem_of_omap.
  exists t. split; [now apply list_elem_of_In|exact Hk].
Qed.

(** X27. The result of [scrape_recent_tweets] is ordered by [date],
    latest first, and it is complete: every tweet of an existing file of
    the bucket that is a dict with a [date] newer than the cutoff and no
    truthy [isRetweet] is in the result, tagged with the bucket and the
    handle of its file. *)
Theorem scrape_recent_tweets_sorted_complete (files : gmap string json) (now : Z)
    (bucket : string) (max_age : Z) :
  StronglySorted (fun a b => String.leb (date_of b) (date_of a) = true)
    (scrape_recent_tweets files now bucket max_age)
  /\ forall path handle d tweets f date ts,
       In (path, handle) (bucket_files bucket) ->
       files !! path = Some (JObj d) ->
       py_iter (py_get_default "tweets" (JArr []) d) = Returned tweets ->
       In (JObj f) tweets ->
       py_get_default "date" (JStr "") f = JStr date ->
       fromisoformat (replace_Z date) = Some ts ->
       (now - max_age < ts)%Z ->
       py_truthy (py_get_default "isRetweet" (JBool false) f) = false ->
       In (JObj (py_set "handle" (JStr handle) (py_set "bucket" (JStr bucket) f)))
          (scrape_recent_tweets files now bucket max_age).
Proof.
  unfold scrape_recent_tweets. split.
  - eapply StronglySorted_weaken;
      [|apply (sorted_desc_sorted String.leb date_of (fun _ _ => True)
                 string_leb_total string_leb_trans)].
    + intros a b _ _ [H _]. exact H.
    + match goal with |- StronglySorted _ ?items => induction items as [|x rest IH] end;
        constructor; [exact IH|]. rewrite List.Forall_forall. auto.
  - intros path handle d tweets f date ts Hpf Hfile Hiter Hin Hdate Hts Hnew Hrt.
    apply (proj2 (sorted_desc_In _ _ _ _)).
    apply in_flat_map. exists (path, handle). split; [exact Hpf|]. simpl.
    rewrite Hfile. unfold scrape_file. rewrite Hiter.
    apply (omap_keep_In _ _ _ _ (JObj f)); [exact Hin|].
    unfold keep_tweet. rewrite Hdate, Hts, Hrt.
    apply Z.ltb_lt in Hnew. rewrite Hnew. reflexivity.
Qed.
End CycleBounds.

(** ** media_scraper: the catalog *)

Lemma assoc_index_set (t tag : string) (ids : list string)
    (index : list (string * list string)) :
  assoc t (index_set tag ids index)
  = if String.eqb t tag then Some ids else assoc t index.
Proof.
  induction index as [|[tag' ids'] rest IH]; simpl.
  - destruct (String.eqb t tag); reflexivity.
  - destruct (String.eqb tag tag') eqn:E; simpl.
    + apply String.eqb_eq in E. subst tag'. destruct (String.eqb t tag); reflexivity.
    + destruct (String.eqb t tag') eqn:E'.
      * apply String.eqb_eq in E'. subst tag'.
        rewrite String.eqb_sym in E. now rewrite E.
      * exact IH.
Qed.

Lemma ids_under_index_tag (item_id t tag : string) (index : list (string * list string)) :
  ids_under t (index_tag item_id index tag)
  = if String.eqb t tag then ids_under tag index ++ [item_id] else ids_under t index.
Proof.
  unfold index_tag, ids_under. destruct (assoc tag index) as [ids|] eqn:E.
  - rewrite E, assoc_index_set. destruct (String.eqb t tag); reflexivity.
  - rewrite assoc_index_set, String.eqb_refl, !assoc_index_set.
    destruct (String.eqb t tag); reflexivity.
Qed.

Lemma ids_under_fold (item_id t : string) (tags : list string)
    (index : list (string * list string)) (x : string) :
  In x (ids_under t (fold_left (index_tag item_id) tags index))
  <-> In x (ids_under t index) \/ (x = item_id /\ In t tags).
Proof.
  revert index. induction tags as [|tag tags IH]; intros index; simpl; [tauto|].
  rewrite IH, ids_under_index_tag.
  destruct (String.eqb t tag) eqn:E.
  - apply String.eqb_eq in E. subst tag. rewrite in_app_iff. simpl. intuition.
  - apply String.eqb_neq in E. intuition congruence.
Qed.

Lemma catalog_of_app (added : list media_item) (item : media_item) :
  catalog_of (added ++ [item]) = snd (add_item item (catalog_of added)).
Proof. unfold catalog_of. now rewrite fold_left_app. Qed.

Lemma catalog_of_items (added : list media_item) : cat_items (catalog_of added) = added.
Proof.
  induction added as [|item added IH] using rev_ind; [reflexivity|].
  rewrite catalog_of_app. simpl. now rewrite IH.
Qed.

Lemma catalog_of_index (added : list media_item) (t x : string) :
  In x (ids_under t (cat_index (catalog_of added)))
  <-> exists item, In item added /\ mi_id item = x /\ In t (mi_tags item).
Proof.
  induction added as [|item added IH] using rev_ind.
  - simpl. split; [intros []|intros (item & [] & _)].
  - rewrite catalog_of_app. simpl. rewrite ids_under_fold, IH. split.
    + intros [(i & Hi & Hx & Ht)|[-> Ht]].
      * exists i. rewrite in_app_iff. auto.
      * exists item. rewrite in_app_iff. simpl. auto.
    + intros (i & Hi & Hx & Ht). apply in_app_iff in Hi.
      destruct Hi as [Hi|[<-|[]]]; [left; eauto|right; auto].
Qed.

Lemma tag_matches_In (index : list (string * list string)) (tags : list string) (x : string) :
  In x (tag_matches index tags) <-> exists tag, In tag tags /\ In x (ids_under tag index).
Proof. unfold tag_matches. rewrite in_flat_map. reflexivity. Qed.

(** X28. In a catalog built by [add_item] from the empty metadata, a
    search by a non-empty list of tags returns, in the order of their
    addition, exactly the items whose identifier was added under one of
    the tags: the index that [add_item] maintains misses no item and lists
    no identifier that was not added with the tag.  Hence an item is found
    by each of its tags and, by [get_for_topic], under every topic whose
    tag list has one of them. *)
Theorem catalog_search_by_tags (added : list media_item) (tags : list string)
    (r : media_item) :
  tags <> [] ->
  let c := catalog_of added in
  (In r (catalog_search c (Some tags) None) <->
   In r added
   /\ exists tag item,
        In tag tags /\ In item added /\ mi_id item = mi_id r /\ In tag (mi_tags item))
  /\ sublist (catalog_search c (Some tags) None) added
  /\ (forall topic tag,
        In r added -> In tag (mi_tags r) ->
        In tag (match assoc topic topic_tags with Some l => l | None => [topic] end) ->
        In r (get_for_topic c topic)).
Proof.
  intros Hne c.
  assert (Hsearch : forall tags', tags' <> [] -> forall x,
            In x (catalog_search c (Some tags') None) <->
            In x added
            /\ exists tag item,
                 In tag tags' /\ In item added /\ mi_id item = mi_id x
                 /\ In tag (mi_tags item)).
  { intros tags' Hne' x. unfold catalog_search.
    destruct tags' as [|tag more]; [congruence|].
    rewrite filter_In. unfold c. rewrite catalog_of_items, str_mem_In, tag_matches_In.
    split.
    - intros [Hx (t & Ht & Hin)]. split; [exact Hx|].
      apply catalog_of_index in Hin. destruct Hin as (item & Hi & Hid & Htag).
      exists t, item. auto.
    - intros [Hx (t & item & Ht & Hi & Hid & Htag)]. split; [exact Hx|].
      exists t. split; [exact Ht|]. apply catalog_of_index. exists item. auto. }
  split; [now apply Hsearch|]. split.
  - unfold catalog_search. destruct tags as [|tag more]; [congruence|].
    unfold c. rewrite catalog_of_items. apply filter_sublist.
  - intros topic tag Hr Htag Htopic. unfold get_for_topic.
    apply Hsearch.
    + destruct (assoc topic topic_tags) as [l|]; [|discriminate].
      intros ->. destruct Htopic.
    + split; [exact Hr|]. exists tag, r. auto.
Qed.

Lemma catalog_search_by_tags_witness :
  In sample_item (get_for_topic (catalog_of [sample_item]) "cinema_rex").
Proof.
  destruct (catalog_search_by_tags [sample_item] ["fire"] sample_item) as (_ & _ & H).
  - discriminate.
  - apply (H "cinema_rex" "abadan").
    + left. reflexivity.
    + simpl. tauto.
    + simpl. tauto.
Defined.

(** ** media_scraper: the scraping plan *)

Lemma plan_topic_spec (c : catalog) (plan plan' : scraping_plan) (topic : string)
    (requirements : json) :
  plan_topic c plan topic requirements = Returned plan' ->
  exists g,
    gap_topic g = topic
    /\ gap_existing_count g = length (get_for_topic c topic)
    /\ (critical_gaps plan' = critical_gaps plan ++ [g]
        /\ high_priority plan' = high_priority plan
        /\ medium_priority plan' = medium_priority plan
        /\ gap_existing_count g < 3
        \/ critical_gaps plan' = critical_gaps plan
           /\ high_priority plan' = high_priority plan ++ [g]
           /\ medium_priority plan' = medium_priority plan
           /\ queries_to_execute plan' = queries_to_execute plan
           /\ gap_existing_count g < 2
        \/ critical_gaps plan' = critical_gaps plan
           /\ high_priority plan' = high_priority plan
           /\ medium_priority plan' = medium_priority plan ++ [g]
           /\ queries_to_execute plan' = queries_to_execute plan).
Proof.
  unfold plan_topic. destruct (as_dict requirements) as [req|]; simpl; [|discriminate].
  set (g := {| gap_topic := topic;
               gap_existing_count := length (get_for_topic c topic);
               gap_needed_items := py_get_default "needed" (JArr []) req;
               gap_search_queries := py_get_default "search_queries" (JArr []) req |}).
  destruct (eq_str (py_get_default "priority" (JStr "medium") req) "critical"
            && (length (get_for_topic c topic) <? 3)%nat) eqn:E1.
  - destruct (py_iter _) as [queries|]; simpl; [|discriminate].
    intros [= <-]. exists g. split; [reflexivity|]. split; [reflexivity|]. left. simpl.
    apply andb_true_iff in E1. destruct E1 as [_ E1]. apply Nat.ltb_lt in E1. auto.
  - destruct (eq_str (py_get_default "priority" (JStr "medium") req) "high"
              && (length (get_for_topic c topic) <? 2)%nat) eqn:E2.
    + intros [= <-]. exists g. split; [reflexivity|]. split; [reflexivity|].
      right. left. simpl.
      apply andb_true_iff in E2. destruct E2 as [_ E2]. apply Nat.ltb_lt in E2. auto.
    + intros [= <-]. exists g. split; [reflexivity|]. split; [reflexivity|].
      right. right. simpl. auto.
Qed.

Lemma plan_topics_spec (c : catalog) (topics : list (string * json)) :
  forall plan plan',
    plan_topics c plan topics = Returned plan' ->
    exists cg hg mg,
      critical_gaps plan' = critical_gaps plan ++ cg
      /\ high_priority plan' = high_priority plan ++ hg
      /\ medium_priority plan' = medium_priority plan ++ mg
      /\ map gap_topic (cg ++ hg ++ mg) ≡ₚ map fst topics
      /\ (forall g, In g (cg ++ hg ++ mg) ->
            gap_existing_count g = length (get_for_topic c (gap_topic g)))
      /\ (forall g, In g cg -> gap_existing_count g < 3)
      /\ (forall g, In g hg -> gap_existing_count g < 2)
      /\ (cg = [] -> queries_to_execute plan' = queries_to_execute plan).
Proof.
  induction topics as [|[topic requirements] rest IH]; intros plan plan'; simpl.
  - intros [= <-]. exists [], [], []. rewrite !app_nil_r. simpl.
    repeat split; auto; intros g [].
  - destruct (plan_topic c plan topic requirements) as [plan1|] eqn:E1; simpl; [|discriminate].
    intros H. destruct (IH plan1 plan' H) as (cg & hg & mg & Hc & Hh & Hm & Hp & He & H3 & H2 & Hq).
    apply plan_topic_spec in E1. destruct E1 as (g & Ht & Hcount & Hcase).
    destruct Hcase as [(Ec & Eh & Em & Hlt)|[(Ec & Eh & Em & Eq & Hlt)|(Ec & Eh & Em & Eq)]].
    + exists (g :: cg), hg, mg. rewrite Hc, Hh, Hm, Ec, Eh, Em, <- !app_assoc. simpl.
      split; [reflexivity|]. split; [reflexivity|]. split; [reflexivity|].
      split; [now rewrite Ht, Hp|].
      split; [intros x [<-|Hx]; [now rewrite Ht|now apply He]|].
      split; [intros x [<-|Hx]; [exact Hlt|now apply H3]|].
      split; [exact H2|]. discriminate.
    + exists cg, (g :: hg), mg. rewrite Hc, Hh, Hm, Ec, Eh, Em, <- !app_assoc. simpl.
      split; [reflexivity|]. split; [reflexivity|]. split; [reflexivity|].
      split.
      { rewrite !map_app. simpl. rewrite <- Permutation_middle.
        rewrite <- map_app, Ht. constructor.
        rewrite <- Hp. now rewrite !map_app. }
      split.
      { intros x Hx. apply in_app_iff in Hx. destruct Hx as [Hx|[<-|Hx]].
        - apply He. apply in_app_iff. now left.
        - now rewrite Ht.
        - apply He. apply in_app_iff. now right. }
      split; [exact H3|].
      split; [intros x [<-|Hx]; [exact Hlt|now apply H2]|].
      intros Hcg. rewrite (Hq Hcg). exact Eq.
    + exists cg, hg, (g :: mg). rewrite Hc, Hh, Hm, Ec, Eh, Em, <- !app_assoc. simpl.
      split; [reflexivity|]. split; [reflexivity|]. split; [reflexivity|].
      split.
      { rewrite !map_app. simpl. rewrite app_assoc, <- Permutation_middle.
        rewrite <- app_assoc, Ht. constructor.
        rewrite <- Hp. now rewrite !map_app. }
      split.
      { intros x Hx. rewrite app_assoc in Hx. apply in_app_iff in Hx.
        destruct Hx as [Hx|[<-|Hx]].
        - apply He. rewrite app_assoc. apply in_app_iff. now left.
        - now rewrite Ht.
        - apply He. rewrite app_assoc. apply in_app_iff. now right. }
      split; [exact H3|]. split; [exact H2|].
      intros Hcg. rewrite (Hq Hcg). exact Eq.
Qed.

(** X29. When [generate_scraping_plan] returns, every topic of the
    requirements is in exactly one of the three lists of the plan, with
    the number of catalog items of the topic as its [existing_count]; a
    critical gap has fewer than 3 items and a high-priority gap fewer
    than 2; and queries are scheduled only when there is a critical gap. *)
Theorem scraping_plan_partitions_topics (c : catalog) (topic_requirements : json)
    (plan : scraping_plan) :
  generate_scraping_plan c topic_requirements = Returned plan ->
  exists topics,
    topic_requirements = JObj topics
    /\ map gap_topic (critical_gaps plan ++ high_priority plan ++ medium_priority plan)
       ≡ₚ map fst topics
    /\ (forall g, In g (critical_gaps plan ++ high_priority plan ++ medium_priority plan) ->
          gap_existing_count g = length (get_for_topic c (gap_topic g)))
    /\ (forall g, In g (critical_gaps plan) -> gap_existing_count g < 3)
    /\ (forall g, In g (high_priority plan) -> gap_existing_count g < 2)
    /\ (critical_gaps plan = [] -> queries_to_execute plan = []).
Proof.
  unfold generate_scraping_plan.
  destruct topic_requirements as [| | | | | |topics]; simpl; try discriminate.
  intros H. apply plan_topics_spec in H.
  destruct H as (cg & hg & mg & Hc & Hh & Hm & Hp & He & H3 & H2 & Hq).
  simpl in Hc, Hh, Hm, Hq. subst cg hg mg.
  exists topics. auto 10.
Qed.

Lemma scraping_plan_partitions_topics_witness :
  exists plan,
    generate_scraping_plan empty_catalog
      (JObj [ ("rasht", JObj [ ("priority", JStr "critical");
                               ("search_queries", JArr [JStr "Rasht bazaar 2026"]) ]);
              ("mossadegh", JObj [ ("priority", JStr "low") ]) ])
    = Returned plan
    /\ length (critical_gaps plan) = 1.
Proof.
  assert (E : exists plan,
             generate_scraping_plan empty_catalog
               (JObj [ ("rasht", JObj [ ("priority", JStr "critical");
                                        ("search_queries", JArr [JStr "Rasht bazaar 2026"]) ]);
                       ("mossadegh", JObj [ ("priority", JStr "low") ]) ])
             = Returned plan) by (eexists; reflexivity).
  destruct E as (plan & E).
  destruct (scraping_plan_partitions_topics _ _ _ E) as (_ & _ & _).
  eexists. split; reflexivity.
Defined.

(** ** The [refresh] command *)

Lemma digit_range (n : N) : (48 <= N_of_ascii (digit n) <= 57)%N.
Proof.
  unfold digit. pose proof (N.mod_lt n 10 ltac:(discriminate)) as H.
  remember (n mod 10)%N as r eqn:Hr. clear Hr.
  rewrite N_ascii_embedding by lia. lia.
Qed.

Lemma digit_not (n : N) (c : ascii) :
  (N_of_ascii c < 48 \/ 57 < N_of_ascii c)%N -> Ascii.eqb (digit n) c = false.
Proof.
  intros H. apply Ascii.eqb_neq. intros E. pose proof (digit_range n) as Hr.
  rewrite E in Hr. lia.
Qed.

Lemma str_in_after_draft (i x : string) (n : N) :
  str_in (String (digit n) i) ("draft_" +:+ x) = true ->
  str_in (String (digit n) i) x = true.
Proof.
  change ("draft_" +:+ x)
    with (String "d" (String "r" (String "a" (String "f" (String "t" (String "_" x)))))).
  cbn [str_in str_startswith].
  rewrite !digit_not by (simpl; lia). auto.
Qed.

Lemma contains_json_bare_id (t t' : datetime) :
  contains_json (strftime_id t) (draft_file (strftime_id t')) = true ->
  strftime_id t = strftime_id t'.
Proof.
  unfold contains_json, draft_file.
  rewrite <- app_str_assoc, strip_suffix_app by discriminate.
  intros H.
  assert (Hhead : exists n i, strftime_id t = String (digit n) i).
  { unfold strftime_id, pad4, pad2. simpl. eauto. }
  destruct Hhead as (n & i & Ei). rewrite Ei in H.
  apply str_in_after_draft in H. rewrite <- Ei in H.
  apply str_in_same_length in H; [exact H|]. now rewrite !strftime_id_length.
Qed.

Section RefreshFacts.
Context {L : DirListing}.

(** X30. In the [refresh] command a breaking draft is approved only if the
    clock did not tick between the handler's reading and the reading of
    [save_draft].  With a [pending] folder of program-named files: when
    both readings fall in one second the new draft ends in [approved];
    when they do not, and no pending file is named after the handler's
    reading, the draft stays in [pending] and [approved] is unchanged,
    although the handler reports it as approved. *)
Theorem refresh_breaking_needs_same_second (claude : option (string -> option string))
    (now_id : datetime) (clk : datetime * datetime) (t : list (string * json))
    (st : store) :
  program_named (pending st) ->
  has_text (JObj t) = true ->
  let name := draft_file (strftime_id (fst clk)) in
  let st' := snd (refresh_breaking claude now_id clk (JObj t) st) in
  fst (refresh_breaking claude now_id clk (JObj t) st) = Returned tt
  /\ (strftime_id now_id = strftime_id (fst clk) ->
      pending st' !! name = None
      /\ exists draft, approved st' !! name = Some draft
                       /\ has_id (strftime_id (fst clk)) draft = true)
  /\ (strftime_id now_id <> strftime_id (fst clk) ->
      pending st !! draft_file (strftime_id now_id) = None ->
      approved st' = approved st
      /\ exists draft, pending st' !! name = Some draft
                       /\ has_id (strftime_id (fst clk)) draft = true).
Proof.
  intros Hnamed Htext name st'. subst st'. unfold refresh_breaking.
  simpl in Htext. unfold text_of in Htext.
  destruct (py_get_default "text" (JStr "") t) as [| | | |english| |]; try discriminate.
  unfold save_draft. cbv zeta. cbn [fst snd].
  set (draft := new_draft _ _ _ _ _ _ _ _).
  assert (Hid : has_id (strftime_id (fst clk)) draft = true) by apply has_id_first.
  fold name.
  assert (Hplain : plain_id (strftime_id now_id) = true) by apply strftime_id_plain.
  unfold approve_draft. rewrite (glob_invalid_plain _ Hplain).
  cbn [pending approved posted].
  split.
  { destruct (glob_first _ _) as [[n d]|]; reflexivity. }
  split.
  - intros Esame.
    assert (Hfirst : glob_first (strftime_id now_id) (<[name := draft]> (pending st))
                     = Some (name, draft)).
    { apply glob_first_only.
      - apply lookup_insert_eq.
      - rewrite glob_id_plain by exact Hplain. rewrite Esame.
        apply contains_json_draft_file.
      - intros n' c' Hn' Hg.
        destruct (decide (name = n')) as [<-|Hne]; [reflexivity|].
        rewrite lookup_insert_ne in Hn' by exact Hne.
        destruct (Hnamed _ _ Hn') as [t' ->].
        rewrite glob_id_plain in Hg by exact Hplain.
        apply contains_json_bare_id in Hg. unfold name. now rewrite <- Hg, Esame. }
    rewrite Hfirst. cbn [snd pending approved].
    split; [apply lookup_delete_eq|]. exists draft. split; [apply lookup_insert_eq|exact Hid].
  - intros Hdiff Hfree.
    assert (Hnone : glob_first (strftime_id now_id) (<[name := draft]> (pending st)) = None).
    { apply glob_first_None. intros n c Hn.
      rewrite glob_id_plain by exact Hplain.
      destruct (contains_json (strftime_id now_id) n) eqn:Ec; [exfalso|reflexivity].
      destruct (decide (name = n)) as [<-|Hne].
      - apply contains_json_bare_id in Ec. contradiction.
      - rewrite lookup_insert_ne in Hn by exact Hne.
        destruct (Hnamed _ _ Hn) as [t' ->].
        apply contains_json_bare_id in Ec. rewrite <- Ec in Hn. congruence. }
    rewrite Hnone. cbn [snd pending approved].
    split; [reflexivity|]. exists draft. split; [apply lookup_insert_eq|exact Hid].
Qed.
End RefreshFacts.

(** *** Examples *)

Lemma list_pending_newest_first_witness :
  StronglySorted (fun a b => String.leb (created_at_of b) (created_at_of a) = true)
    [older_draft].
Proof.
  apply (list_pending_newest_first one_pending [older_draft]).
  vm_compute. reflexivity.
Defined.

Lemma attach_appends_media_witness :
  posted (snd (attach "20260116" "maps/ethnic-distribution/a.png" one_pending))
  = posted one_pending.
Proof.
  apply (attach_appends_media "20260116" "maps/ethnic-distribution/a.png" one_pending).
  vm_compute. reflexivity.
Defined.

Lemma refresh_breaking_needs_same_second_witness :
  approved (snd (refresh_breaking None noon (noon_later, noon_later)
                   (JObj [ ("text", JStr "Fire in Rasht bazaar") ]) empty_store))
  = approved empty_store.
Proof.
  destruct (refresh_breaking_needs_same_second None noon (noon_later, noon_later)
              [ ("text", JStr "Fire in Rasht bazaar") ] empty_store) as (_ & _ & H).
  - intros n doc Hn. simpl in Hn. rewrite lookup_empty in Hn. discriminate.
  - reflexivity.
  - apply H.
    + vm_compute. discriminate.
    + apply lookup_empty.
Defined.
